(** * repmgrd: failover control loop of the replication manager daemon

    A shallow embedding of [repmgrd.c]: the election engine
    ([do_election], [poll_best_candidate]), the failover orchestrator
    ([promote_self], [follow_new_primary], [wait_primary_notification],
    [notify_followers]), the connection supervisor ([try_reconnect]) and
    the role monitor ([start_monitoring], [monitor_streaming_primary],
    [monitor_streaming_standby], [reset_node_voting_status]).

    The database-side primitives and libpq are collaborators of the daemon
    and are not defined in [repmgrd.c]; they are taken as parameters acting
    on an abstract world.  Every call the daemon makes to a collaborator is
    recorded, with its result, in an event trace.  Log output has no effect
    on the control flow and is left out. *)

From Stdlib Require Import ZArith List String Bool Lia.
From Stdlib Require Import Ascii.
Import ListNotations.
Open Scope Z_scope.

(** ** Enumerations *)

Inductive NodeStatus : Type :=
| NODE_STATUS_UNKNOWN
| NODE_STATUS_UP
| NODE_STATUS_DOWN.

Inductive FailoverState : Type :=
| FAILOVER_STATE_UNKNOWN
| FAILOVER_STATE_NONE
| FAILOVER_STATE_PROMOTED
| FAILOVER_STATE_PROMOTION_FAILED
| FAILOVER_STATE_PRIMARY_REAPPEARED
| FAILOVER_STATE_LOCAL_NODE_FAILURE
| FAILOVER_STATE_WAITING_NEW_PRIMARY
| FAILOVER_STATE_FOLLOWED_NEW_PRIMARY
| FAILOVER_STATE_FOLLOWING_ORIGINAL_PRIMARY
| FAILOVER_STATE_NO_NEW_PRIMARY
| FAILOVER_STATE_FOLLOW_FAIL
| FAILOVER_STATE_NODE_NOTIFICATION_ERROR.

Inductive ElectionResult : Type :=
| ELECTION_NOT_CANDIDATE
| ELECTION_WON
| ELECTION_LOST.

(** Declared in [voting.h]. *)
Inductive NodeVotingStatus : Type :=
| VS_UNKNOWN
| VS_NO_VOTE
| VS_VOTE_REQUEST_RECEIVED
| VS_VOTE_INITIATED.

(** Declared in the database utilities of repmgr and in libpq.  The daemon
    only ever tests a connection status against [CONNECTION_OK];
    [CONNECTION_BAD] stands for every other status. *)
Inductive t_server_type : Type := UNKNOWN | PRIMARY | STANDBY | WITNESS | BDR.
Inductive ConnStatusType : Type := CONNECTION_OK | CONNECTION_BAD.
Inductive RecoveryType : Type := RECTYPE_UNKNOWN | RECTYPE_PRIMARY | RECTYPE_STANDBY.
Inductive RecordStatus : Type := RECORD_ERROR | RECORD_FOUND | RECORD_NOT_FOUND.

Definition NodeVotingStatus_eqb (a b : NodeVotingStatus) : bool :=
  match a, b with
  | VS_UNKNOWN, VS_UNKNOWN
  | VS_NO_VOTE, VS_NO_VOTE
  | VS_VOTE_REQUEST_RECEIVED, VS_VOTE_REQUEST_RECEIVED
  | VS_VOTE_INITIATED, VS_VOTE_INITIATED => true
  | _, _ => false
  end.

Definition FailoverState_eqb (a b : FailoverState) : bool :=
  match a, b with
  | FAILOVER_STATE_UNKNOWN, FAILOVER_STATE_UNKNOWN
  | FAILOVER_STATE_NONE, FAILOVER_STATE_NONE
  | FAILOVER_STATE_PROMOTED, FAILOVER_STATE_PROMOTED
  | FAILOVER_STATE_PROMOTION_FAILED, FAILOVER_STATE_PROMOTION_FAILED
  | FAILOVER_STATE_PRIMARY_REAPPEARED, FAILOVER_STATE_PRIMARY_REAPPEARED
  | FAILOVER_STATE_LOCAL_NODE_FAILURE, FAILOVER_STATE_LOCAL_NODE_FAILURE
  | FAILOVER_STATE_WAITING_NEW_PRIMARY, FAILOVER_STATE_WAITING_NEW_PRIMARY
  | FAILOVER_STATE_FOLLOWED_NEW_PRIMARY, FAILOVER_STATE_FOLLOWED_NEW_PRIMARY
  | FAILOVER_STATE_FOLLOWING_ORIGINAL_PRIMARY, FAILOVER_STATE_FOLLOWING_ORIGINAL_PRIMARY
  | FAILOVER_STATE_NO_NEW_PRIMARY, FAILOVER_STATE_NO_NEW_PRIMARY
  | FAILOVER_STATE_FOLLOW_FAIL, FAILOVER_STATE_FOLLOW_FAIL
  | FAILOVER_STATE_NODE_NOTIFICATION_ERROR, FAILOVER_STATE_NODE_NOTIFICATION_ERROR => true
  | _, _ => false
  end.

(** ** Connections and node records *)

(** A [PGconn *]: [None] is the null pointer, [Some h] a handle.  Two
    variables holding the same handle alias the same connection, as
    [primary_conn = upstream_conn] does in the source. *)
Definition PGconn : Type := option nat.

(** [t_node_info], with the fields the daemon reads or writes.  Integers
    ([int] ids and priorities, the 64-bit [XLogRecPtr]) are taken as [Z];
    the daemon only compares them. *)
Record t_node_info : Type := mk_node_info {
  node_id : Z;
  upstream_node_id : Z;
  type : t_server_type;
  node_name : string;
  conninfo : string;
  priority : Z;
  active : bool;
  last_wal_receive_lsn : Z;
  is_visible : bool;
  conn : PGconn
}.

(** PostgreSQL's invalid WAL position. *)
Definition InvalidXLogRecPtr : Z := 0.

Definition set_last_wal_receive_lsn (v : Z) (n : t_node_info) : t_node_info :=
  mk_node_info (node_id n) (upstream_node_id n) (type n) (node_name n)
    (conninfo n) (priority n) (active n) v (is_visible n) (conn n).

Definition set_is_visible (v : bool) (n : t_node_info) : t_node_info :=
  mk_node_info (node_id n) (upstream_node_id n) (type n) (node_name n)
    (conninfo n) (priority n) (active n) (last_wal_receive_lsn n) v (conn n).

Definition set_conn (v : PGconn) (n : t_node_info) : t_node_info :=
  mk_node_info (node_id n) (upstream_node_id n) (type n) (node_name n)
    (conninfo n) (priority n) (active n) (last_wal_receive_lsn n)
    (is_visible n) v.

(** A [NodeInfoList] is a linked list of cells; [node_count] is its
    length. *)
Definition NodeInfoList : Type := list t_node_info.

Definition node_count (l : NodeInfoList) : Z := Z.of_nat (List.length l).

(** ** Best-candidate poll *)

(** One turn of the [for] loop of [poll_best_candidate]: the three-way
    [if / else if / else if] of the source.  The comparison on [node_id]
    hangs off the [else] of the LSN equality test, so it is reached when the
    cell's LSN is lower than the best candidate's. *)
Definition poll_step (best_candidate cell : t_node_info) : t_node_info :=
  if last_wal_receive_lsn cell >? last_wal_receive_lsn best_candidate then
    cell
  else if last_wal_receive_lsn cell =? last_wal_receive_lsn best_candidate then
    (if priority cell >? priority best_candidate then cell
     else best_candidate)
  else if node_id cell <? node_id best_candidate then
    cell
  else best_candidate.

(** [poll_best_candidate]: starts from the local node and walks the
    sibling list from its head. *)
Definition poll_best_candidate (local_node_info : t_node_info)
    (standby_nodes : NodeInfoList) : t_node_info :=
  fold_left poll_step standby_nodes local_node_info.

(** The ordering of the tie-break as the specification words it: highest
    LSN, then highest priority, then lowest node id.  [better a b] holds
    when [a] is strictly preferred to [b]. *)
Definition better (a b : t_node_info) : bool :=
  (last_wal_receive_lsn a >? last_wal_receive_lsn b)
  || ((last_wal_receive_lsn a =? last_wal_receive_lsn b)
      && ((priority a >? priority b)
          || ((priority a =? priority b) && (node_id a <? node_id b)))).

(** [is_best c l]: [c] is in [l] and no node of [l] is preferred to it. *)
Definition is_best (c : t_node_info) (l : list t_node_info) : Prop :=
  In c l /\ forall n, In n l -> better n c = false.

(** ** Configuration and process-wide state *)

(** The options of [t_configuration_options] the daemon consults. *)
Record t_configuration_options : Type := mk_config {
  cfg_node_id : Z;
  cfg_conninfo : string;
  promote_command : string;
  service_promote_command : string;
  follow_command : string;
  promote_delay : Z;
  log_status_interval : Z
}.

(** The file-scope variables of [repmgrd.c]. *)
Record Globals : Type := mk_globals {
  config_file_options : t_configuration_options;
  local_node_info : t_node_info;
  local_conn : PGconn;
  upstream_node_info : t_node_info;
  upstream_conn : PGconn;
  primary_conn : PGconn;
  failover_state : FailoverState;
  standby_nodes : NodeInfoList;
  startup_event_logged : bool
}.

Definition set_local_node_info (v : t_node_info) (g : Globals) : Globals :=
  mk_globals (config_file_options g) v (local_conn g) (upstream_node_info g)
    (upstream_conn g) (primary_conn g) (failover_state g) (standby_nodes g)
    (startup_event_logged g).

Definition set_local_conn (v : PGconn) (g : Globals) : Globals :=
  mk_globals (config_file_options g) (local_node_info g) v (upstream_node_info g)
    (upstream_conn g) (primary_conn g) (failover_state g) (standby_nodes g)
    (startup_event_logged g).

Definition set_upstream_node_info (v : t_node_info) (g : Globals) : Globals :=
  mk_globals (config_file_options g) (local_node_info g) (local_conn g) v
    (upstream_conn g) (primary_conn g) (failover_state g) (standby_nodes g)
    (startup_event_logged g).

Definition set_upstream_conn (v : PGconn) (g : Globals) : Globals :=
  mk_globals (config_file_options g) (local_node_info g) (local_conn g)
    (upstream_node_info g) v (primary_conn g) (failover_state g)
    (standby_nodes g) (startup_event_logged g).

Definition set_primary_conn (v : PGconn) (g : Globals) : Globals :=
  mk_globals (config_file_options g) (local_node_info g) (local_conn g)
    (upstream_node_info g) (upstream_conn g) v (failover_state g)
    (standby_nodes g) (startup_event_logged g).

Definition set_failover_state (v : FailoverState) (g : Globals) : Globals :=
  mk_globals (config_file_options g) (local_node_info g) (local_conn g)
    (upstream_node_info g) (upstream_conn g) (primary_conn g) v
    (standby_nodes g) (startup_event_logged g).

Definition set_standby_nodes (v : NodeInfoList) (g : Globals) : Globals :=
  mk_globals (config_file_options g) (local_node_info g) (local_conn g)
    (upstream_node_info g) (upstream_conn g) (primary_conn g)
    (failover_state g) v (startup_event_logged g).

Definition set_startup_event_logged (v : bool) (g : Globals) : Globals :=
  mk_globals (config_file_options g) (local_node_info g) (local_conn g)
    (upstream_node_info g) (upstream_conn g) (primary_conn g)
    (failover_state g) (standby_nodes g) v.

(** ** Calls to collaborators, as observed *)

Inductive Event : Type :=
| EvRand (r : Z)
| EvUsleep (microsec : Z)
| EvSleep (seconds : Z)
| EvSystem (command : string) (r : Z)
| EvIsServerAvailable (conninfo : string) (available : bool)
| EvEstablishDbConnection (conninfo : string) (exit_on_error : bool) (c : PGconn)
| EvPQstatus (c : PGconn) (status : ConnStatusType)
| EvPQfinish (c : PGconn)
| EvGetVotingStatus (c : PGconn) (voting_status : NodeVotingStatus)
| EvSetVotingStatusInitiated (c : PGconn) (electoral_term : Z)
| EvResetVotingStatus (c : PGconn)
| EvGetActiveSiblingNodeRecords (c : PGconn) (node upstream : Z) (found : Z)
| EvAnnounceCandidature (c : PGconn) (peer : Z) (electoral_term : Z) (accepted : bool)
| EvRequestVote (c : PGconn) (peer : Z) (electoral_term : Z) (votes : Z) (peer_lsn : Z)
| EvGetLastWalReceiveLocation (c : PGconn) (lsn : Z)
| EvGetNodeRecord (c : PGconn) (id : Z) (record_status : RecordStatus)
    (node_info : t_node_info)
| EvGetPrimaryConnection (c : PGconn) (primary : PGconn) (primary_node_id : Z)
| EvGetRecoveryType (c : PGconn) (recovery_type : RecoveryType)
| EvGetNewPrimary (c : PGconn) (found : bool) (new_primary_id : Z)
| EvNotifyFollowPrimary (c : PGconn) (follow_node_id : Z)
| EvCreateEventRecord (c : PGconn) (node : Z) (event : string) (successful : bool).

(** The collaborators of the daemon: libc ([rand], [sleep], [system]),
    libpq and the database-side primitives of repmgr.  None is defined in
    [repmgrd.c]; each is a parameter that reads and advances the world.
    A primitive that fills a record through a pointer returns the record
    as it leaves it.  [ext_node_info_initializer] is the value of the macro
    [T_NODE_INFO_INITIALIZER] of repmgr's headers. *)
Record Collaborators (World : Type) : Type := mk_collaborators {
  ext_node_info_initializer : t_node_info;
  ext_rand : World -> Z * World;
  ext_pg_usleep : Z -> World -> World;
  ext_sleep : Z -> World -> World;
  ext_system : string -> World -> Z * World;
  ext_conn_status : nat -> World -> ConnStatusType;
  ext_is_server_available : string -> World -> bool * World;
  ext_establish_db_connection : string -> bool -> World -> PGconn * World;
  ext_PQfinish : PGconn -> World -> World;
  ext_get_voting_status : PGconn -> World -> NodeVotingStatus * World;
  ext_set_voting_status_initiated : PGconn -> World -> Z * World;
  ext_reset_voting_status : PGconn -> World -> World;
  ext_get_active_sibling_node_records :
    PGconn -> Z -> Z -> World -> NodeInfoList * World;
  ext_announce_candidature :
    PGconn -> t_node_info -> t_node_info -> Z -> World -> bool * World;
  ext_request_vote :
    PGconn -> t_node_info -> t_node_info -> Z -> World -> (Z * t_node_info) * World;
  ext_get_last_wal_receive_location : PGconn -> World -> Z * World;
  ext_get_node_record :
    PGconn -> Z -> t_node_info -> World -> (RecordStatus * t_node_info) * World;
  ext_get_primary_connection : PGconn -> World -> (PGconn * Z) * World;
  ext_get_recovery_type : PGconn -> World -> RecoveryType * World;
  ext_get_new_primary : PGconn -> World -> (bool * Z) * World;
  ext_notify_follow_primary : PGconn -> Z -> World -> World;
  ext_create_event_record : PGconn -> Z -> string -> bool -> World -> World
}.

Arguments ext_node_info_initializer {World}.
Arguments ext_rand {World}.
Arguments ext_pg_usleep {World}.
Arguments ext_sleep {World}.
Arguments ext_system {World}.
Arguments ext_conn_status {World}.
Arguments ext_is_server_available {World}.
Arguments ext_establish_db_connection {World}.
Arguments ext_PQfinish {World}.
Arguments ext_get_voting_status {World}.
Arguments ext_set_voting_status_initiated {World}.
Arguments ext_reset_voting_status {World}.
Arguments ext_get_active_sibling_node_records {World}.
Arguments ext_announce_candidature {World}.
Arguments ext_request_vote {World}.
Arguments ext_get_last_wal_receive_location {World}.
Arguments ext_get_node_record {World}.
Arguments ext_get_primary_connection {World}.
Arguments ext_get_recovery_type {World}.
Arguments ext_get_new_primary {World}.
Arguments ext_notify_follow_primary {World}.
Arguments ext_create_event_record {World}.

(** ** The daemon's monad: state passing with an event log *)

Record State (World : Type) : Type := mk_state {
  world : World;
  globals : Globals
}.
Arguments mk_state {World}.
Arguments world {World}.
Arguments globals {World}.

Record Outcome (World A : Type) : Type := mk_outcome {
  value : A;
  final : State World;
  events : list Event
}.
Arguments mk_outcome {World A}.
Arguments value {World A}.
Arguments final {World A}.
Arguments events {World A}.

Definition M (World A : Type) : Type := State World -> Outcome World A.

Definition ret {World A} (a : A) : M World A :=
  fun s => mk_outcome a s [].

Definition bind {World A B} (m : M World A) (k : A -> M World B) : M World B :=
  fun s =>
    match m s with
    | mk_outcome a s1 evs1 =>
        match k a s1 with
        | mk_outcome b s2 evs2 => mk_outcome b s2 (evs1 ++ evs2)
        end
    end.

Declare Scope daemon_scope.
Delimit Scope daemon_scope with daemon.
Notation "x <- c1 ;; c2" := (bind c1 (fun x => c2))
  (at level 61, c1 at next level, right associativity) : daemon_scope.
Notation "c1 ;; c2" := (bind c1 (fun _ => c2))
  (at level 61, right associativity) : daemon_scope.
Open Scope daemon_scope.

Definition get_globals {World} : M World Globals :=
  fun s => mk_outcome (globals s) s [].

Definition modify {World} (f : Globals -> Globals) : M World unit :=
  fun s => mk_outcome tt (mk_state (world s) (f (globals s))) [].

(** A call that returns a result. *)
Definition call {World A} (f : World -> A * World) (ev : A -> Event) : M World A :=
  fun s =>
    let r := f (world s) in
    mk_outcome (fst r) (mk_state (snd r) (globals s)) [ev (fst r)].

(** A call whose result, if any, the daemon ignores. *)
Definition call_ {World} (f : World -> World) (ev : Event) : M World unit :=
  fun s => mk_outcome tt (mk_state (f (world s)) (globals s)) [ev].

Definition conn_ok (st : ConnStatusType) : bool :=
  match st with CONNECTION_OK => true | CONNECTION_BAD => false end.

(** Exits of the loops and of the [switch] of the standby monitor. *)
Inductive SwitchExit : Type := SwitchReturn | SwitchBreak.
Inductive LoopExit : Type := LoopReturn | LoopNext (upstream_node_status : NodeStatus).
Inductive OuterExit : Type := OuterReturn | OuterNext | OuterOutOfFuel.

(** The jitter of [do_election], in microseconds:
    [(long) ((rand() % 50) + 10) * 10000].  C's [%] truncates, as [Z.rem]
    does. *)
Definition rand_wait (r : Z) : Z := (Z.rem r 50 + 10) * 10000.

Section Daemon.

Context {World : Type} (env : Collaborators World).

#[local] Abbreviation M := (M World).

(** *** Collaborator calls *)

(** [PQstatus] reads the connection object; a null pointer is
    [CONNECTION_BAD]. *)
Definition PQstatus (c : PGconn) : M ConnStatusType :=
  fun s =>
    let st :=
      match c with
      | None => CONNECTION_BAD
      | Some h => ext_conn_status env h (world s)
      end in
    mk_outcome st s [EvPQstatus c st].

Definition rand : M Z := call (ext_rand env) EvRand.

Definition pg_usleep (microsec : Z) : M unit :=
  call_ (ext_pg_usleep env microsec) (EvUsleep microsec).

Definition sleep (seconds : Z) : M unit :=
  call_ (ext_sleep env seconds) (EvSleep seconds).

Definition system (command : string) : M Z :=
  call (ext_system env command) (EvSystem command).

Definition is_server_available (ci : string) : M bool :=
  call (ext_is_server_available env ci) (EvIsServerAvailable ci).

(** The source tests the status of the connection it gets back whatever
    [exit_on_error] it passed. *)
Definition establish_db_connection (ci : string) (exit_on_error : bool) : M PGconn :=
  call (ext_establish_db_connection env ci exit_on_error)
       (EvEstablishDbConnection ci exit_on_error).

Definition PQfinish (c : PGconn) : M unit :=
  call_ (ext_PQfinish env c) (EvPQfinish c).

Definition get_voting_status (c : PGconn) : M NodeVotingStatus :=
  call (ext_get_voting_status env c) (EvGetVotingStatus c).

Definition set_voting_status_initiated (c : PGconn) : M Z :=
  call (ext_set_voting_status_initiated env c) (EvSetVotingStatusInitiated c).

Definition reset_voting_status (c : PGconn) : M unit :=
  call_ (ext_reset_voting_status env c) (EvResetVotingStatus c).

Definition get_active_sibling_node_records (c : PGconn) (node upstream : Z)
  : M NodeInfoList :=
  call (ext_get_active_sibling_node_records env c node upstream)
       (fun l => EvGetActiveSiblingNodeRecords c node upstream (node_count l)).

Definition announce_candidature (c : PGconn) (this_node other_node : t_node_info)
    (electoral_term : Z) : M bool :=
  call (ext_announce_candidature env c this_node other_node electoral_term)
       (EvAnnounceCandidature c (node_id other_node) electoral_term).

Definition request_vote (c : PGconn) (this_node other_node : t_node_info)
    (electoral_term : Z) : M (Z * t_node_info) :=
  call (ext_request_vote env c this_node other_node electoral_term)
       (fun r => EvRequestVote c (node_id other_node) electoral_term (fst r)
                   (last_wal_receive_lsn (snd r))).

Definition get_last_wal_receive_location (c : PGconn) : M Z :=
  call (ext_get_last_wal_receive_location env c) (EvGetLastWalReceiveLocation c).

Definition get_node_record (c : PGconn) (id : Z) (node_info : t_node_info)
  : M (RecordStatus * t_node_info) :=
  call (ext_get_node_record env c id node_info)
       (fun r => EvGetNodeRecord c id (fst r) (snd r)).

Definition get_primary_connection (c : PGconn) : M (PGconn * Z) :=
  call (ext_get_primary_connection env c)
       (fun r => EvGetPrimaryConnection c (fst r) (snd r)).

Definition get_recovery_type (c : PGconn) : M RecoveryType :=
  call (ext_get_recovery_type env c) (EvGetRecoveryType c).

Definition get_new_primary (c : PGconn) : M (bool * Z) :=
  call (ext_get_new_primary env c) (fun r => EvGetNewPrimary c (fst r) (snd r)).

Definition notify_follow_primary (c : PGconn) (follow_node_id : Z) : M unit :=
  call_ (ext_notify_follow_primary env c follow_node_id)
        (EvNotifyFollowPrimary c follow_node_id).

Definition create_event_record (c : PGconn) (node : Z) (event : string)
    (successful : bool) : M unit :=
  call_ (ext_create_event_record env c node event successful)
        (EvCreateEventRecord c node event successful).

Definition clear_node_info_list : M unit := modify (set_standby_nodes []).

Definition T_NODE_INFO_INITIALIZER : t_node_info := ext_node_info_initializer env.

(** *** Connection supervisor *)

(** [int max_attempts = 5;] *)
Definition max_attempts : nat := 5.

(** The [for (i = 0; i < max_attempts; i++)] loop of [try_reconnect], by
    the number of attempts left.  [Some conn] is the early [return conn];
    [None] is the loop running to its end. *)
Fixpoint try_reconnect_attempts (attempts_left : nat) (ci : string)
  : M (option PGconn) :=
  match attempts_left with
  | O => ret None
  | S n =>
      available <- is_server_available ci ;;
      if available then
        c <- establish_db_connection ci false ;;
        st <- PQstatus c ;;
        if conn_ok st then ret (Some c)
        else PQfinish c ;; sleep 1 ;; try_reconnect_attempts n ci
      else sleep 1 ;; try_reconnect_attempts n ci
  end.

(** [try_reconnect]: the handle returned and the value left in
    [*node_status]. *)
Definition try_reconnect (ci : string) : M (PGconn * NodeStatus) :=
  r <- try_reconnect_attempts max_attempts ci ;;
  match r with
  | Some c => ret (c, NODE_STATUS_UP)
  | None => ret (None, NODE_STATUS_DOWN)
  end.

(** *** Election engine *)

(** First loop of [do_election]: connect to each sibling and announce the
    candidature.  Returns the cells as the loop leaves them,
    [visible_nodes] and [other_node_is_candidate]; the [break] leaves the
    cells after the rival untouched. *)
Fixpoint announce_loop (electoral_term : Z) (cells : NodeInfoList)
    (visible_nodes : Z) : M (NodeInfoList * Z * bool) :=
  match cells with
  | [] => ret ([], visible_nodes, false)
  | cell :: rest =>
      let cell0 := set_is_visible false cell in
      c <- establish_db_connection (conninfo cell0) false ;;
      let cell1 := set_conn c cell0 in
      st <- PQstatus c ;;
      if negb (conn_ok st) then
        r <- announce_loop electoral_term rest visible_nodes ;;
        ret (cell1 :: fst (fst r), snd (fst r), snd r)
      else
        g <- get_globals ;;
        accepted <- announce_candidature c (local_node_info g) cell1 electoral_term ;;
        if negb accepted then ret (cell1 :: rest, visible_nodes, true)
        else
          r <- announce_loop electoral_term rest (visible_nodes + 1) ;;
          ret (set_is_visible true cell1 :: fst (fst r), snd (fst r), snd r)
  end.

(** Second loop of [do_election]: request a vote from each visible
    sibling.  Returns the cells, [votes_for_me] and
    [other_node_is_ahead]. *)
Fixpoint vote_loop (electoral_term : Z) (cells : NodeInfoList)
    (votes_for_me : Z) (other_node_is_ahead : bool)
  : M (NodeInfoList * Z * bool) :=
  match cells with
  | [] => ret ([], votes_for_me, other_node_is_ahead)
  | cell :: rest =>
      if negb (is_visible cell) then
        r <- vote_loop electoral_term rest votes_for_me other_node_is_ahead ;;
        ret (cell :: fst (fst r), snd (fst r), snd r)
      else
        g <- get_globals ;;
        v <- request_vote (conn cell) (local_node_info g) cell electoral_term ;;
        let cell1 := snd v in
        let ahead :=
          if last_wal_receive_lsn cell1 >? last_wal_receive_lsn (local_node_info g)
          then true else other_node_is_ahead in
        PQfinish (conn cell1) ;;
        r <- vote_loop electoral_term rest (votes_for_me + fst v) ahead ;;
        ret (set_conn None cell1 :: fst (fst r), snd (fst r), snd r)
  end.

(** [do_election].  The counters [votes_for_me] and [visible_nodes] are C
    [int]s, taken as [Z]; the sums below are those of the C counters as
    long as they stay within the range of [int], which is the case when
    every sibling returns 0 or 1 as its vote and fewer than [INT_MAX]
    siblings are visible.  What is proved of the tally is proved under
    that condition. *)
Definition do_election : M ElectionResult :=
  r <- rand ;;
  pg_usleep (rand_wait r) ;;
  modify (fun g =>
    set_local_node_info
      (set_last_wal_receive_lsn InvalidXLogRecPtr (local_node_info g)) g) ;;
  g <- get_globals ;;
  voting_status <- get_voting_status (local_conn g) ;;
  if NodeVotingStatus_eqb voting_status VS_VOTE_REQUEST_RECEIVED then
    ret ELECTION_NOT_CANDIDATE
  else
    electoral_term <- set_voting_status_initiated (local_conn g) ;;
    clear_node_info_list ;;
    nodes <- get_active_sibling_node_records (local_conn g)
               (node_id (local_node_info g)) (node_id (upstream_node_info g)) ;;
    modify (set_standby_nodes nodes) ;;
    if node_count nodes =? 0 then ret ELECTION_WON
    else
      a <- announce_loop electoral_term nodes 1 ;;
      modify (set_standby_nodes (fst (fst a))) ;;
      let visible_nodes := snd (fst a) in
      if snd a then
        clear_node_info_list ;;
        ret ELECTION_NOT_CANDIDATE
      else
        lsn <- get_last_wal_receive_location (local_conn g) ;;
        modify (fun g =>
          set_local_node_info
            (set_last_wal_receive_lsn lsn (local_node_info g)) g) ;;
        g1 <- get_globals ;;
        v <- vote_loop electoral_term (standby_nodes g1) 0 false ;;
        modify (set_standby_nodes (fst (fst v))) ;;
        let votes_for_me :=
          if negb (snd v) then snd (fst v) + 1 else snd (fst v) in
        if votes_for_me =? visible_nodes then ret ELECTION_WON
        else ret ELECTION_LOST.

(** [reset_node_voting_status] *)
Definition reset_node_voting_status : M unit :=
  modify (set_failover_state FAILOVER_STATE_NONE) ;;
  g <- get_globals ;;
  st <- PQstatus (local_conn g) ;;
  if negb (conn_ok st) then ret tt
  else reset_voting_status (local_conn g).

(** *** Failover orchestrator *)

Definition promote_self : M FailoverState :=
  g <- get_globals ;;
  (if promote_delay (config_file_options g) >? 0
   then sleep (promote_delay (config_file_options g))
   else ret tt) ;;
  rec <- get_node_record (local_conn g) (upstream_node_id (local_node_info g))
           T_NODE_INFO_INITIALIZER ;;
  let failed_primary := snd rec in
  let command :=
    match service_promote_command (config_file_options g) with
    | EmptyString => promote_command (config_file_options g)
    | _ => service_promote_command (config_file_options g)
    end in
  r <- system command ;;
  (* connection should stay up, but check just in case *)
  st <- PQstatus (local_conn g) ;;
  local_ok <-
    (if negb (conn_ok st) then
       c <- establish_db_connection (conninfo (local_node_info g)) true ;;
       modify (set_local_conn c) ;;
       st' <- PQstatus c ;;
       ret (conn_ok st')
     else ret true) ;;
  if negb local_ok then ret FAILOVER_STATE_LOCAL_NODE_FAILURE
  else if negb (r =? 0) then
    g1 <- get_globals ;;
    p <- get_primary_connection (local_conn g1) ;;
    modify (set_primary_conn (fst p)) ;;
    pst <- PQstatus (fst p) ;;
    if conn_ok pst && (snd p =? node_id failed_primary) then
      create_event_record (fst p) (node_id (local_node_info g1))
        "repmgrd_failover_abort" true ;;
      ret FAILOVER_STATE_PRIMARY_REAPPEARED
    else ret FAILOVER_STATE_PROMOTION_FAILED
  else
    g1 <- get_globals ;;
    rec' <- get_node_record (local_conn g1) (node_id (local_node_info g1))
              (local_node_info g1) ;;
    modify (set_local_node_info (snd rec')) ;;
    g2 <- get_globals ;;
    create_event_record (local_conn g2) (node_id (local_node_info g2))
      "repmgrd_failover_promote" true ;;
    ret FAILOVER_STATE_PROMOTED.

(** The loop of [notify_followers] over the cells of the list. *)
Fixpoint notify_followers_loop (cells : NodeInfoList) (follow_node_id : Z)
  : M NodeInfoList :=
  match cells with
  | [] => ret []
  | cell :: rest =>
      st <- PQstatus (conn cell) ;;
      cell1 <-
        (if negb (conn_ok st) then
           c <- establish_db_connection (conninfo cell) false ;;
           ret (set_conn c cell)
         else ret cell) ;;
      st1 <- PQstatus (conn cell1) ;;
      (if negb (conn_ok st1) then ret tt
       else notify_follow_primary (conn cell1) follow_node_id) ;;
      rest' <- notify_followers_loop rest follow_node_id ;;
      ret (cell1 :: rest')
  end.

(** [notify_followers (&standby_nodes, follow_node_id)] *)
Definition notify_followers (follow_node_id : Z) : M unit :=
  g <- get_globals ;;
  cells <- notify_followers_loop (standby_nodes g) follow_node_id ;;
  modify (set_standby_nodes cells).

(** [int wait_primary_timeout = 60;] *)
Definition wait_primary_timeout : nat := 60.

(** The loop of [wait_primary_notification], by the number of polls left.
    [Some id] is [return true] with [*new_primary_id = id]. *)
Fixpoint wait_primary_polls (polls_left : nat) : M (option Z) :=
  match polls_left with
  | O => ret None
  | S n =>
      g <- get_globals ;;
      r <- get_new_primary (local_conn g) ;;
      if fst r then ret (Some (snd r))
      else sleep 1 ;; wait_primary_polls n
  end.

Definition wait_primary_notification : M (option Z) :=
  wait_primary_polls wait_primary_timeout.

Definition follow_new_primary (new_primary_id : Z) : M FailoverState :=
  g <- get_globals ;;
  rec_new <- get_node_record (local_conn g) new_primary_id T_NODE_INFO_INITIALIZER ;;
  let new_primary := snd rec_new in
  rec_failed <- get_node_record (local_conn g)
                  (upstream_node_id (local_node_info g)) T_NODE_INFO_INITIALIZER ;;
  let failed_primary := snd rec_failed in
  PQfinish (local_conn g) ;;
  modify (set_local_conn None) ;;
  pc <- establish_db_connection (conninfo new_primary) false ;;
  modify (set_primary_conn pc) ;;
  pst <- PQstatus pc ;;
  new_primary_ok <-
    (if conn_ok pst then
       rt <- get_recovery_type pc ;;
       match rt with
       | RECTYPE_PRIMARY => ret true
       | _ => PQfinish pc ;; ret false
       end
     else ret false) ;;
  if negb new_primary_ok then ret FAILOVER_STATE_FOLLOW_FAIL
  else
    r <- system (follow_command (config_file_options g)) ;;
    if negb (r =? 0) then
      old_primary_conn <- establish_db_connection (conninfo failed_primary) false ;;
      ost <- PQstatus old_primary_conn ;;
      if conn_ok ost then
        upstream_recovery_type <- get_recovery_type old_primary_conn ;;
        PQfinish old_primary_conn ;;
        match upstream_recovery_type with
        | RECTYPE_PRIMARY => ret FAILOVER_STATE_PRIMARY_REAPPEARED
        | _ => ret FAILOVER_STATE_FOLLOW_FAIL
        end
      else ret FAILOVER_STATE_FOLLOW_FAIL
    else
      g1 <- get_globals ;;
      rec_up <- get_node_record pc new_primary_id (upstream_node_info g1) ;;
      modify (set_upstream_node_info (snd rec_up)) ;;
      rec_local <- get_node_record pc (node_id (local_node_info g1))
                     (local_node_info g1) ;;
      modify (set_local_node_info (snd rec_local)) ;;
      lc <- establish_db_connection (conninfo (snd rec_local)) false ;;
      modify (set_local_conn lc) ;;
      create_event_record pc (node_id (snd rec_local))
        "repmgrd_failover_follow" true ;;
      ret FAILOVER_STATE_FOLLOWED_NEW_PRIMARY.

(** *** Role monitor *)

(** The body of [monitor_streaming_standby] once the upstream is still down
    after [try_reconnect], up to the [switch]: the election, the choice of
    the best candidate and the wait for the new primary.  It leaves its
    verdict in [failover_state]. *)
Definition failover_decide : M unit :=
  election_result <- do_election ;;
  modify (set_failover_state FAILOVER_STATE_UNKNOWN) ;;
  match election_result with
  | ELECTION_WON =>
      fs <- promote_self ;;
      modify (set_failover_state fs)
  | ELECTION_LOST =>
      clear_node_info_list ;;
      g <- get_globals ;;
      nodes <- get_active_sibling_node_records (local_conn g)
                 (node_id (local_node_info g)) (node_id (upstream_node_info g)) ;;
      modify (set_standby_nodes nodes) ;;
      g1 <- get_globals ;;
      let best_candidate :=
        poll_best_candidate (local_node_info g1) (standby_nodes g1) in
      if node_id best_candidate =? node_id (local_node_info g1) then
        fs <- promote_self ;;
        modify (set_failover_state fs)
      else
        candidate_conn <- establish_db_connection (conninfo best_candidate) false ;;
        cst <- PQstatus candidate_conn ;;
        (if conn_ok cst then
           notify_follow_primary candidate_conn (node_id best_candidate) ;;
           modify (set_failover_state FAILOVER_STATE_WAITING_NEW_PRIMARY)
         else
           modify (set_failover_state FAILOVER_STATE_NODE_NOTIFICATION_ERROR)) ;;
        PQfinish candidate_conn
  | ELECTION_NOT_CANDIDATE =>
      modify (set_failover_state FAILOVER_STATE_WAITING_NEW_PRIMARY)
  end ;;
  g <- get_globals ;;
  if FailoverState_eqb (failover_state g) FAILOVER_STATE_WAITING_NEW_PRIMARY then
    notification <- wait_primary_notification ;;
    match notification with
    | Some new_primary_id =>
        g1 <- get_globals ;;
        if new_primary_id =? node_id (upstream_node_info g1) then
          modify (set_failover_state FAILOVER_STATE_FOLLOWING_ORIGINAL_PRIMARY)
        else if new_primary_id =? node_id (local_node_info g1) then
          fs <- promote_self ;;
          modify (set_failover_state fs) ;;
          clear_node_info_list ;;
          g2 <- get_globals ;;
          nodes <- get_active_sibling_node_records (local_conn g2)
                     (node_id (local_node_info g2))
                     (node_id (upstream_node_info g2)) ;;
          modify (set_standby_nodes nodes)
        else
          fs <- follow_new_primary new_primary_id ;;
          modify (set_failover_state fs)
    | None =>
        modify (set_failover_state FAILOVER_STATE_NO_NEW_PRIMARY)
    end
  else ret tt.

(** The [switch (failover_state)] of [monitor_streaming_standby].
    [SwitchReturn] is a [return] out of the monitor; [SwitchBreak] leaves
    the [switch], by a [break] or because no [case] matches, and control
    reaches the [loop:] label. *)
Definition failover_dispatch : M SwitchExit :=
  g <- get_globals ;;
  match failover_state g with
  | FAILOVER_STATE_PROMOTED =>
      notify_followers (node_id (local_node_info g)) ;;
      clear_node_info_list ;;
      modify (set_failover_state FAILOVER_STATE_NONE) ;;
      ret SwitchReturn
  | FAILOVER_STATE_PRIMARY_REAPPEARED =>
      notify_followers (node_id (upstream_node_info g)) ;;
      clear_node_info_list ;;
      modify (set_failover_state FAILOVER_STATE_NONE) ;;
      ret SwitchReturn
  | FAILOVER_STATE_PROMOTION_FAILED =>
      ret SwitchBreak
  | FAILOVER_STATE_FOLLOWED_NEW_PRIMARY =>
      modify (set_failover_state FAILOVER_STATE_NONE) ;;
      ret SwitchReturn
  | FAILOVER_STATE_FOLLOWING_ORIGINAL_PRIMARY =>
      modify (set_failover_state FAILOVER_STATE_NONE) ;;
      ret SwitchReturn
  | FAILOVER_STATE_NO_NEW_PRIMARY
  | FAILOVER_STATE_WAITING_NEW_PRIMARY =>
      ret SwitchReturn
  | FAILOVER_STATE_LOCAL_NODE_FAILURE
  | FAILOVER_STATE_UNKNOWN
  | FAILOVER_STATE_NONE =>
      ret SwitchBreak
  | FAILOVER_STATE_FOLLOW_FAIL
  | FAILOVER_STATE_NODE_NOTIFICATION_ERROR =>
      (* no case in the source *)
      ret SwitchBreak
  end.

(** The tail of the standby loop, from the [loop:] label: the check of the
    local node and [sleep(1)].  The "still alive" message before it only
    logs. *)
Definition standby_loop_tail : M unit :=
  g <- get_globals ;;
  available <- is_server_available (conninfo (local_node_info g)) ;;
  (if negb available then
     match local_conn g with
     | Some _ => PQfinish (local_conn g) ;; modify (set_local_conn None)
     | None => ret tt
     end
   else ret tt) ;;
  g1 <- get_globals ;;
  st <- PQstatus (local_conn g1) ;;
  (if negb (conn_ok st) then
     c <- establish_db_connection (cfg_conninfo (config_file_options g1)) false ;;
     modify (set_local_conn c) ;;
     _ <- PQstatus c ;;
     ret tt
   else ret tt) ;;
  sleep 1.

(** The rest of a turn of the standby loop once [try_reconnect] has left
    [upstream_node_status] at DOWN: the failover block, its [switch], and,
    unless the [switch] returned, the tail of the loop. *)
Definition upstream_down_turn : M LoopExit :=
  failover_decide ;;
  x <- failover_dispatch ;;
  match x with
  | SwitchReturn => ret LoopReturn
  | SwitchBreak => standby_loop_tail ;; ret (LoopNext NODE_STATUS_DOWN)
  end.

(** One turn of the [while (true)] of [monitor_streaming_standby];
    [upstream_node_status] is the local variable of that name. *)
Definition standby_loop_body (upstream_node_status : NodeStatus) : M LoopExit :=
  g <- get_globals ;;
  available <- is_server_available (conninfo (upstream_node_info g)) ;;
  if negb available then
    match upstream_node_status with
    | NODE_STATUS_UP =>
        PQfinish (upstream_conn g) ;;
        r <- try_reconnect (conninfo (upstream_node_info g)) ;;
        modify (set_upstream_conn (fst r)) ;;
        match snd r with
        | NODE_STATUS_UP =>
            standby_loop_tail ;; ret (LoopNext NODE_STATUS_UP)
        | NODE_STATUS_DOWN => upstream_down_turn
        | NODE_STATUS_UNKNOWN =>
            standby_loop_tail ;; ret (LoopNext NODE_STATUS_UNKNOWN)
        end
    | _ => standby_loop_tail ;; ret (LoopNext upstream_node_status)
    end
  else standby_loop_tail ;; ret (LoopNext upstream_node_status).

(** The [while (true)] of the standby monitor, run for at most [fuel]
    turns: [Some tt] when the monitor returned, [None] when it is still
    looping. *)
Fixpoint standby_loop (fuel : nat) (upstream_node_status : NodeStatus)
  : M (option unit) :=
  match fuel with
  | O => ret None
  | S n =>
      x <- standby_loop_body upstream_node_status ;;
      match x with
      | LoopReturn => ret (Some tt)
      | LoopNext st => standby_loop n st
      end
  end.

(** What is left of the monitor once the [switch] is left without a
    [return]: the tail of the current turn, then the loop again with
    [upstream_node_status] still [NODE_STATUS_DOWN]. *)
Definition resume_after_break (fuel : nat) : M (option unit) :=
  standby_loop_tail ;; standby_loop fuel NODE_STATUS_DOWN.

Definition monitor_streaming_standby (fuel : nat) : M (option unit) :=
  g <- get_globals ;;
  rec <- get_node_record (local_conn g) (upstream_node_id (local_node_info g))
           (upstream_node_info g) ;;
  modify (set_upstream_node_info (snd rec)) ;;
  c <- establish_db_connection (conninfo (snd rec)) false ;;
  modify (set_upstream_conn c) ;;
  modify (set_primary_conn c) ;;
  (if negb (startup_event_logged g) then
     create_event_record c (cfg_node_id (config_file_options g))
       "repmgrd_start" true ;;
     modify (set_startup_event_logged true)
   else ret tt) ;;
  standby_loop fuel NODE_STATUS_UP.

(** One turn of the [while (true)] of [monitor_streaming_primary]. *)
Definition primary_loop_body (node_status : NodeStatus) : M NodeStatus :=
  g <- get_globals ;;
  available <- is_server_available (conninfo (local_node_info g)) ;;
  st <-
    (if negb available then
       match node_status with
       | NODE_STATUS_UP =>
           PQfinish (local_conn g) ;;
           create_event_record None (cfg_node_id (config_file_options g))
             "repmgrd_local_disconnect" true ;;
           r <- try_reconnect (conninfo (local_node_info g)) ;;
           modify (set_local_conn (fst r)) ;;
           match snd r with
           | NODE_STATUS_UP =>
               create_event_record (fst r) (cfg_node_id (config_file_options g))
                 "repmgrd_local_reconnect" true
           | _ => ret tt
           end ;;
           ret (snd r)
       | _ => ret node_status
       end
     else ret node_status) ;;
  sleep 1 ;;
  ret st.

(** The primary monitor has no [return]: it is still looping whatever the
    fuel. *)
Fixpoint primary_loop (fuel : nat) (node_status : NodeStatus) : M (option unit) :=
  match fuel with
  | O => ret None
  | S n =>
      st <- primary_loop_body node_status ;;
      primary_loop n st
  end.

Definition monitor_streaming_primary (fuel : nat) : M (option unit) :=
  g <- get_globals ;;
  (if negb (startup_event_logged g) then
     create_event_record (local_conn g) (cfg_node_id (config_file_options g))
       "repmgrd_start" true ;;
     modify (set_startup_event_logged true)
   else ret tt) ;;
  primary_loop fuel NODE_STATUS_UP.

(** The [switch (local_node_info.type)] of [start_monitoring]. *)
Definition role_dispatch (fuel : nat) : M OuterExit :=
  g <- get_globals ;;
  match type (local_node_info g) with
  | PRIMARY =>
      r <- monitor_streaming_primary fuel ;;
      ret (match r with Some _ => OuterNext | None => OuterOutOfFuel end)
  | STANDBY =>
      r <- monitor_streaming_standby fuel ;;
      ret (match r with Some _ => OuterNext | None => OuterOutOfFuel end)
  | BDR => ret OuterReturn
  | WITNESS => ret OuterReturn
  | UNKNOWN => ret OuterNext
  end.

(** One turn of the [while (true)] of [start_monitoring]. *)
Definition start_monitoring_iteration (fuel : nat) : M OuterExit :=
  reset_node_voting_status ;;
  role_dispatch fuel.

Fixpoint start_monitoring (fuel : nat) : M (option unit) :=
  match fuel with
  | O => ret None
  | S n =>
      x <- start_monitoring_iteration n ;;
      match x with
      | OuterReturn => ret (Some tt)
      | OuterNext => start_monitoring n
      | OuterOutOfFuel => ret None
      end
  end.

End Daemon.

(** ** The turns of the outer loop

    What a turn of the [while (true)] of [start_monitoring] does before it
    dispatches on the role, as the claim on the loop words it: it reads the
    status of the local connection and calls [reset_voting_status] if that
    status is CONNECTION_OK, and not otherwise; [failover_state] is NONE
    afterwards, whatever the status. *)

Definition turn_reset_events {World} (env : Collaborators World)
    (s : State World) : list Event :=
  let lc := local_conn (globals s) in
  let st := value (PQstatus env lc s) in
  EvPQstatus lc st :: (if conn_ok st then [EvResetVotingStatus lc] else []).

(** The state in which the role is dispatched: the database is touched by
    the reset only if the local connection is up. *)
Definition turn_start {World} (env : Collaborators World)
    (s : State World) : State World :=
  let lc := local_conn (globals s) in
  let st := value (PQstatus env lc s) in
  mk_state (if conn_ok st then ext_reset_voting_status env lc (world s)
            else world s)
           (set_failover_state FAILOVER_STATE_NONE (globals s)).

(** [monitoring_turns env fuel s o]: [o] is a run of at most [fuel] turns
    from [s], every one of which starts with the reset and dispatches on
    the role from [turn_start]; the run ends when the dispatch returns,
    and goes on with another such turn when a role monitor returned or
    the role is unknown. *)
Inductive monitoring_turns {World : Type} (env : Collaborators World)
  : nat -> State World -> Outcome World (option unit) -> Prop :=
| turns_out_of_fuel (s : State World) :
    monitoring_turns env O s (mk_outcome None s [])
| turns_return (n : nat) (s : State World) :
    value (role_dispatch env n (turn_start env s)) = OuterReturn ->
    monitoring_turns env (S n) s
      (mk_outcome (Some tt)
         (final (role_dispatch env n (turn_start env s)))
         (turn_reset_events env s
          ++ events (role_dispatch env n (turn_start env s))))
| turns_still_monitoring (n : nat) (s : State World) :
    value (role_dispatch env n (turn_start env s)) = OuterOutOfFuel ->
    monitoring_turns env (S n) s
      (mk_outcome None
         (final (role_dispatch env n (turn_start env s)))
         (turn_reset_events env s
          ++ events (role_dispatch env n (turn_start env s))))
| turns_next (n : nat) (s : State World) (rest : Outcome World (option unit)) :
    value (role_dispatch env n (turn_start env s)) = OuterNext ->
    monitoring_turns env n
      (final (role_dispatch env n (turn_start env s))) rest ->
    monitoring_turns env (S n) s
      (mk_outcome (value rest) (final rest)
         (turn_reset_events env s
          ++ events (role_dispatch env n (turn_start env s))
          ++ events rest)).

(** ** Observations on traces *)

Definition is_probe (e : Event) : bool :=
  match e with EvIsServerAvailable _ _ => true | _ => false end.

(** Number of liveness probes in a trace. *)
Definition probes (evs : list Event) : nat := List.length (filter is_probe evs).

(** [spaced slept evs]: every probe of [evs] is preceded, since the probe
    before it, by a [sleep] of one second or more; [slept] tells whether
    such a sleep has been seen since the last probe. *)
Fixpoint spaced (slept : bool) (evs : list Event) : bool :=
  match evs with
  | [] => true
  | EvIsServerAvailable _ _ :: rest => slept && spaced false rest
  | EvSleep n :: rest => spaced (slept || (1 <=? n)) rest
  | _ :: rest => spaced slept rest
  end.

Definition probes_one_second_apart (evs : list Event) : bool := spaced true evs.

Definition is_reset_voting_status (e : Event) : bool :=
  match e with EvResetVotingStatus _ => true | _ => false end.

Definition is_set_voting_status_initiated (e : Event) : bool :=
  match e with EvSetVotingStatusInitiated _ _ => true | _ => false end.

(** Contact with a peer during an election: a connection opened, a
    candidature announced, a vote requested. *)
Definition is_peer_contact (e : Event) : bool :=
  match e with
  | EvEstablishDbConnection _ _ _
  | EvAnnounceCandidature _ _ _ _
  | EvRequestVote _ _ _ _ _ => true
  | _ => false
  end.

(** The sibling count returned by the first refresh of the sibling list. *)
Fixpoint siblings_found (evs : list Event) : option Z :=
  match evs with
  | [] => None
  | EvGetActiveSiblingNodeRecords _ _ _ n :: _ => Some n
  | _ :: rest => siblings_found rest
  end.

(** Siblings whose candidature announcement succeeded. *)
Fixpoint announce_successes (evs : list Event) : Z :=
  match evs with
  | [] => 0
  | EvAnnounceCandidature _ _ _ true :: rest => 1 + announce_successes rest
  | _ :: rest => announce_successes rest
  end.

(** Some sibling turned the candidature down. *)
Fixpoint announce_rejected (evs : list Event) : bool :=
  match evs with
  | [] => false
  | EvAnnounceCandidature _ _ _ false :: _ => true
  | _ :: rest => announce_rejected rest
  end.

(** Number of vote requests sent. *)
Fixpoint vote_requests (evs : list Event) : Z :=
  match evs with
  | [] => 0
  | EvRequestVote _ _ _ _ _ :: rest => 1 + vote_requests rest
  | _ :: rest => vote_requests rest
  end.

(** Sum of the votes the siblings returned. *)
Fixpoint peer_votes (evs : list Event) : Z :=
  match evs with
  | [] => 0
  | EvRequestVote _ _ _ v _ :: rest => v + peer_votes rest
  | _ :: rest => peer_votes rest
  end.

(** Some sibling asked for its vote reported an LSN above [lsn]. *)
Fixpoint sibling_ahead (lsn : Z) (evs : list Event) : bool :=
  match evs with
  | [] => false
  | EvRequestVote _ _ _ _ peer_lsn :: rest =>
      (peer_lsn >? lsn) || sibling_ahead lsn rest
  | _ :: rest => sibling_ahead lsn rest
  end.

(** The local LSN read at the start of the vote-request phase. *)
Fixpoint local_lsn_read (evs : list Event) : option Z :=
  match evs with
  | [] => None
  | EvGetLastWalReceiveLocation _ lsn :: _ => Some lsn
  | _ :: rest => local_lsn_read rest
  end.

(** The tally of an election as the trace shows it. *)
Definition visible_nodes_of (evs : list Event) : Z := 1 + announce_successes evs.

Definition self_vote_of (lsn : Z) (evs : list Event) : Z :=
  if sibling_ahead lsn evs then 0 else 1.

Definition votes_for_me_of (lsn : Z) (evs : list Event) : Z :=
  peer_votes evs + self_vote_of lsn evs.

(** [INT_MAX] of the 32-bit [int] the counters of [do_election] are. *)
Definition INT_MAX : Z := 2147483647.

(** Every vote a sibling returned is a ballot: 0 or 1. *)
Fixpoint votes_are_ballots (evs : list Event) : bool :=
  match evs with
  | [] => true
  | EvRequestVote _ _ _ v _ :: rest =>
      ((v =? 0) || (v =? 1)) && votes_are_ballots rest
  | _ :: rest => votes_are_ballots rest
  end.

(** Exit status of the first external command run. *)
Fixpoint command_exit (evs : list Event) : option Z :=
  match evs with
  | [] => None
  | EvSystem _ r :: _ => Some r
  | _ :: rest => command_exit rest
  end.

(** The record fetched by the first [get_node_record]: in [promote_self],
    the failed upstream. *)
Fixpoint first_node_record (evs : list Event) : option t_node_info :=
  match evs with
  | [] => None
  | EvGetNodeRecord _ _ _ r :: _ => Some r
  | _ :: rest => first_node_record rest
  end.

(** The primary [get_primary_connection] found: its node id and the status
    of the connection, read right after the call. *)
Fixpoint discovered_primary (evs : list Event) : option (Z * ConnStatusType) :=
  match evs with
  | [] => None
  | EvGetPrimaryConnection _ _ id :: EvPQstatus _ st :: _ => Some (id, st)
  | _ :: rest => discovered_primary rest
  end.

(** [get_primary_connection] gave a [CONNECTION_OK] connection to the
    failed upstream. *)
Definition original_primary_found (evs : list Event) : bool :=
  match discovered_primary evs, first_node_record evs with
  | Some (id, st), Some failed_primary =>
      conn_ok st && (id =? node_id failed_primary)
  | _, _ => false
  end.

Definition is_failover_abort (e : Event) : bool :=
  match e with
  | EvCreateEventRecord _ _ ev _ => String.eqb ev "repmgrd_failover_abort"
  | _ => false
  end.

Definition abort_recorded (evs : list Event) : bool := existsb is_failover_abort evs.

(** The local connection was found down and the attempt to reopen it
    gave a connection that is not [CONNECTION_OK]. *)
Fixpoint local_reconnect_failed (evs : list Event) : bool :=
  match evs with
  | [] => false
  | EvEstablishDbConnection _ true _ :: EvPQstatus _ CONNECTION_BAD :: _ => true
  | _ :: rest => local_reconnect_failed rest
  end.

(** Events of the two loops of [do_election]. *)
Definition announce_kind (e : Event) : bool :=
  match e with
  | EvEstablishDbConnection _ _ _
  | EvPQstatus _ _
  | EvAnnounceCandidature _ _ _ _ => true
  | _ => false
  end.

Definition vote_kind (e : Event) : bool :=
  match e with
  | EvRequestVote _ _ _ _ _
  | EvPQfinish _ => true
  | _ => false
  end.

(** Cells marked visible. *)
Definition visible_cells (cells : NodeInfoList) : Z :=
  Z.of_nat (List.length (filter is_visible cells)).

(** The calls every election makes once it has claimed candidacy, up to
    the refresh of the sibling list. *)
Definition election_prologue (r : Z) (c : PGconn) (vs : NodeVotingStatus)
    (term node upstream found : Z) : list Event :=
  [EvRand r; EvUsleep (rand_wait r); EvGetVotingStatus c vs;
   EvSetVotingStatusInitiated c term;
   EvGetActiveSiblingNodeRecords c node upstream found].

(** The four ways an election round can go, with the trace and the result
    of each; [r] is the value [rand()] returned. *)
Inductive election_run (r : Z) : list Event -> ElectionResult -> Prop :=
| run_vote_owed c :
    election_run r
      [EvRand r; EvUsleep (rand_wait r);
       EvGetVotingStatus c VS_VOTE_REQUEST_RECEIVED]
      ELECTION_NOT_CANDIDATE
| run_alone c vs term node upstream :
    vs <> VS_VOTE_REQUEST_RECEIVED ->
    election_run r (election_prologue r c vs term node upstream 0) ELECTION_WON
| run_rival c vs term node upstream found A :
    vs <> VS_VOTE_REQUEST_RECEIVED ->
    found <> 0 ->
    forallb announce_kind A = true ->
    announce_rejected A = true ->
    election_run r (election_prologue r c vs term node upstream found ++ A)
      ELECTION_NOT_CANDIDATE
| run_vote c vs term node upstream found A lsn V :
    vs <> VS_VOTE_REQUEST_RECEIVED ->
    found <> 0 ->
    forallb announce_kind A = true ->
    forallb vote_kind V = true ->
    vote_requests V = announce_successes A ->
    election_run r
      (election_prologue r c vs term node upstream found
         ++ A ++ EvGetLastWalReceiveLocation c lsn :: V)
      (if peer_votes V + (if sibling_ahead lsn V then 0 else 1)
          =? 1 + announce_successes A
       then ELECTION_WON else ELECTION_LOST).

(** ** The claims the code departs from, as they are worded *)

(** [get_primary_connection] gave a CONNECTION_OK connection whose primary
    is the node [id]. *)
Definition upstream_primary_found (id : Z) (evs : list Event) : bool :=
  match discovered_primary evs with
  | Some (primary_node_id, st) => conn_ok st && (primary_node_id =? id)
  | None => false
  end.

(** "When the promote command exits non-zero, [promote_self] returns
    PRIMARY_REAPPEARED and records [repmgrd_failover_abort] if and only if
    [get_primary_connection] yields a CONNECTION_OK connection whose
    reported primary node id equals the failed upstream's node id; in
    every other non-zero-exit case it returns PROMOTION_FAILED without
    recording that event."  [failed_upstream] is the node id of the
    upstream node the daemon was monitoring. *)
Definition promote_failure_claim {World} (failed_upstream : Z)
    (o : Outcome World FailoverState) : Prop :=
  forall r, command_exit (events o) = Some r -> r <> 0 ->
    if upstream_primary_found failed_upstream (events o)
    then value o = FAILOVER_STATE_PRIMARY_REAPPEARED
         /\ abort_recorded (events o) = true
    else value o = FAILOVER_STATE_PROMOTION_FAILED
         /\ abort_recorded (events o) = false.

(** "Whenever the failover dispatch observes PROMOTION_FAILED, FOLLOW_FAIL
    or NO_NEW_PRIMARY, the standby monitor returns to the role monitor." *)
Definition dispatch_returns_claim {World} (env : Collaborators World)
    (s : State World) : Prop :=
  failover_state (globals s) = FAILOVER_STATE_PROMOTION_FAILED
  \/ failover_state (globals s) = FAILOVER_STATE_FOLLOW_FAIL
  \/ failover_state (globals s) = FAILOVER_STATE_NO_NEW_PRIMARY ->
  value (failover_dispatch env s) = SwitchReturn.

(** "[poll_best_candidate] returns the node that is maximal under: highest
    LSN, then highest priority, then lowest node id." *)
Definition best_candidate_claim (local : t_node_info) (siblings : NodeInfoList)
  : Prop :=
  is_best (poll_best_candidate local siblings) (local :: siblings).

(** ** A scripted cluster

    Collaborators driven by a script, to run the daemon on concrete
    scenarios.  The world is a clock: [sleep] advances it by its argument
    and an external command takes one tick. *)

Record Script : Type := mk_script {
  sc_rand : Z;
  sc_system : string -> Z;
  sc_conn_status : nat -> nat -> ConnStatusType;
  sc_available : string -> nat -> bool;
  sc_connect : string -> nat -> PGconn;
  sc_voting_status : NodeVotingStatus;
  sc_electoral_term : Z;
  sc_siblings : NodeInfoList;
  sc_accepts : Z -> bool;
  sc_vote : Z -> Z * Z;
  sc_local_lsn : Z;
  sc_node_record : Z -> option t_node_info;
  sc_primary : PGconn * Z;
  sc_recovery_type : PGconn -> RecoveryType;
  sc_new_primary : nat -> bool * Z
}.

Definition scripted (sc : Script) : Collaborators nat :=
  mk_collaborators nat
    (mk_node_info (-1) (-1) UNKNOWN "" "" (-1) true InvalidXLogRecPtr false None)
    (fun w => (sc_rand sc, w))
    (fun _ w => w)
    (fun n w => (w + Z.to_nat n)%nat)
    (fun cmd w => (sc_system sc cmd, S w))
    (fun h w => sc_conn_status sc h w)
    (fun ci w => (sc_available sc ci w, w))
    (fun ci _ w => (sc_connect sc ci w, w))
    (fun _ w => w)
    (fun _ w => (sc_voting_status sc, w))
    (fun _ w => (sc_electoral_term sc, w))
    (fun _ w => w)
    (fun _ _ _ w => (sc_siblings sc, w))
    (fun _ _ other _ w => (sc_accepts sc (node_id other), w))
    (fun _ _ other _ w =>
       ((fst (sc_vote sc (node_id other)),
         set_last_wal_receive_lsn (snd (sc_vote sc (node_id other))) other), w))
    (fun _ w => (sc_local_lsn sc, w))
    (fun _ id old w =>
       match sc_node_record sc id with
       | Some r => ((RECORD_FOUND, r), w)
       | None => ((RECORD_NOT_FOUND, old), w)
       end)
    (fun _ w => (sc_primary sc, w))
    (fun c w => (sc_recovery_type sc c, w))
    (fun _ w => (sc_new_primary sc w, w))
    (fun _ _ w => w)
    (fun _ _ _ _ w => w).

(** A three-node cluster: primary 1, standbys 2 and 3.  Handles: 10 for
    the local database, 11, 12 and 13 for nodes 1, 2 and 3. *)
Definition node1 : t_node_info :=
  mk_node_info 1 (-1) PRIMARY "node1" "host=node1" 100 true 0 false None.

Definition node2 : t_node_info :=
  mk_node_info 2 1 STANDBY "node2" "host=node2" 100 true 0 false None.

Definition node3 : t_node_info :=
  mk_node_info 3 1 STANDBY "node3" "host=node3" 100 true 0 false None.

Definition cluster_record (id : Z) : option t_node_info :=
  if id =? 1 then Some node1
  else if id =? 2 then Some node2
  else if id =? 3 then Some node3
  else None.

Definition cluster_connect (ci : string) (_ : nat) : PGconn :=
  if String.eqb ci "host=node1" then Some 11%nat
  else if String.eqb ci "host=node2" then Some 12%nat
  else if String.eqb ci "host=node3" then Some 13%nat
  else None.

Definition config2 : t_configuration_options :=
  mk_config 2 "host=node2" "repmgr standby promote" "" "repmgr standby follow" 0 0.

(** The daemon on node 2, monitoring its upstream node 1. *)
Definition globals2 (fs : FailoverState) : Globals :=
  mk_globals config2 node2 (Some 10%nat) node1 (Some 11%nat) (Some 11%nat)
    fs [] true.

Definition state2 (fs : FailoverState) : State nat := mk_state 0%nat (globals2 fs).

(** Node 1 is gone for good; every other connection is fine. *)
Definition primary_lost_status (h : nat) (_ : nat) : ConnStatusType :=
  if Nat.eqb h 11 then CONNECTION_BAD else CONNECTION_OK.

Definition primary_lost_available (ci : string) (_ : nat) : bool :=
  negb (String.eqb ci "host=node1").

(** Node 3 is the only sibling, accepts the candidature and grants its
    vote; both standbys are at LSN 500. *)
Definition sc_election_won : Script :=
  mk_script 1234 (fun _ => 0) primary_lost_status primary_lost_available
    cluster_connect VS_NO_VOTE 7 [node3] (fun _ => true) (fun _ => (1, 500)) 500
    cluster_record (None, -1) (fun _ => RECTYPE_STANDBY) (fun _ => (false, 0)).

(** As above, but node 3 is itself candidate and turns the announcement
    down. *)
Definition sc_rival_candidate : Script :=
  mk_script 1234 (fun _ => 0) primary_lost_status primary_lost_available
    cluster_connect VS_NO_VOTE 7 [node3] (fun _ => false) (fun _ => (1, 500)) 500
    cluster_record (None, -1) (fun _ => RECTYPE_STANDBY) (fun _ => (false, 0)).

(** Node 2 has no sibling. *)
Definition sc_no_siblings : Script :=
  mk_script 1234 (fun _ => 0) primary_lost_status primary_lost_available
    cluster_connect VS_NO_VOTE 7 [] (fun _ => true) (fun _ => (1, 500)) 500
    cluster_record (None, -1) (fun _ => RECTYPE_STANDBY) (fun _ => (false, 0)).

(** The promote command fails and no primary is found. *)
Definition sc_promote_fails : Script :=
  mk_script 1234 (fun _ => 1) primary_lost_status primary_lost_available
    cluster_connect VS_NO_VOTE 7 [] (fun _ => true) (fun _ => (1, 500)) 500
    cluster_record (None, -1) (fun _ => RECTYPE_STANDBY) (fun _ => (false, 0)).

(** The promote command fails because node 1 is back as primary. *)
Definition sc_primary_reappeared : Script :=
  mk_script 1234 (fun _ => 1) (fun _ _ => CONNECTION_OK) (fun _ _ => true)
    cluster_connect VS_NO_VOTE 7 [] (fun _ => true) (fun _ => (1, 500)) 500
    cluster_record (Some 11%nat, 1) (fun _ => RECTYPE_PRIMARY) (fun _ => (false, 0)).

(** The promote command fails because node 1 is back as primary, and the
    local database cannot give the record of node 1: [get_node_record]
    returns RECORD_NOT_FOUND and leaves the record it was passed as it
    is. *)
Definition sc_record_unreadable : Script :=
  mk_script 1234 (fun _ => 1) (fun _ _ => CONNECTION_OK) (fun _ _ => true)
    cluster_connect VS_NO_VOTE 7 [] (fun _ => true) (fun _ => (1, 500)) 500
    (fun _ => None) (Some 11%nat, 1) (fun _ => RECTYPE_PRIMARY)
    (fun _ => (false, 0)).

(** Another node asked for this node's vote first, and no notification of
    a new primary ever comes. *)
Definition sc_no_new_primary : Script :=
  mk_script 1234 (fun _ => 0) primary_lost_status primary_lost_available
    cluster_connect VS_VOTE_REQUEST_RECEIVED 7 [node3] (fun _ => true)
    (fun _ => (1, 500)) 500
    cluster_record (None, -1) (fun _ => RECTYPE_STANDBY) (fun _ => (false, 0)).

(** Nodes for the best-candidate poll: node 2 at LSN 100 and node 1 — here
    a standby sibling — at LSN 50, same priority. *)
Definition ahead2 : t_node_info :=
  mk_node_info 2 9 STANDBY "node2" "host=node2" 100 true 100 false None.

Definition behind1 : t_node_info :=
  mk_node_info 1 9 STANDBY "node1" "host=node1" 100 true 50 false None.

(** Same LSN and priority as [ahead2], lower id. *)
Definition level1 : t_node_info :=
  mk_node_info 1 9 STANDBY "node1" "host=node1" 100 true 100 false None.

Definition node4 : t_node_info :=
  mk_node_info 4 1 STANDBY "node4" "host=node4" 100 true 0 false None.

(** Another node asked for this node's vote first and then announces
    node 3 as new primary, but node 3 is still in recovery. *)
Definition sc_follow_fail : Script :=
  mk_script 1234 (fun _ => 0) primary_lost_status primary_lost_available
    cluster_connect VS_VOTE_REQUEST_RECEIVED 7 [node3] (fun _ => true)
    (fun _ => (1, 500)) 500
    cluster_record (None, -1) (fun _ => RECTYPE_STANDBY) (fun _ => (true, 3)).

(** Siblings 3 and 4: node 3 is recorded at LSN 900 but cannot be reached;
    node 4 is reachable and withholds its vote. *)
Definition sc_candidate_unreachable : Script :=
  mk_script 1234 (fun _ => 0) primary_lost_status primary_lost_available
    (fun ci _ => if String.eqb ci "host=node4" then Some 14%nat else None)
    VS_NO_VOTE 7 [set_last_wal_receive_lsn 900 node3; node4] (fun _ => true)
    (fun _ => (0, 400)) 500
    cluster_record (None, -1) (fun _ => RECTYPE_STANDBY) (fun _ => (false, 0)).

(** Runs of the daemon on node 2 of the scripted cluster. *)
Definition election_won_run : Outcome nat ElectionResult :=
  do_election (scripted sc_election_won) (state2 FAILOVER_STATE_NONE).

Definition election_rival_run : Outcome nat ElectionResult :=
  do_election (scripted sc_rival_candidate) (state2 FAILOVER_STATE_NONE).

Definition election_alone_run : Outcome nat ElectionResult :=
  do_election (scripted sc_no_siblings) (state2 FAILOVER_STATE_NONE).

Definition promote_reappeared_run : Outcome nat FailoverState :=
  promote_self (scripted sc_primary_reappeared) (state2 FAILOVER_STATE_NONE).

Definition promote_record_unreadable_run : Outcome nat FailoverState :=
  promote_self (scripted sc_record_unreadable) (state2 FAILOVER_STATE_NONE).

(** The states in which the failover block leaves the daemon, as the
    [switch] finds them. *)
Definition state_promotion_failed : State nat :=
  final (failover_decide (scripted sc_promote_fails) (state2 FAILOVER_STATE_NONE)).

Definition state_no_new_primary : State nat :=
  final (failover_decide (scripted sc_no_new_primary) (state2 FAILOVER_STATE_NONE)).

Definition state_follow_fail : State nat :=
  final (failover_decide (scripted sc_follow_fail) (state2 FAILOVER_STATE_NONE)).

Definition state_candidate_unreachable : State nat :=
  final (failover_decide (scripted sc_candidate_unreachable)
           (state2 FAILOVER_STATE_NONE)).

(** ** Observations on the rest of the daemon *)

Definition PGconn_eqb (a b : PGconn) : bool :=
  match a, b with
  | None, None => true
  | Some x, Some y => Nat.eqb x y
  | _, _ => false
  end.

(** Polls of [get_new_primary] in a trace. *)
Fixpoint polls (evs : list Event) : nat :=
  match evs with
  | [] => O
  | EvGetNewPrimary _ _ _ :: rest => S (polls rest)
  | _ :: rest => polls rest
  end.

(** Seconds spent in [sleep]. *)
Fixpoint slept (evs : list Event) : Z :=
  match evs with
  | [] => 0
  | EvSleep n :: rest => n + slept rest
  | _ :: rest => slept rest
  end.

(** The node id carried by the first successful poll of
    [get_new_primary]. *)
Fixpoint first_notification (evs : list Event) : option Z :=
  match evs with
  | [] => None
  | EvGetNewPrimary _ true id :: _ => Some id
  | _ :: rest => first_notification rest
  end.

(** The ids nodes were told to follow, in the order of the calls. *)
Fixpoint notify_targets (evs : list Event) : list Z :=
  match evs with
  | [] => []
  | EvNotifyFollowPrimary _ id :: rest => id :: notify_targets rest
  | _ :: rest => notify_targets rest
  end.

(** [notified_after_ok prev evs]: every [notify_follow_primary] of [evs]
    goes through the connection whose status was read as CONNECTION_OK by
    the call just before it; [prev] is that connection, if the last event
    was such a read. *)
Fixpoint notified_after_ok (prev : option PGconn) (evs : list Event) : bool :=
  match evs with
  | [] => true
  | EvNotifyFollowPrimary c _ :: rest =>
      match prev with
      | Some c' => PGconn_eqb c c'
      | None => false
      end && notified_after_ok None rest
  | EvPQstatus c CONNECTION_OK :: rest => notified_after_ok (Some c) rest
  | _ :: rest => notified_after_ok None rest
  end.

(** Connections opened and found not to be CONNECTION_OK. *)
Fixpoint failed_connects (evs : list Event) : nat :=
  match evs with
  | [] => O
  | EvEstablishDbConnection _ _ _ :: EvPQstatus c CONNECTION_BAD :: rest =>
      S (failed_connects rest)
  | _ :: rest => failed_connects rest
  end.

(** The external commands run, in order. *)
Fixpoint commands_run (evs : list Event) : list string :=
  match evs with
  | [] => []
  | EvSystem command _ :: rest => command :: commands_run rest
  | _ :: rest => commands_run rest
  end.

(** The trace has a connection read as CONNECTION_OK and, right after,
    reporting itself a primary. *)
Fixpoint primary_confirmed (evs : list Event) : bool :=
  match evs with
  | [] => false
  | EvPQstatus _ CONNECTION_OK :: EvGetRecoveryType _ RECTYPE_PRIMARY :: _ => true
  | _ :: rest => primary_confirmed rest
  end.

Definition is_event_record (name : string) (e : Event) : bool :=
  match e with
  | EvCreateEventRecord _ _ ev _ => String.eqb ev name
  | _ => false
  end.

(** Connections closed by [PQfinish]. *)
Fixpoint finishes (evs : list Event) : Z :=
  match evs with
  | [] => 0
  | EvPQfinish _ :: rest => 1 + finishes rest
  | _ :: rest => finishes rest
  end.

(** The voting status the election read. *)
Fixpoint voting_status_read (evs : list Event) : option NodeVotingStatus :=
  match evs with
  | [] => None
  | EvGetVotingStatus _ vs :: _ => Some vs
  | _ :: rest => voting_status_read rest
  end.

(** The part of a trace that comes before the election jitter. *)
Fixpoint before_election (evs : list Event) : list Event :=
  match evs with
  | [] => []
  | EvRand _ :: _ => []
  | e :: rest => e :: before_election rest
  end.

Definition is_rand (e : Event) : bool :=
  match e with EvRand _ => true | _ => false end.

(** Calls the primary monitor may make: probes, connections and their
    status, event records, sleeps. *)
Definition supervision_kind (e : Event) : bool :=
  match e with
  | EvIsServerAvailable _ _
  | EvEstablishDbConnection _ _ _
  | EvPQstatus _ _
  | EvPQfinish _
  | EvCreateEventRecord _ _ _ _
  | EvSleep _ => true
  | _ => false
  end.

(** A failover state the failover block can hand to the [switch]. *)
Definition decided (fs : FailoverState) : bool :=
  match fs with
  | FAILOVER_STATE_UNKNOWN
  | FAILOVER_STATE_NONE
  | FAILOVER_STATE_WAITING_NEW_PRIMARY => false
  | _ => true
  end.

(** The states for which the [switch] returns out of the monitor. *)
Definition returns_to_role_monitor (fs : FailoverState) : bool :=
  match fs with
  | FAILOVER_STATE_PROMOTED
  | FAILOVER_STATE_PRIMARY_REAPPEARED
  | FAILOVER_STATE_FOLLOWED_NEW_PRIMARY
  | FAILOVER_STATE_FOLLOWING_ORIGINAL_PRIMARY
  | FAILOVER_STATE_NO_NEW_PRIMARY
  | FAILOVER_STATE_WAITING_NEW_PRIMARY => true
  | _ => false
  end.

(** [command_after_confirmation confirmed evs]: every external command of
    [evs] is run after a connection was read as CONNECTION_OK and reported
    itself a primary; [confirmed] tells whether that has happened yet. *)
Fixpoint command_after_confirmation (confirmed : bool) (evs : list Event) : bool :=
  match evs with
  | [] => true
  | EvSystem _ _ :: rest => confirmed && command_after_confirmation confirmed rest
  | EvPQstatus _ CONNECTION_OK :: EvGetRecoveryType _ RECTYPE_PRIMARY :: rest =>
      command_after_confirmation true rest
  | _ :: rest => command_after_confirmation confirmed rest
  end.

(** [holds_after m Q s]: run from [s], [m] returns a value and leaves a
    state that satisfy [Q]. *)
Definition holds_after {World A} (m : M World A)
    (Q : A -> State World -> Prop) (s : State World) : Prop :=
  Q (value (m s)) (final (m s)).

(** A probe or a sleep. *)
Definition probe_or_sleep (e : Event) : bool :=
  match e with
  | EvIsServerAvailable _ _
  | EvSleep _ => true
  | _ => false
  end.

(** A read of the local connection's status or a reset of the voting
    status. *)
Definition reset_kind (e : Event) : bool :=
  match e with
  | EvPQstatus _ _
  | EvResetVotingStatus _ => true
  | _ => false
  end.

(** A cell whose connection has been closed and forgotten, or that was
    never visible. *)
Definition closed_or_unseen (cell : t_node_info) : Prop :=
  is_visible cell = false \/ conn cell = None.

(** The answers of the liveness probes, in order. *)
Fixpoint probe_answers (evs : list Event) : list bool :=
  match evs with
  | [] => []
  | EvIsServerAvailable _ available :: rest => available :: probe_answers rest
  | _ :: rest => probe_answers rest
  end.

(** Calls [try_reconnect] may make: probes, connections, reads of their
    status, [PQfinish] and sleeps. *)
Definition reconnect_kind (e : Event) : bool :=
  match e with
  | EvIsServerAvailable _ _
  | EvEstablishDbConnection _ _ _
  | EvPQstatus _ _
  | EvPQfinish _
  | EvSleep _ => true
  | _ => false
  end.


(** ** Startup and shutdown *)

(** *** The directory of the configuration file

    [daemonize_process] finds the directory to change to by scanning
    [config_file] from its end for ['/'] and copying, at every hit, the
    characters before it into the zeroed buffer [path].  Buffers are lists
    of characters; a C string is the characters before the first NUL. *)

Definition NUL : Ascii.ascii := Ascii.zero.

Definition slash : Ascii.ascii := "/"%char.

(** [*(s + i)] for a C string [s]: its character at [i], the terminating
    NUL at its length. *)
Definition char_at (s : list Ascii.ascii) (i : nat) : Ascii.ascii := nth i s NUL.

(** [strncpy(dst, src, n)] into a buffer of at least [n] characters: [n]
    characters of [src], padded with NUL if [src] is shorter, and no
    terminator of its own.  With [n] above the size of [dst] the C call
    writes past the buffer; the definition says nothing of that case, and
    what is proved of [config_dir_buffer] and of the directory
    [daemonize_process] changes to is proved for paths shorter than the
    buffer. *)
Definition strncpy (dst src : list Ascii.ascii) (n : nat) : list Ascii.ascii :=
  firstn n (src ++ repeat NUL n) ++ skipn n dst.

(** The characters of a buffer up to its first NUL. *)
Fixpoint c_string (buf : list Ascii.ascii) : list Ascii.ascii :=
  match buf with
  | [] => []
  | c :: rest => if Ascii.eqb c NUL then [] else c :: c_string rest
  end.

(** The loop [for (ptr = config_file + strlen(config_file);
    ptr > config_file; --ptr)], by the offset [i] of [ptr]. *)
Fixpoint config_dir_scan (config_file : list Ascii.ascii) (i : nat)
    (path : list Ascii.ascii) : list Ascii.ascii :=
  match i with
  | O => path
  | S j =>
      config_dir_scan config_file j
        (if Ascii.eqb (char_at config_file i) slash
         then strncpy path config_file i
         else path)
  end.

(** The buffer [path] as [chdir] receives it; [maxpgpath] is the size
    [MAXPGPATH] of the buffer. *)
Definition config_dir_buffer (maxpgpath : nat) (config_file : list Ascii.ascii)
  : list Ascii.ascii :=
  let path := config_dir_scan config_file (List.length config_file)
                (repeat NUL maxpgpath) in
  match path with
  | c :: rest => if Ascii.eqb c NUL then slash :: rest else path
  | [] => path
  end.

Definition config_dir (maxpgpath : nat) (config_file : string) : string :=
  string_of_list_ascii
    (c_string (config_dir_buffer maxpgpath (list_ascii_of_string config_file))).

(** The offset of the last ['/'] of [s] among the offsets [1 .. i]; [0] if
    there is none. *)
Fixpoint last_slash (s : list Ascii.ascii) (i : nat) : nat :=
  match i with
  | O => O
  | S j => if Ascii.eqb (char_at s i) slash then i else last_slash s j
  end.

(** *** The process: system calls, exits

    Startup and shutdown call the operating system and may end the process
    with [exit].  Their calls are recorded as [SysCall]s, the calls of the
    daemon's own monad among them. *)

Inductive t_failover_mode : Type := FAILOVER_MANUAL | FAILOVER_AUTOMATIC.

Inductive Signal : Type := SIGHUP | SIGINT | SIGTERM.

(** The two signal handlers of [repmgrd.c]. *)
Inductive Handler : Type := handle_sighup | handle_sigint.

(** What [main] has set from the command line and the configuration file
    by the time it connects to the local database, beyond the options of
    [t_configuration_options] above. *)
Record ProcessOptions : Type := mk_process_options {
  config_file : string;
  pid_file : option string;
  daemonize : bool;
  failover_mode : t_failover_mode;
  primary_response_timeout : Z
}.

Inductive SysCall : Type :=
| ScDaemon (e : Event)
| ScPQisBusy (c : PGconn) (busy : Z)
| ScCancelQuery (c : PGconn) (timeout : Z)
| ScFork (pid : Z)
| ScSetsid (sid : Z)
| ScChdir (path : string) (r : Z)
| ScStat (path : string) (r : Z)
| ScFopen (path mode : string) (fd : option nat)
| ScFread (fd : nat) (nread : Z) (data : list Ascii.ascii)
| ScFerror (fd : nat) (r : Z)
| ScFclose (fd : nat)
| ScKill (pid sig r : Z)
| ScGetpid (pid : Z)
| ScFprintf (fd : nat) (n : Z)
| ScUnlink (path : string)
| ScPqsignal (signo : Signal) (handler : Handler).

(** The operating system and the remaining collaborators of startup and
    shutdown, with the constants of the headers they come with: the exit
    codes of [errcode.h], the buffer sizes [MAXPGPATH] and [MAXLEN].
    [os_fread] returns the item count and the bytes it stored. *)
Record OsCalls (World : Type) : Type := mk_os_calls {
  SUCCESS : Z;
  ERR_BAD_CONFIG : Z;
  ERR_BAD_PIDFILE : Z;
  ERR_SYS_FAILURE : Z;
  MAXPGPATH : nat;
  MAXLEN : nat;
  os_atoi : list Ascii.ascii -> Z;
  os_fork : World -> Z * World;
  os_setsid : World -> Z * World;
  os_chdir : string -> World -> Z * World;
  os_stat : string -> World -> Z * World;
  os_fopen : string -> string -> World -> option nat * World;
  os_fread : nat -> nat -> nat -> World -> (Z * list Ascii.ascii) * World;
  os_ferror : nat -> World -> Z * World;
  os_fclose : nat -> World -> World;
  os_kill : Z -> Z -> World -> Z * World;
  os_getpid : World -> Z * World;
  os_fprintf : nat -> Z -> World -> World;
  os_unlink : string -> World -> World;
  os_PQisBusy : PGconn -> World -> Z * World;
  os_cancel_query : PGconn -> Z -> World -> World;
  os_pqsignal : Signal -> Handler -> World -> World
}.

Arguments SUCCESS {World}.
Arguments ERR_BAD_CONFIG {World}.
Arguments ERR_BAD_PIDFILE {World}.
Arguments ERR_SYS_FAILURE {World}.
Arguments MAXPGPATH {World}.
Arguments MAXLEN {World}.
Arguments os_atoi {World}.
Arguments os_fork {World}.
Arguments os_setsid {World}.
Arguments os_chdir {World}.
Arguments os_stat {World}.
Arguments os_fopen {World}.
Arguments os_fread {World}.
Arguments os_ferror {World}.
Arguments os_fclose {World}.
Arguments os_kill {World}.
Arguments os_getpid {World}.
Arguments os_fprintf {World}.
Arguments os_unlink {World}.
Arguments os_PQisBusy {World}.
Arguments os_cancel_query {World}.
Arguments os_pqsignal {World}.

(** How a run of startup or shutdown code ends: it returns to its caller,
    or the process exits with a status. *)
Inductive Ending (A : Type) : Type :=
| Returned (a : A)
| Exited (status : Z).
Arguments Returned {A}.
Arguments Exited {A}.

Record Run (World A : Type) : Type := mk_run {
  ending : Ending A;
  after : State World;
  syscalls : list SysCall
}.
Arguments mk_run {World A}.
Arguments ending {World A}.
Arguments after {World A}.
Arguments syscalls {World A}.

Definition P (World A : Type) : Type := State World -> Run World A.

Definition pret {World A} (a : A) : P World A :=
  fun s => mk_run (Returned a) s [].

(** Nothing runs after an [exit]. *)
Definition pbind {World A B} (m : P World A) (k : A -> P World B) : P World B :=
  fun s =>
    match m s with
    | mk_run (Returned a) s1 sc1 =>
        match k a s1 with
        | mk_run e s2 sc2 => mk_run e s2 (sc1 ++ sc2)
        end
    | mk_run (Exited status) s1 sc1 => mk_run (Exited status) s1 sc1
    end.

Definition exit {World A} (status : Z) : P World A :=
  fun s => mk_run (Exited status) s [].

(** Code of the daemon's monad run inside the process. *)
Definition lift {World A} (m : M World A) : P World A :=
  fun s =>
    match m s with
    | mk_outcome a s1 evs => mk_run (Returned a) s1 (map ScDaemon evs)
    end.

Definition os_call {World A} (f : World -> A * World) (sc : A -> SysCall)
  : P World A :=
  fun s =>
    let r := f (world s) in
    mk_run (Returned (fst r)) (mk_state (snd r) (globals s)) [sc (fst r)].

Definition os_call_ {World} (f : World -> World) (sc : SysCall) : P World unit :=
  fun s => mk_run (Returned tt) (mk_state (f (world s)) (globals s)) [sc].

Declare Scope process_scope.
Delimit Scope process_scope with process.
Notation "x <- c1 ;; c2" := (pbind c1 (fun x => c2))
  (at level 61, c1 at next level, right associativity) : process_scope.
Notation "c1 ;; c2" := (pbind c1 (fun _ => c2))
  (at level 61, right associativity) : process_scope.

Section Process.

Context {World : Type} (env : Collaborators World) (os : OsCalls World)
  (opts : ProcessOptions).

#[local] Open Scope process_scope.

#[local] Abbreviation P := (P World).

Definition fork : P Z := os_call (os_fork os) ScFork.

Definition setsid : P Z := os_call (os_setsid os) ScSetsid.

Definition chdir (path : string) : P Z := os_call (os_chdir os path) (ScChdir path).

Definition stat (path : string) : P Z := os_call (os_stat os path) (ScStat path).

Definition fopen (path mode : string) : P (option nat) :=
  os_call (os_fopen os path mode) (ScFopen path mode).

Definition fread (size nmemb fd : nat) : P (Z * list Ascii.ascii) :=
  os_call (os_fread os size nmemb fd) (fun r => ScFread fd (fst r) (snd r)).

Definition ferror (fd : nat) : P Z := os_call (os_ferror os fd) (ScFerror fd).

Definition fclose (fd : nat) : P unit := os_call_ (os_fclose os fd) (ScFclose fd).

Definition kill (pid sig : Z) : P Z := os_call (os_kill os pid sig) (ScKill pid sig).

Definition getpid : P Z := os_call (os_getpid os) ScGetpid.

Definition fprintf (fd : nat) (n : Z) : P unit :=
  os_call_ (os_fprintf os fd n) (ScFprintf fd n).

Definition unlink (path : string) : P unit :=
  os_call_ (os_unlink os path) (ScUnlink path).

Definition PQisBusy (c : PGconn) : P Z := os_call (os_PQisBusy os c) (ScPQisBusy c).

Definition cancel_query (c : PGconn) (timeout : Z) : P unit :=
  os_call_ (os_cancel_query os c timeout) (ScCancelQuery c timeout).

Definition pqsignal (signo : Signal) (handler : Handler) : P unit :=
  os_call_ (os_pqsignal os signo handler) (ScPqsignal signo handler).

(** *** Shutdown *)

(** [close_connections]: the pointers are left as they are. *)
Definition close_connections : P unit :=
  g <- lift get_globals ;;
  st <- lift (PQstatus env (primary_conn g)) ;;
  (if conn_ok st then
     busy <- PQisBusy (primary_conn g) ;;
     (if busy =? 1
      then cancel_query (primary_conn g) (primary_response_timeout opts)
      else pret tt) ;;
     lift (PQfinish env (primary_conn g))
   else pret tt) ;;
  st <- lift (PQstatus env (local_conn g)) ;;
  if conn_ok st then lift (PQfinish env (local_conn g)) else pret tt.

(** [terminate].  The logger's shutdown is not traced. *)
Definition terminate {A} (retval : Z) : P A :=
  close_connections ;;
  match pid_file opts with
  | Some f => unlink f
  | None => pret tt
  end ;;
  exit retval.

(** *** Startup *)

(** [daemonize_process], a [switch] on the result of the first [fork]. *)
Definition daemonize_process : P unit :=
  pid <- fork ;;
  if pid =? -1 then exit (ERR_SYS_FAILURE os)
  else if pid =? 0 then
    pid <- setsid ;;
    if pid =? -1 then exit (ERR_SYS_FAILURE os)
    else
      pid <- fork ;;
      if pid =? -1 then exit (ERR_SYS_FAILURE os)
      else if negb (pid =? 0) then exit 0
      else
        _ <- chdir (config_dir (MAXPGPATH os) (config_file opts)) ;;
        pret tt
  else exit 0.

(** [check_and_create_pid_file].  The buffer is zeroed and [fread] stores
    at most [MAXLEN - 1] bytes in it, so [atoi] reads the bytes stored up
    to their first NUL.  [ferror] is called only when [fread] returned 0. *)
Definition check_and_create_pid_file (pid_file : string) : P unit :=
  st <- stat pid_file ;;
  (if negb (st =? -1) then
     fd <- fopen pid_file "r" ;;
     match fd with
     | None => exit (ERR_BAD_PIDFILE os)
     | Some fd =>
         r <- fread (MAXLEN os - 1) 1 fd ;;
         failed <- (if fst r =? 0
                    then (e <- ferror fd ;; pret (negb (e =? 0)))
                    else pret false) ;;
         if failed then exit (ERR_BAD_PIDFILE os)
         else
           fclose fd ;;
           let pid := os_atoi os (c_string (firstn (MAXLEN os - 1) (snd r))) in
           if negb (pid =? 0) then
             k <- kill pid 0 ;;
             if negb (k =? -1) then exit (ERR_BAD_PIDFILE os) else pret tt
           else pret tt
     end
   else pret tt) ;;
  fd <- fopen pid_file "w" ;;
  match fd with
  | None => exit (ERR_BAD_CONFIG os)
  | Some fd =>
      pid <- getpid ;;
      fprintf fd pid ;;
      fclose fd
  end.

Definition setup_event_handlers : P unit :=
  pqsignal SIGHUP handle_sighup ;;
  pqsignal SIGINT handle_sigint ;;
  pqsignal SIGTERM handle_sigint.

(** The sanity checks of [main] on the node record and the configuration,
    from the connection to the local database to the test of the
    commands.  [establish_db_connection] is passed [exit_on_error = true];
    the checks are those of a run in which it returns. *)
Definition main_sanity_checks : P unit :=
  g <- lift get_globals ;;
  c <- lift (establish_db_connection env
               (cfg_conninfo (config_file_options g)) true) ;;
  lift (modify (set_local_conn c)) ;;
  r <- lift (get_node_record env c (cfg_node_id (config_file_options g))
               (local_node_info g)) ;;
  lift (modify (set_local_node_info (snd r))) ;;
  match fst r with
  | RECORD_FOUND => pret tt
  | _ => lift (PQfinish env c) ;; terminate (ERR_BAD_CONFIG os)
  end ;;
  (if negb (active (snd r)) then
     match failover_mode opts with
     | FAILOVER_AUTOMATIC =>
         lift (PQfinish env c) ;; terminate (ERR_BAD_CONFIG os)
     | FAILOVER_MANUAL => pret tt
     end
   else pret tt) ;;
  match failover_mode opts with
  | FAILOVER_AUTOMATIC =>
      let required_param_missing :=
        match promote_command (config_file_options g),
              service_promote_command (config_file_options g) with
        | EmptyString, EmptyString => true
        | _, _ => false
        end
        || match follow_command (config_file_options g) with
           | EmptyString => true
           | _ => false
           end in
      if required_param_missing
      then lift (PQfinish env c) ;; exit (ERR_BAD_CONFIG os)
      else pret tt
  | FAILOVER_MANUAL => pret tt
  end.

(** [main] from the connection to the local database on.  [None] is
    returned when the monitor is still running as the fuel runs out. *)
Definition main_from_connection (fuel : nat) : P (option Z) :=
  main_sanity_checks ;;
  (if daemonize opts then daemonize_process else pret tt) ;;
  match pid_file opts with
  | Some f => check_and_create_pid_file f
  | None => pret tt
  end ;;
  setup_event_handlers ;;
  r <- lift (start_monitoring env fuel) ;;
  match r with
  | Some _ => pret (Some (SUCCESS os))
  | None => pret None
  end.

End Process.

(** ** Observations on the process *)

(** The calls of the daemon's monad among the system calls. *)
Fixpoint daemon_events (scs : list SysCall) : list Event :=
  match scs with
  | [] => []
  | ScDaemon e :: rest => e :: daemon_events rest
  | _ :: rest => daemon_events rest
  end.

(** Connections passed to [PQfinish], in order. *)
Fixpoint closed_conns (evs : list Event) : list PGconn :=
  match evs with
  | [] => []
  | EvPQfinish c :: rest => c :: closed_conns rest
  | _ :: rest => closed_conns rest
  end.

(** Connections whose status was read as CONNECTION_OK, in order. *)
Fixpoint ok_conns (evs : list Event) : list PGconn :=
  match evs with
  | [] => []
  | EvPQstatus c CONNECTION_OK :: rest => c :: ok_conns rest
  | _ :: rest => ok_conns rest
  end.

(** Files removed. *)
Fixpoint unlinked (scs : list SysCall) : list string :=
  match scs with
  | [] => []
  | ScUnlink f :: rest => f :: unlinked rest
  | _ :: rest => unlinked rest
  end.

(** Connections that [PQisBusy] reported busy, and those whose query was
    cancelled, with the timeout given. *)
Fixpoint busy_conns (scs : list SysCall) : list PGconn :=
  match scs with
  | [] => []
  | ScPQisBusy c busy :: rest =>
      if busy =? 1 then c :: busy_conns rest else busy_conns rest
  | _ :: rest => busy_conns rest
  end.

Fixpoint cancelled (scs : list SysCall) : list (PGconn * Z) :=
  match scs with
  | [] => []
  | ScCancelQuery c timeout :: rest => (c, timeout) :: cancelled rest
  | _ :: rest => cancelled rest
  end.

Definition is_fork (sc : SysCall) : bool :=
  match sc with ScFork _ => true | _ => false end.

Definition is_chdir (sc : SysCall) : bool :=
  match sc with ScChdir _ _ => true | _ => false end.

(** A call that opens a file for writing or writes to one. *)
Definition is_write (sc : SysCall) : bool :=
  match sc with
  | ScFopen _ mode _ => String.eqb mode "w"
  | ScFprintf _ _ => true
  | _ => false
  end.

(** A [kill] that found its process. *)
Definition is_live_pid (sc : SysCall) : bool :=
  match sc with
  | ScKill _ _ r => negb (r =? -1)
  | _ => false
  end.

(** The signals sent with [kill]. *)
Fixpoint signals_sent (scs : list SysCall) : list Z :=
  match scs with
  | [] => []
  | ScKill _ sig _ :: rest => sig :: signals_sent rest
  | _ :: rest => signals_sent rest
  end.

(** The status and the record the first [get_node_record] returned. *)
Fixpoint record_read (evs : list Event) : option (RecordStatus * t_node_info) :=
  match evs with
  | [] => None
  | EvGetNodeRecord _ _ st r :: _ => Some (st, r)
  | _ :: rest => record_read rest
  end.

(** The reads of the status of a connection, and the calls of [PQfinish]
    on one, that come after a [PQfinish] of the same connection;
    [closed] are the handles closed so far.  The null pointer is not a
    connection. *)
Fixpoint used_after_finish (closed : list nat) (evs : list Event) : list Event :=
  match evs with
  | [] => []
  | EvPQfinish (Some h) :: rest =>
      (if existsb (Nat.eqb h) closed then [EvPQfinish (Some h)] else [])
      ++ used_after_finish (h :: closed) rest
  | EvPQstatus (Some h) st :: rest =>
      (if existsb (Nat.eqb h) closed then [EvPQstatus (Some h) st] else [])
      ++ used_after_finish closed rest
  | _ :: rest => used_after_finish closed rest
  end.

(** No [fork] comes after a write: [written] tells whether a write has
    been seen. *)
Fixpoint no_fork_after_write (written : bool) (scs : list SysCall) : bool :=
  match scs with
  | [] => true
  | sc :: rest =>
      negb (written && is_fork sc)
      && no_fork_after_write (written || is_write sc) rest
  end.

(** The promote and follow commands automatic failover needs are set. *)
Definition commands_defined (cfg : t_configuration_options) : Prop :=
  (promote_command cfg <> EmptyString \/ service_promote_command cfg <> EmptyString)
  /\ follow_command cfg <> EmptyString.

(** What was written with [fprintf], by file. *)
Fixpoint written (scs : list SysCall) : list (nat * Z) :=
  match scs with
  | [] => []
  | ScFprintf fd n :: rest => (fd, n) :: written rest
  | _ :: rest => written rest
  end.

(** [always p m]: whatever the state it is run from, [m] only makes calls
    that satisfy [p]. *)
Definition always {World A} (p : SysCall -> bool) (m : P World A) : Prop :=
  forall s, forallb p (syscalls (m s)) = true.

Definition not_fork (sc : SysCall) : bool := negb (is_fork sc).

Definition not_write (sc : SysCall) : bool := negb (is_write sc).

(** Calls of the daemon's monad and the calls [terminate] makes beside
    them: [PQisBusy], [cancel_query] and [unlink]. *)
Definition shutdown_kind (sc : SysCall) : bool :=
  match sc with
  | ScDaemon _
  | ScPQisBusy _ _
  | ScCancelQuery _ _
  | ScUnlink _ => true
  | _ => false
  end.

(** ** More runs on the scripted cluster *)

(** Node 2 has just promoted itself; siblings 3 and 4 are to be told, and
    node 4 cannot be reached. *)
Definition state_promoted : State nat :=
  mk_state 0%nat
    (set_standby_nodes [node3; node4] (globals2 FAILOVER_STATE_PROMOTED)).

Definition promoted_dispatch_run : Outcome nat SwitchExit :=
  failover_dispatch (scripted sc_election_won) state_promoted.

(** One turn of the standby monitor with the upstream node in reach. *)
Definition quiet_turn_run : Outcome nat LoopExit :=
  standby_loop_body (scripted sc_primary_reappeared) NODE_STATUS_UP
    (state2 FAILOVER_STATE_NONE).

(** A witness server, and a node whose record was never filled in. *)
Definition node5 : t_node_info :=
  mk_node_info 5 1 WITNESS "node5" "host=node5" 0 true 0 false None.

Definition state_witness : State nat :=
  mk_state 0%nat (set_local_node_info node5 (globals2 FAILOVER_STATE_NONE)).

Definition state_unknown : State nat :=
  mk_state 0%nat
    (set_local_node_info (ext_node_info_initializer (scripted sc_election_won))
       (globals2 FAILOVER_STATE_NONE)).

(** Node 1 answers the liveness probe again from the first second on, but
    every connection to it is bad; node 3 is the only sibling and grants
    its vote. *)
Definition sc_upstream_refuses : Script :=
  mk_script 1234 (fun _ => 0) primary_lost_status
    (fun ci w => negb (String.eqb ci "host=node1") || Nat.leb 1 w)
    cluster_connect VS_NO_VOTE 7 [node3] (fun _ => true) (fun _ => (1, 500)) 500
    cluster_record (None, -1) (fun _ => RECTYPE_STANDBY) (fun _ => (false, 0)).

(** Node 3 is the only sibling and cannot be reached. *)
Definition sc_sibling_unreachable : Script :=
  mk_script 1234 (fun _ => 0) primary_lost_status primary_lost_available
    (fun _ _ => None) VS_NO_VOTE 7 [node3] (fun _ => true) (fun _ => (1, 500)) 500
    cluster_record (None, -1) (fun _ => RECTYPE_STANDBY) (fun _ => (false, 0)).

Definition election_owed_run : Outcome nat ElectionResult :=
  do_election (scripted sc_no_new_primary) (state2 FAILOVER_STATE_NONE).

(** The database is up but holds no record of any node. *)
Definition sc_record_missing : Script :=
  mk_script 1234 (fun _ => 0) (fun _ _ => CONNECTION_OK) (fun _ _ => true)
    cluster_connect VS_NO_VOTE 7 [] (fun _ => true) (fun _ => (1, 500)) 500
    (fun _ => None) (None, -1) (fun _ => RECTYPE_STANDBY) (fun _ => (false, 0)).

(** An operating system in which every call succeeds, [fork] returns 0
    and no PID file exists. *)
Definition scripted_os : OsCalls nat :=
  mk_os_calls nat 0 1 2 3 1024%nat 1024%nat
    (fun _ => 0)
    (fun w => (0, w))
    (fun w => (1, w))
    (fun _ w => (0, w))
    (fun _ w => (-1, w))
    (fun _ _ w => (Some 3%nat, w))
    (fun _ _ _ w => ((0, []), w))
    (fun _ w => (0, w))
    (fun _ w => w)
    (fun _ _ w => (-1, w))
    (fun w => (4321, w))
    (fun _ _ w => w)
    (fun _ w => w)
    (fun _ w => (0, w))
    (fun _ _ w => w)
    (fun _ _ w => w).

Definition options2 : ProcessOptions :=
  mk_process_options "/etc/repmgr/repmgr.conf" (Some "/run/repmgrd.pid"%string)
    true FAILOVER_AUTOMATIC 60.

Definition record_missing_run : Run nat unit :=
  main_sanity_checks (scripted sc_record_missing) scripted_os options2
    (state2 FAILOVER_STATE_NONE).

(** * Properties *)

#[local] Arguments Z.add _ _ : simpl never.
#[local] Arguments Z.mul _ _ : simpl never.
#[local] Arguments Z.rem _ _ : simpl never.
#[local] Arguments Z.gtb _ _ : simpl never.
#[local] Arguments Z.ltb _ _ : simpl never.
#[local] Arguments Z.eqb _ _ : simpl never.
#[local] Arguments Z.leb _ _ : simpl never.
#[local] Arguments Z.of_nat _ : simpl never.

(** ** Best-candidate poll *)

(** The poll never invents a node: its answer is the local node or one of
    the siblings. *)
Lemma poll_best_candidate_in (local : t_node_info) (siblings : NodeInfoList) :
  In (poll_best_candidate local siblings) (local :: siblings).
Proof.
  unfold poll_best_candidate.
  revert local. induction siblings as [|cell rest IH]; intros local.
  - left. reflexivity.
  - cbn [fold_left].
    specialize (IH (poll_step local cell)).
    destruct IH as [IH | IH].
    + rewrite <- IH. unfold poll_step.
      repeat match goal with |- context [if ?c then _ else _] => destruct c end;
        cbn; auto.
    + right. right. exact IH.
Qed.

(** With one sibling whose LSN is higher, the poll does choose it. *)
Lemma poll_step_higher_lsn (best cell : t_node_info) :
  last_wal_receive_lsn cell > last_wal_receive_lsn best ->
  poll_step best cell = cell.
Proof.
  intros H. unfold poll_step.
  destruct (Z.gtb_spec (last_wal_receive_lsn cell) (last_wal_receive_lsn best));
    [reflexivity | lia].
Qed.

(** A sibling that is behind on LSN still replaces the best candidate when
    its node id is lower: the [node_id] test is the [else] branch of the LSN
    equality test. *)
Lemma poll_step_lower_lsn_lower_id (best cell : t_node_info) :
  last_wal_receive_lsn cell < last_wal_receive_lsn best ->
  node_id cell < node_id best ->
  poll_step best cell = cell.
Proof.
  intros Hlsn Hid. unfold poll_step.
  destruct (Z.gtb_spec (last_wal_receive_lsn cell) (last_wal_receive_lsn best));
    [lia |].
  destruct (Z.eqb_spec (last_wal_receive_lsn cell) (last_wal_receive_lsn best));
    [lia |].
  destruct (Z.ltb_spec (node_id cell) (node_id best)); [reflexivity | lia].
Qed.

(** On equal LSN and equal priority the node id is never consulted. *)
Lemma poll_step_tie_keeps_best (best cell : t_node_info) :
  last_wal_receive_lsn cell = last_wal_receive_lsn best ->
  priority cell = priority best ->
  poll_step best cell = best.
Proof.
  intros Hlsn Hprio. unfold poll_step. rewrite Hlsn, Hprio.
  destruct (Z.gtb_spec (last_wal_receive_lsn best) (last_wal_receive_lsn best));
    [lia |].
  rewrite Z.eqb_refl.
  destruct (Z.gtb_spec (priority best) (priority best)); [lia | reflexivity].
Qed.

(** C1 (defect in the code).  The claim: [poll_best_candidate] returns the
    node that is maximal for highest LSN, then highest priority, then lowest
    node id, so that two nodes looking at the same nodes agree.  On the
    nodes 2 (LSN 100) and 1 (LSN 50), same priority: node 2 polls its
    sibling 1 and answers node 1, which is behind; node 1 polls its sibling
    2 and answers node 2.  The two disagree, and node 2's answer is not
    maximal.  On equal LSN and priority, node 2 answers itself although
    node 1 has the lower id. *)
Theorem poll_best_candidate_not_maximal :
  poll_best_candidate ahead2 [behind1] = behind1
  /\ better ahead2 behind1 = true
  /\ poll_best_candidate behind1 [ahead2] = ahead2
  /\ ~ best_candidate_claim ahead2 [behind1]
  /\ poll_best_candidate ahead2 [level1] = ahead2
  /\ better level1 ahead2 = true
  /\ ~ best_candidate_claim ahead2 [level1].
Proof.
  assert (H1 : poll_best_candidate ahead2 [behind1] = behind1) by reflexivity.
  assert (H2 : poll_best_candidate ahead2 [level1] = ahead2) by reflexivity.
  repeat split; try reflexivity.
  - intros [_ Hmax]. rewrite H1 in Hmax.
    specialize (Hmax ahead2 (or_introl eq_refl)). discriminate Hmax.
  - intros [_ Hmax]. rewrite H2 in Hmax.
    specialize (Hmax level1 (or_intror (or_introl eq_refl))). discriminate Hmax.
Qed.

(** ** Observations on concatenated traces *)

Lemma announce_successes_app (a b : list Event) :
  announce_successes (a ++ b) = announce_successes a + announce_successes b.
Proof.
  induction a as [|e a IH]; cbn [announce_successes app]; [reflexivity|].
  destruct e; try assumption. destruct accepted; lia.
Qed.

Lemma peer_votes_app (a b : list Event) :
  peer_votes (a ++ b) = peer_votes a + peer_votes b.
Proof.
  induction a as [|e a IH]; cbn [peer_votes app]; [reflexivity|].
  destruct e; try assumption. lia.
Qed.

Lemma vote_requests_app (a b : list Event) :
  vote_requests (a ++ b) = vote_requests a + vote_requests b.
Proof.
  induction a as [|e a IH]; cbn [vote_requests app]; [reflexivity|].
  destruct e; try assumption. lia.
Qed.

Lemma sibling_ahead_app (lsn : Z) (a b : list Event) :
  sibling_ahead lsn (a ++ b) = sibling_ahead lsn a || sibling_ahead lsn b.
Proof.
  induction a as [|e a IH]; cbn [sibling_ahead app]; [reflexivity|].
  destruct e; try assumption.
  rewrite IH. now rewrite orb_assoc.
Qed.

Lemma local_lsn_read_app (a b : list Event) :
  local_lsn_read (a ++ b) =
  match local_lsn_read a with Some x => Some x | None => local_lsn_read b end.
Proof.
  induction a as [|e a IH]; cbn [local_lsn_read app]; [reflexivity|].
  destruct e; try assumption. reflexivity.
Qed.

Lemma siblings_found_app (a b : list Event) :
  siblings_found (a ++ b) =
  match siblings_found a with Some x => Some x | None => siblings_found b end.
Proof.
  induction a as [|e a IH]; cbn [siblings_found app]; [reflexivity|].
  destruct e; try assumption. reflexivity.
Qed.

Lemma announce_kind_quiet (evs : list Event) :
  forallb announce_kind evs = true ->
  peer_votes evs = 0
  /\ vote_requests evs = 0
  /\ (forall lsn, sibling_ahead lsn evs = false)
  /\ local_lsn_read evs = None
  /\ existsb is_reset_voting_status evs = false.
Proof.
  induction evs as [|e evs IH]; cbn; [auto|].
  intros H. apply andb_true_iff in H. destruct H as [He H].
  specialize (IH H). destruct e; try discriminate; exact IH.
Qed.

Lemma vote_kind_quiet (evs : list Event) :
  forallb vote_kind evs = true ->
  announce_successes evs = 0
  /\ local_lsn_read evs = None
  /\ existsb is_reset_voting_status evs = false.
Proof.
  induction evs as [|e evs IH]; cbn; [auto|].
  intros H. apply andb_true_iff in H. destruct H as [He H].
  specialize (IH H). destruct e; try discriminate; exact IH.
Qed.

Section DaemonProperties.

Context {World : Type} (env : Collaborators World).

(** ** Connection supervisor *)

Lemma try_reconnect_attempts_spec (n : nat) (ci : string) (s : State World) :
  let o := try_reconnect_attempts env n ci s in
  (probes (events o) <= n)%nat
  /\ spaced true (events o) = true
  /\ globals (final o) = globals s
  /\ match value o with
     | Some c => value (PQstatus env c (final o)) = CONNECTION_OK
     | None => probes (events o) = n
     end.
Proof.
  revert s. induction n as [|n IH]; intros s.
  - cbn. auto.
  - cbn [try_reconnect_attempts].
    unfold bind, is_server_available, establish_db_connection, PQfinish,
      PQstatus, sleep, call, call_, ret.
    cbn.
    destruct (fst (ext_is_server_available env ci (world s))) eqn:Hav.
    + match goal with |- context [conn_ok ?x] => destruct (conn_ok x) eqn:Hst end.
      * cbn in Hst |- *. repeat split; try lia.
        match goal with
        | H : conn_ok ?x = true |- _ => destruct x; [reflexivity | discriminate]
        end.
      * match goal with
        | |- context [try_reconnect_attempts env n ci ?s'] =>
            specialize (IH s'); cbv zeta in IH;
            set (o := try_reconnect_attempts env n ci s') in *; clearbody o;
            destruct o as [v f e]; cbn in IH |- *
        end.
        unfold probes in *. cbn.
        destruct IH as (I1 & I2 & I3 & I4).
        repeat split; try lia; try assumption.
        destruct v; [assumption | lia].
    + match goal with
      | |- context [try_reconnect_attempts env n ci ?s'] =>
          specialize (IH s'); cbv zeta in IH;
          set (o := try_reconnect_attempts env n ci s') in *; clearbody o;
          destruct o as [v f e]; cbn in IH |- *
      end.
      unfold probes in *. cbn.
      destruct IH as (I1 & I2 & I3 & I4).
      repeat split; try lia; try assumption.
      destruct v; [assumption | lia].
Qed.

(** C6.  Every call of [try_reconnect] issues at most five liveness
    probes, with a [sleep] of at least one second between any two of them;
    it returns either node status UP with a handle whose status is
    CONNECTION_OK, or node status DOWN with a null handle after exactly
    five probes.  It has no other way out, and leaves the daemon's
    variables alone. *)
Theorem try_reconnect_bounded (ci : string) (s : State World) :
  let o := try_reconnect env ci s in
  (probes (events o) <= 5)%nat
  /\ probes_one_second_apart (events o) = true
  /\ globals (final o) = globals s
  /\ ((snd (value o) = NODE_STATUS_UP
       /\ value (PQstatus env (fst (value o)) (final o)) = CONNECTION_OK)
      \/ (value o = (None, NODE_STATUS_DOWN) /\ probes (events o) = 5%nat)).
Proof.
  cbv zeta. unfold try_reconnect, bind.
  pose proof (try_reconnect_attempts_spec max_attempts ci s) as H.
  cbv zeta in H.
  set (o := try_reconnect_attempts env max_attempts ci s) in *.
  clearbody o. destruct o as [v f e]. cbn in H.
  destruct H as (H1 & H2 & H3 & H4).
  unfold max_attempts in *.
  destruct v as [c|]; cbn in H4 |- *; rewrite app_nil_r;
    unfold probes_one_second_apart, probes in *;
    (split; [exact H1 | split; [exact H2 | split; [exact H3 |]]]).
  - left. split; [reflexivity | exact H4].
  - right. split; [reflexivity | exact H4].
Qed.

(** ** Election engine *)

Lemma announce_loop_spec (term : Z) (cells : NodeInfoList) (visible_nodes : Z)
    (s : State World) :
  let o := announce_loop env term cells visible_nodes s in
  snd (fst (value o)) = visible_nodes + announce_successes (events o)
  /\ globals (final o) = globals s
  /\ forallb announce_kind (events o) = true
  /\ snd (value o) = announce_rejected (events o)
  /\ (snd (value o) = false ->
      visible_cells (fst (fst (value o))) = announce_successes (events o)).
Proof.
  revert visible_nodes s.
  induction cells as [|cell rest IH]; intros visible_nodes s.
  - cbn. repeat split; try lia; reflexivity.
  - cbn [announce_loop].
    unfold bind, establish_db_connection, announce_candidature, get_globals,
      PQstatus, call, ret.
    cbn.
    match goal with |- context [conn_ok ?x] => destruct (conn_ok x) eqn:Hst end; cbn.
    + match goal with |- context [negb (fst ?x)] => destruct (fst x) eqn:Hacc end; cbn.
      * match goal with
        | |- context [announce_loop env term rest ?v ?s'] =>
            specialize (IH v s'); cbv zeta in IH;
            set (o := announce_loop env term rest v s') in *; clearbody o;
            destruct o as [[[cells' vis] cand] f e]; cbn in IH |- *
        end.
        destruct IH as (I1 & I2 & I3 & I4 & I5). rewrite ?app_nil_r.
        repeat split; try lia; try assumption.
        intros Hc. specialize (I5 Hc). unfold visible_cells in *.
        cbn [filter is_visible set_is_visible List.length]. lia.
      * repeat split; try lia; try discriminate.
    + match goal with
      | |- context [announce_loop env term rest ?v ?s'] =>
          specialize (IH v s'); cbv zeta in IH;
          set (o := announce_loop env term rest v s') in *; clearbody o;
          destruct o as [[[cells' vis] cand] f e]; cbn in IH |- *
      end.
      destruct IH as (I1 & I2 & I3 & I4 & I5). rewrite ?app_nil_r.
      repeat split; try lia; try assumption.
Qed.

Lemma vote_loop_spec (term : Z) (cells : NodeInfoList) (votes : Z) (ahead : bool)
    (s : State World) :
  let o := vote_loop env term cells votes ahead s in
  snd (fst (value o)) = votes + peer_votes (events o)
  /\ snd (value o) =
       ahead || sibling_ahead (last_wal_receive_lsn (local_node_info (globals s)))
                  (events o)
  /\ globals (final o) = globals s
  /\ forallb vote_kind (events o) = true
  /\ vote_requests (events o) = visible_cells cells.
Proof.
  revert votes ahead s.
  induction cells as [|cell rest IH]; intros votes ahead s.
  - cbn. repeat split; try lia. now rewrite orb_false_r.
  - cbn [vote_loop].
    destruct (is_visible cell) eqn:Hvis; cbn [negb].
    + unfold bind, request_vote, PQfinish, get_globals, call, call_, ret. cbn.
      match goal with
      | |- context [vote_loop env term rest ?v ?a ?s'] =>
          specialize (IH v a s'); cbv zeta in IH;
          set (o := vote_loop env term rest v a s') in *; clearbody o;
          destruct o as [[[cells' vts] ahd] f e]; cbn in IH |- *
      end.
      destruct IH as (I1 & I2 & I3 & I4 & I5). rewrite ?app_nil_r.
      unfold visible_cells in *. cbn [filter]. rewrite Hvis. cbn [List.length].
      repeat split; try lia; try assumption.
      rewrite I2.
      match goal with |- context [?a >? ?b] => destruct (a >? b) end;
        destruct ahead; reflexivity.
    + unfold bind, ret. cbn.
      match goal with
      | |- context [vote_loop env term rest ?v ?a ?s'] =>
          specialize (IH v a s'); cbv zeta in IH;
          set (o := vote_loop env term rest v a s') in *; clearbody o;
          destruct o as [[[cells' vts] ahd] f e]; cbn in IH |- *
      end.
      destruct IH as (I1 & I2 & I3 & I4 & I5). rewrite ?app_nil_r.
      unfold visible_cells in *. cbn [filter]. rewrite Hvis.
      repeat split; try lia; try assumption.
Qed.

(** Every election round follows one of the four runs of
    [election_run]. *)
Lemma do_election_run (s : State World) :
  election_run (fst (ext_rand env (world s)))
    (events (do_election env s)) (value (do_election env s)).
Proof.
  unfold do_election.
  unfold bind at 1 2 3 4 5.
  unfold rand, pg_usleep, modify, get_globals, get_voting_status, call, call_.
  cbn.
  match goal with
  | |- context [NodeVotingStatus_eqb ?x ?y] =>
      destruct (NodeVotingStatus_eqb x y) eqn:Hvs
  end.
  - cbn.
    match goal with
    | H : NodeVotingStatus_eqb ?x _ = true |- _ => destruct x; try discriminate
    end.
    constructor.
  - unfold bind, set_voting_status_initiated, clear_node_info_list,
      get_active_sibling_node_records, get_last_wal_receive_location,
      modify, get_globals, call, call_, ret.
    cbn.
    match goal with
    | |- context [node_count ?x =? 0] => destruct (node_count x =? 0) eqn:Hn
    end; cbn.
    + apply Z.eqb_eq in Hn; rewrite Hn; apply run_alone.
      intros E; rewrite E in Hvs; discriminate.
    + apply Z.eqb_neq in Hn.
      match goal with
      | |- context [announce_loop env ?t ?c ?v ?s'] =>
          pose proof (announce_loop_spec t c v s') as HA; cbv zeta in HA;
          set (oa := announce_loop env t c v s') in *; clearbody oa
      end.
      destruct oa as [[[cells' vis] cand] fa A].
      cbn in HA |- *.
      destruct HA as (A1 & A2 & A3 & A4 & A5).
      destruct cand; cbn.
      * rewrite app_nil_r.
        apply (run_rival _ _ _ _ _ _ _ A); try assumption; try (now symmetry).
        intros E; rewrite E in Hvs; discriminate.
      * match goal with
        | |- context [vote_loop env ?t ?c ?v ?a ?s'] =>
            pose proof (vote_loop_spec t c v a s') as HV; cbv zeta in HV;
            set (ov := vote_loop env t c v a s') in *; clearbody ov
        end.
        destruct ov as [[[cells'' vts] ahd] fv V].
        cbn in HV |- *.
        destruct HV as (V1 & V2 & V3 & V4 & V5).
        rewrite ?app_nil_r.
        match goal with
        | |- context [if ?c =? ?d then _ else _] => destruct (c =? d) eqn:Htally
        end; cbn; rewrite ?app_nil_r.
        all: match goal with
             | |- election_run _ (?e1 :: ?e2 :: ?e3 :: ?e4 :: ?e5 :: ?rest) _ =>
                 change (e1 :: e2 :: e3 :: e4 :: e5 :: rest)
                   with ([e1; e2; e3; e4; e5] ++ rest)
             end.
        all: match goal with
             | |- election_run _
                    (_ ++ ?A' ++ EvGetLastWalReceiveLocation _ ?lsn :: ?V') ?res =>
                 replace res with
                   (if peer_votes V' + (if sibling_ahead lsn V' then 0 else 1)
                       =? 1 + announce_successes A'
                    then ELECTION_WON else ELECTION_LOST);
                 [ apply run_vote; try assumption;
                   [ intros E; rewrite E in Hvs; discriminate
                   | rewrite V5; apply A5; reflexivity ]
                 | ]
             end.
        all: cbn [orb] in V2; rewrite V2 in Htally; subst vts vis.
        all: match goal with
             | |- context [sibling_ahead ?l ?V'] => destruct (sibling_ahead l V')
             end; cbn [negb] in Htally.
        all: match goal with
             | |- context [?a =? ?b] => destruct (Z.eqb_spec a b)
             end.
        all: try reflexivity.
        all: try (apply Z.eqb_eq in Htally; lia).
        all: try (apply Z.eqb_neq in Htally; lia).
Qed.

Lemma votes_are_ballots_app (a b : list Event) :
  votes_are_ballots (a ++ b) = votes_are_ballots a && votes_are_ballots b.
Proof.
  induction a as [|e a IH]; [reflexivity|].
  destruct e; cbn [votes_are_ballots app]; rewrite ?IH; try reflexivity.
  now rewrite andb_assoc.
Qed.

(** Ballots add up to at most one vote per request. *)
Lemma ballots_bounded (evs : list Event) :
  votes_are_ballots evs = true ->
  0 <= peer_votes evs <= vote_requests evs.
Proof.
  induction evs as [|e evs IH]; cbn [votes_are_ballots peer_votes vote_requests];
    [lia|].
  destruct e; try exact IH.
  intros H. apply andb_true_iff in H. destruct H as [Hv H].
  specialize (IH H). apply orb_true_iff in Hv.
  destruct Hv as [Hv | Hv]; apply Z.eqb_eq in Hv; lia.
Qed.

Lemma announce_successes_nonneg (evs : list Event) : 0 <= announce_successes evs.
Proof.
  induction evs as [|e evs IH]; cbn [announce_successes]; [lia|].
  destruct e; try exact IH. destruct accepted; lia.
Qed.

(** C3.  In every election round that reaches the vote-request phase (the
    local LSN has been read), in which every sibling returned 0 or 1 as
    its vote and fewer than [INT_MAX] announcements succeeded - so that
    the [int] counters of the code hold the sums the trace shows: the
    self vote is 1 exactly when no sibling asked for its vote reported an
    LSN above the local one ([self_vote_of]); the result is WON if and
    only if the votes received plus the self vote equal [visible_nodes],
    one for the local node plus one per sibling whose announcement
    succeeded, and it is LOST otherwise.  The siblings asked for a vote
    are those announcements, and the two counters stay between 0 and
    [INT_MAX], [votes_for_me] never above [visible_nodes]. *)
Theorem do_election_tally (s : State World) (lsn : Z) :
  let o := do_election env s in
  local_lsn_read (events o) = Some lsn ->
  votes_are_ballots (events o) = true ->
  announce_successes (events o) < INT_MAX ->
  (value o = ELECTION_WON <->
   votes_for_me_of lsn (events o) = visible_nodes_of (events o))
  /\ (value o <> ELECTION_WON -> value o = ELECTION_LOST)
  /\ (self_vote_of lsn (events o) = 1 <-> sibling_ahead lsn (events o) = false)
  /\ vote_requests (events o) = announce_successes (events o)
  /\ 0 <= votes_for_me_of lsn (events o)
  /\ votes_for_me_of lsn (events o) <= visible_nodes_of (events o)
  /\ visible_nodes_of (events o) <= INT_MAX.
Proof.
  cbv zeta.
  pose proof (do_election_run s) as R.
  set (o := do_election env s) in *. clearbody o.
  destruct o as [v f evs]. cbn [value events] in *.
  intros Hlsn Hballots Hmax.
  assert (Hself : self_vote_of lsn evs = 1 <-> sibling_ahead lsn evs = false).
  { unfold self_vote_of. destruct (sibling_ahead lsn evs); split; intros H;
      (reflexivity || discriminate || lia). }
  pose proof (ballots_bounded evs Hballots) as Hbound.
  pose proof (announce_successes_nonneg evs) as Hnn.
  destruct R as [c | c vs term node upstream Hvs
                | c vs term node upstream found A Hvs Hf HA Hrej
                | c vs term node upstream found A lsn' V Hvs Hf HA HV Hreq].
  - discriminate Hlsn.
  - discriminate Hlsn.
  - exfalso. unfold election_prologue in Hlsn. cbn in Hlsn.
    destruct (announce_kind_quiet A HA) as (_ & _ & _ & Hnone & _).
    rewrite Hnone in Hlsn. discriminate.
  - destruct (announce_kind_quiet A HA) as (Apv & Avr & Aah & Alsn & _).
    destruct (vote_kind_quiet V HV) as (Vas & _ & _).
    assert (lsn' = lsn) as ->.
    { unfold election_prologue in Hlsn. cbn in Hlsn.
      rewrite local_lsn_read_app, Alsn in Hlsn. cbn in Hlsn. congruence. }
    assert (Hsucc : announce_successes
              (election_prologue (fst (ext_rand env (world s))) c vs term node
                 upstream found ++ A ++ EvGetLastWalReceiveLocation c lsn :: V)
            = announce_successes A).
    { rewrite !announce_successes_app. cbn [announce_successes election_prologue].
      rewrite Vas. lia. }
    assert (Hvotes : peer_votes
              (election_prologue (fst (ext_rand env (world s))) c vs term node
                 upstream found ++ A ++ EvGetLastWalReceiveLocation c lsn :: V)
            = peer_votes V).
    { rewrite !peer_votes_app. cbn [peer_votes election_prologue].
      rewrite Apv. lia. }
    assert (Hreqs : vote_requests
              (election_prologue (fst (ext_rand env (world s))) c vs term node
                 upstream found ++ A ++ EvGetLastWalReceiveLocation c lsn :: V)
            = vote_requests V).
    { rewrite !vote_requests_app. cbn [vote_requests election_prologue].
      rewrite Avr. lia. }
    assert (Hahead : sibling_ahead lsn
              (election_prologue (fst (ext_rand env (world s))) c vs term node
                 upstream found ++ A ++ EvGetLastWalReceiveLocation c lsn :: V)
            = sibling_ahead lsn V).
    { rewrite !sibling_ahead_app. cbn [sibling_ahead election_prologue orb].
      rewrite Aah. reflexivity. }
    unfold votes_for_me_of, visible_nodes_of, self_vote_of in *.
    rewrite Hsucc, Hvotes, Hreqs, Hahead in *.
    split; [| split; [| split; [| split]]].
    + destruct (Z.eqb_spec
                  (peer_votes V + (if sibling_ahead lsn V then 0 else 1))
                  (1 + announce_successes A)); split; intros H;
        (reflexivity || discriminate || lia).
    + destruct (_ =? _); [intros H; now elim H | reflexivity].
    + exact Hself.
    + exact Hreq.
    + destruct (sibling_ahead lsn V); repeat split; lia.
Qed.

(** An election never calls [reset_voting_status], whatever happens. *)
Lemma do_election_never_resets (s : State World) :
  existsb is_reset_voting_status (events (do_election env s)) = false.
Proof.
  pose proof (do_election_run s) as R.
  set (o := do_election env s) in *. clearbody o.
  destruct o as [v f evs]. cbn [value events] in *.
  destruct R as [c | c vs term node upstream Hvs
                | c vs term node upstream found A Hvs Hf HA Hrej
                | c vs term node upstream found A lsn' V Hvs Hf HA HV Hreq].
  - reflexivity.
  - reflexivity.
  - destruct (announce_kind_quiet A HA) as (_ & _ & _ & _ & Hr).
    unfold election_prologue. cbn. exact Hr.
  - destruct (announce_kind_quiet A HA) as (_ & _ & _ & _ & Hr).
    destruct (vote_kind_quiet V HV) as (_ & _ & Hr').
    unfold election_prologue. cbn. rewrite existsb_app, Hr. cbn. exact Hr'.
Qed.

(** The bounds of the jitter: every value the computation can produce from
    a result of [rand()] lies between 100 ms and 590 ms. *)
Lemma rand_wait_bounds (r : Z) :
  0 <= r -> 100000 <= rand_wait r <= 590000.
Proof.
  intros Hr. unfold rand_wait.
  pose proof (Z.rem_bound_pos r 50 Hr ltac:(lia)). lia.
Qed.

(** C7.  Every election round starts with [rand()] and a sleep of
    [rand_wait] microseconds of its result; for every result [rand()] can
    give (it is never negative) that duration lies in [100 ms, 600 ms]. *)
Theorem do_election_jitter (s : State World) :
  let r := fst (ext_rand env (world s)) in
  0 <= r ->
  100000 <= rand_wait r <= 600000
  /\ exists rest,
       events (do_election env s) = EvRand r :: EvUsleep (rand_wait r) :: rest.
Proof.
  cbv zeta. intros Hr. split.
  - pose proof (rand_wait_bounds _ Hr). lia.
  - destruct (do_election_run s); unfold election_prologue; cbn;
      eexists; reflexivity.
Qed.

(** C8.  If the refreshed sibling list is empty, the election returns WON
    at once: the refresh is its last call, and no peer connection is
    opened, no candidature announced and no vote requested. *)
Theorem do_election_no_siblings (s : State World) :
  let o := do_election env s in
  siblings_found (events o) = Some 0 ->
  value o = ELECTION_WON
  /\ existsb is_peer_contact (events o) = false
  /\ exists c vs term node upstream,
       events o =
       election_prologue (fst (ext_rand env (world s))) c vs term node upstream 0.
Proof.
  cbv zeta.
  pose proof (do_election_run s) as R.
  set (o := do_election env s) in *. clearbody o.
  destruct o as [v f evs]. cbn [value events] in *.
  intros Hfound.
  destruct R as [c | c vs term node upstream Hvs
                | c vs term node upstream found A Hvs Hf HA Hrej
                | c vs term node upstream found A lsn' V Hvs Hf HA HV Hreq].
  - discriminate Hfound.
  - split; [reflexivity | split; [reflexivity |]].
    exists c, vs, term, node, upstream. reflexivity.
  - exfalso. unfold election_prologue in Hfound. cbn in Hfound. congruence.
  - exfalso. unfold election_prologue in Hfound. cbn in Hfound. congruence.
Qed.

(** ** Failover orchestrator *)

Ltac split_status :=
  match goal with
  | |- context [conn_ok ?x] =>
      let H := fresh "Hst" in destruct x eqn:H; cbn [conn_ok negb andb]
  end.

(** What [promote_self] does when the promote command exits non-zero.
    If the local connection was found down and the connection opened in
    its place is not CONNECTION_OK either, it returns LOCAL_NODE_FAILURE
    without looking for a primary and without recording
    [repmgrd_failover_abort].  Otherwise it returns PRIMARY_REAPPEARED and
    records the event when [get_primary_connection] gives a CONNECTION_OK
    connection to a primary whose id is the [node_id] of the record
    [promote_self] fetched for the upstream node - the record it fetched,
    not the upstream node's id: the status of that fetch is not checked -
    and returns PROMOTION_FAILED without recording it in every other
    case. *)
Lemma promote_self_command_failed (s : State World) (r : Z) :
  let o := promote_self env s in
  command_exit (events o) = Some r ->
  r <> 0 ->
  if local_reconnect_failed (events o) then
    value o = FAILOVER_STATE_LOCAL_NODE_FAILURE
    /\ discovered_primary (events o) = None
    /\ abort_recorded (events o) = false
  else if original_primary_found (events o) then
    value o = FAILOVER_STATE_PRIMARY_REAPPEARED
    /\ abort_recorded (events o) = true
  else
    value o = FAILOVER_STATE_PROMOTION_FAILED
    /\ abort_recorded (events o) = false.
Proof.
  cbv zeta. unfold promote_self.
  unfold bind, get_globals, sleep, get_node_record, system, PQstatus,
    establish_db_connection, get_primary_connection, create_event_record,
    modify, call, call_, ret.
  cbn.
  destruct (promote_delay (config_file_options (globals s)) >? 0); cbn.
  all: repeat (first
         [ split_status
         | match goal with
           | |- context [if negb (?a =? ?b) then _ else _] =>
               destruct (Z.eqb_spec a b)
           | |- context [if ?a =? ?b then _ else _] =>
               destruct (Z.eqb_spec a b)
           end ]; cbn).
  all: intros Hexit Hr; try (injection Hexit as Hexit; congruence).
  all: try (repeat split; reflexivity).
  all: try (exfalso; cbn in *; congruence).
Qed.

(** ** Role monitor *)

Lemma bind_outcome {A B : Type} (m : M World A) (k : A -> M World B)
    (s : State World) :
  bind m k s =
  mk_outcome (value (k (value (m s)) (final (m s))))
    (final (k (value (m s)) (final (m s))))
    (events (m s) ++ events (k (value (m s)) (final (m s)))).
Proof.
  unfold bind. destruct (m s) as [a s1 e1]. cbn [value final events].
  destruct (k a s1) as [b s2 e2]. reflexivity.
Qed.

(** [reset_node_voting_status] sets [failover_state] to NONE whatever the
    connection; it calls [reset_voting_status] when, and only when, the
    local connection is CONNECTION_OK, and otherwise leaves the database
    alone. *)
Lemma reset_node_voting_status_spec (s : State World) :
  let lc := local_conn (globals s) in
  let st := value (PQstatus env lc s) in
  let o := reset_node_voting_status env s in
  globals (final o) = set_failover_state FAILOVER_STATE_NONE (globals s)
  /\ failover_state (globals (final o)) = FAILOVER_STATE_NONE
  /\ events o =
       EvPQstatus lc st :: (if conn_ok st then [EvResetVotingStatus lc] else [])
  /\ world (final o) =
       (if conn_ok st then ext_reset_voting_status env lc (world s) else world s).
Proof.
  cbv zeta. unfold reset_node_voting_status.
  unfold bind, modify, get_globals, PQstatus, reset_voting_status, call_, ret.
  cbn.
  match goal with |- context [conn_ok ?x] => destruct (conn_ok x) end; cbn;
    repeat split; reflexivity.
Qed.

(** The reset of a turn, in the terms of [turn_start] and
    [turn_reset_events]. *)
Lemma reset_node_voting_status_turn (s : State World) :
  reset_node_voting_status env s
  = mk_outcome tt (turn_start env s) (turn_reset_events env s).
Proof.
  unfold reset_node_voting_status, turn_start, turn_reset_events.
  unfold bind, modify, get_globals, PQstatus, reset_voting_status, call_, ret.
  cbn.
  match goal with |- context [conn_ok ?x] => destruct (conn_ok x) end;
    reflexivity.
Qed.

(** C10.  Every turn of the outer loop of [start_monitoring] resets before
    it dispatches on the role: whatever the fuel and the state, the run of
    [start_monitoring] is a sequence of turns ([monitoring_turns]), each
    of which reads the status of the local connection, calls
    [reset_voting_status] if that status is CONNECTION_OK and makes no
    call otherwise, so that the database is as it was, and then dispatches
    on the role from a state whose [failover_state] is NONE and whose
    other variables are those the turn began with. *)
Theorem start_monitoring_resets_every_turn (fuel : nat) (s : State World) :
  monitoring_turns env fuel s (start_monitoring env fuel s)
  /\ failover_state (globals (turn_start env s)) = FAILOVER_STATE_NONE
  /\ globals (turn_start env s)
     = set_failover_state FAILOVER_STATE_NONE (globals s)
  /\ existsb is_reset_voting_status (turn_reset_events env s)
     = conn_ok (value (PQstatus env (local_conn (globals s)) s))
  /\ (conn_ok (value (PQstatus env (local_conn (globals s)) s)) = false ->
      world (turn_start env s) = world s).
Proof.
  split.
  - revert s. induction fuel as [|n IH]; intros s.
    + cbn. constructor.
    + cbn [start_monitoring]. unfold start_monitoring_iteration.
      rewrite !bind_outcome. rewrite reset_node_voting_status_turn.
      cbn [value final events].
      destruct (value (role_dispatch env n (turn_start env s))) eqn:Hd.
      * cbn [ret value final events]. rewrite app_nil_r.
        apply turns_return. exact Hd.
      * rewrite <- app_assoc. apply turns_next; [exact Hd | apply IH].
      * cbn [ret value final events]. rewrite app_nil_r.
        apply turns_still_monitoring. exact Hd.
  - unfold turn_start, turn_reset_events. cbn.
    destruct (conn_ok _) eqn:Hok; cbn; repeat split; auto; discriminate.
Qed.

(** The tail of the standby loop does not write [failover_state]. *)
Lemma standby_loop_tail_failover_state (s : State World) :
  failover_state (globals (final (standby_loop_tail env s)))
  = failover_state (globals s).
Proof.
  unfold standby_loop_tail.
  unfold bind, get_globals, is_server_available, PQfinish, PQstatus,
    establish_db_connection, sleep, modify, call, call_, ret.
  cbn.
  destruct (fst (ext_is_server_available env _ (world s))); cbn.
  all: try (destruct (local_conn (globals s)); cbn).
  all: try match goal with |- context [conn_ok ?x] => destruct (conn_ok x) end;
       reflexivity.
Qed.

(** With [upstream_node_status] at DOWN a turn of the standby loop skips
    the whole failover block, whether or not the upstream answers. *)
Lemma standby_loop_body_down (s : State World) :
  let o := standby_loop_body env NODE_STATUS_DOWN s in
  value o = LoopNext NODE_STATUS_DOWN
  /\ failover_state (globals (final o)) = failover_state (globals s).
Proof.
  cbv zeta. unfold standby_loop_body.
  unfold bind at 1 2. unfold get_globals, is_server_available, call. cbn.
  match goal with |- context [negb ?x] => destruct x end; cbn.
  all: unfold bind, ret.
  all: match goal with
       | |- context [standby_loop_tail env ?s'] =>
           pose proof (standby_loop_tail_failover_state s') as H;
           destruct (standby_loop_tail env s') as [v f e]
       end.
  all: cbn in *; split; [reflexivity | exact H].
Qed.

Lemma standby_loop_down (fuel : nat) (s : State World) :
  let o := standby_loop env fuel NODE_STATUS_DOWN s in
  value o = None
  /\ failover_state (globals (final o)) = failover_state (globals s).
Proof.
  revert s. induction fuel as [|n IH]; intros s.
  - cbn. auto.
  - cbn [standby_loop]. unfold bind.
    pose proof (standby_loop_body_down s) as H. cbv zeta in H.
    destruct (standby_loop_body env NODE_STATUS_DOWN s) as [v f e].
    cbn in H. destruct H as [-> Hf].
    specialize (IH f). cbv zeta in IH.
    destruct (standby_loop env n NODE_STATUS_DOWN f) as [v' f' e'].
    cbn in *. destruct IH as [-> Hf']. split; [reflexivity | congruence].
Qed.

(** Once the [switch] is left without a [return], the monitor never
    returns and never writes [failover_state] again. *)
Lemma resume_after_break_never_returns (fuel : nat) (s : State World) :
  let o := resume_after_break env fuel s in
  value o = None
  /\ failover_state (globals (final o)) = failover_state (globals s).
Proof.
  cbv zeta. unfold resume_after_break, bind.
  pose proof (standby_loop_tail_failover_state s) as H.
  destruct (standby_loop_tail env s) as [v f e].
  pose proof (standby_loop_down fuel f) as H'. cbv zeta in H'.
  destruct (standby_loop env fuel NODE_STATUS_DOWN f) as [v' f' e'].
  cbn in *. destruct H' as [-> Hf']. split; [reflexivity | congruence].
Qed.

(** C9.  For NODE_NOTIFICATION_ERROR and FOLLOW_FAIL the [switch] has no
    case: the dispatch falls through with the state untouched, so
    [failover_state] is not reset; the loop resumes, and for as long as it
    runs the monitor neither returns nor changes [failover_state]. *)
Theorem failover_dispatch_unhandled (s : State World) :
  failover_state (globals s) = FAILOVER_STATE_NODE_NOTIFICATION_ERROR
  \/ failover_state (globals s) = FAILOVER_STATE_FOLLOW_FAIL ->
  failover_dispatch env s = mk_outcome SwitchBreak s []
  /\ forall fuel,
       let o := resume_after_break env fuel s in
       value o = None
       /\ failover_state (globals (final o)) = failover_state (globals s).
Proof.
  intros H. split.
  - unfold failover_dispatch, bind, get_globals. cbn.
    destruct H as [-> | ->]; reflexivity.
  - intros fuel. apply resume_after_break_never_returns.
Qed.

(** The turn that runs the failover block returns out of the monitor
    exactly when the dispatch, run on the state the block leaves, says
    so. *)
Lemma upstream_down_turn_follows_dispatch (s : State World) :
  let s1 := final (failover_decide env s) in
  value (upstream_down_turn env s) =
  match value (failover_dispatch env s1) with
  | SwitchReturn => LoopReturn
  | SwitchBreak => LoopNext NODE_STATUS_DOWN
  end.
Proof.
  cbv zeta. unfold upstream_down_turn.
  rewrite bind_outcome. cbn [value]. rewrite bind_outcome. cbn [value].
  destruct (value (failover_dispatch env (final (failover_decide env s)))).
  - reflexivity.
  - rewrite bind_outcome. reflexivity.
Qed.

End DaemonProperties.

(** ** The daemon on the scripted cluster *)

(** C4 (defect in the code).  The claim: having claimed candidacy and then
    found another candidate, [do_election] calls [reset_voting_status]
    before it returns NOT_CANDIDATE.  Node 2 claims candidacy and node 3
    turns its announcement down: the election returns NOT_CANDIDATE and
    its last call is that announcement; [reset_voting_status] is not
    called. *)
Theorem do_election_withdraws_without_reset :
  value election_rival_run = ELECTION_NOT_CANDIDATE
  /\ events election_rival_run =
       [EvRand 1234; EvUsleep 440000;
        EvGetVotingStatus (Some 10%nat) VS_NO_VOTE;
        EvSetVotingStatusInitiated (Some 10%nat) 7;
        EvGetActiveSiblingNodeRecords (Some 10%nat) 2 1 1;
        EvEstablishDbConnection "host=node3" false (Some 13%nat);
        EvPQstatus (Some 13%nat) CONNECTION_OK;
        EvAnnounceCandidature (Some 13%nat) 3 7 false]
  /\ existsb is_set_voting_status_initiated (events election_rival_run) = true
  /\ announce_rejected (events election_rival_run) = true
  /\ existsb is_reset_voting_status (events election_rival_run) = false.
Proof. vm_compute. repeat split; reflexivity. Qed.

(** C5 (defect in the code).  The claim: when the promote command exits
    non-zero, [promote_self] returns PRIMARY_REAPPEARED and records
    [repmgrd_failover_abort] if and only if [get_primary_connection] gives
    a CONNECTION_OK connection to the failed upstream.  On node 2 the
    promote command exits with 1 because node 1, its upstream, is back as
    primary; the local connection is fine and [get_primary_connection]
    gives a CONNECTION_OK connection to node 1.  But the fetch of node 1's
    record at the start of [promote_self] had failed, and its status is
    not looked at - the source says "XXX check success" - so the id found
    is compared with that of the record the fetch left untouched:
    [promote_self] returns PROMOTION_FAILED and records no abort.  With
    the record readable the same run gives PRIMARY_REAPPEARED. *)
Theorem promote_self_misses_reappeared_primary :
  node_id (upstream_node_info (globals (state2 FAILOVER_STATE_NONE))) = 1
  /\ upstream_node_id (local_node_info (globals (state2 FAILOVER_STATE_NONE))) = 1
  /\ events promote_record_unreadable_run
     = [EvGetNodeRecord (Some 10%nat) 1 RECORD_NOT_FOUND
          (ext_node_info_initializer (scripted sc_record_unreadable));
        EvSystem "repmgr standby promote" 1;
        EvPQstatus (Some 10%nat) CONNECTION_OK;
        EvGetPrimaryConnection (Some 10%nat) (Some 11%nat) 1;
        EvPQstatus (Some 11%nat) CONNECTION_OK]
  /\ upstream_primary_found 1 (events promote_record_unreadable_run) = true
  /\ value promote_record_unreadable_run = FAILOVER_STATE_PROMOTION_FAILED
  /\ abort_recorded (events promote_record_unreadable_run) = false
  /\ ~ promote_failure_claim 1 promote_record_unreadable_run
  /\ upstream_primary_found 1 (events promote_reappeared_run) = true
  /\ value promote_reappeared_run = FAILOVER_STATE_PRIMARY_REAPPEARED
  /\ promote_failure_claim 1 promote_reappeared_run.
Proof.
  assert (Hrun : promote_record_unreadable_run
                 = mk_outcome FAILOVER_STATE_PROMOTION_FAILED
                     (mk_state 1%nat
                        (set_primary_conn (Some 11%nat)
                           (globals2 FAILOVER_STATE_NONE)))
                     [EvGetNodeRecord (Some 10%nat) 1 RECORD_NOT_FOUND
                        (ext_node_info_initializer (scripted sc_record_unreadable));
                      EvSystem "repmgr standby promote" 1;
                      EvPQstatus (Some 10%nat) CONNECTION_OK;
                      EvGetPrimaryConnection (Some 10%nat) (Some 11%nat) 1;
                      EvPQstatus (Some 11%nat) CONNECTION_OK])
    by (vm_compute; reflexivity).
  rewrite Hrun. cbn [value events].
  split; [reflexivity|]. split; [reflexivity|]. split; [reflexivity|].
  split; [reflexivity|]. split; [reflexivity|]. split; [reflexivity|].
  split.
  { intros Hclaim. specialize (Hclaim 1 eq_refl ltac:(discriminate)).
    cbn in Hclaim. destruct Hclaim as [Hv _]. discriminate Hv. }
  split; [vm_compute; reflexivity|]. split; [vm_compute; reflexivity|].
  intros r Hr Hne.
  replace (upstream_primary_found 1 (events promote_reappeared_run)) with true
    by (vm_compute; reflexivity).
  split; vm_compute; reflexivity.
Qed.

(** C2 (defect in the code).  The claim: when the dispatch observes
    PROMOTION_FAILED, FOLLOW_FAIL or NO_NEW_PRIMARY the standby monitor
    returns to the role monitor, which runs another election.  Node 2 has
    no sibling, wins the election, and its promote command fails with no
    primary in sight: the dispatch observes PROMOTION_FAILED and takes the
    [break] of that case.  The monitor is still looping after twenty
    turns, with [failover_state] still PROMOTION_FAILED; in all that time
    it has run one election and one command, those of the first turn. *)
Theorem promotion_failed_monitor_keeps_looping :
  failover_state (globals state_promotion_failed) = FAILOVER_STATE_PROMOTION_FAILED
  /\ value (failover_dispatch (scripted sc_promote_fails) state_promotion_failed)
     = SwitchBreak
  /\ ~ dispatch_returns_claim (scripted sc_promote_fails) state_promotion_failed
  /\ value (monitor_streaming_standby (scripted sc_promote_fails) 20
              (state2 FAILOVER_STATE_NONE)) = None
  /\ failover_state
       (globals (final (monitor_streaming_standby (scripted sc_promote_fails) 20
                          (state2 FAILOVER_STATE_NONE))))
     = FAILOVER_STATE_PROMOTION_FAILED
  /\ List.length
       (filter is_rand
          (events (monitor_streaming_standby (scripted sc_promote_fails) 20
                     (state2 FAILOVER_STATE_NONE)))) = 1%nat
  /\ commands_run
       (events (monitor_streaming_standby (scripted sc_promote_fails) 20
                  (state2 FAILOVER_STATE_NONE)))
     = ["repmgr standby promote"%string]
  /\ slept
       (events (monitor_streaming_standby (scripted sc_promote_fails) 20
                  (state2 FAILOVER_STATE_NONE))) = 25.
Proof.
  assert (Hfs : failover_state (globals state_promotion_failed)
                = FAILOVER_STATE_PROMOTION_FAILED) by (vm_compute; reflexivity).
  assert (Hd : value (failover_dispatch (scripted sc_promote_fails)
                  state_promotion_failed) = SwitchBreak)
    by (vm_compute; reflexivity).
  split; [exact Hfs | split; [exact Hd | split]].
  - intros Hclaim. unfold dispatch_returns_claim in Hclaim.
    rewrite Hd in Hclaim. specialize (Hclaim (or_introl Hfs)). discriminate.
  - repeat split; vm_compute; reflexivity.
Qed.

(** After a vote request from another node and sixty seconds without
    notification, the dispatch observes NO_NEW_PRIMARY and the monitor
    returns within its first turn. *)
Lemma no_new_primary_monitor_returns :
  failover_state (globals state_no_new_primary) = FAILOVER_STATE_NO_NEW_PRIMARY
  /\ value (monitor_streaming_standby (scripted sc_no_new_primary) 1
              (state2 FAILOVER_STATE_NONE)) = Some tt.
Proof. split; vm_compute; reflexivity. Qed.

(** The best candidate cannot be reached, or the new primary cannot be
    followed: the monitor is still looping after twenty turns, with
    [failover_state] as the failover block left it. *)
Lemma unhandled_states_monitor_keeps_looping :
  failover_state (globals state_candidate_unreachable)
  = FAILOVER_STATE_NODE_NOTIFICATION_ERROR
  /\ value (monitor_streaming_standby (scripted sc_candidate_unreachable) 20
              (state2 FAILOVER_STATE_NONE)) = None
  /\ failover_state (globals state_follow_fail) = FAILOVER_STATE_FOLLOW_FAIL
  /\ value (monitor_streaming_standby (scripted sc_follow_fail) 20
              (state2 FAILOVER_STATE_NONE)) = None.
Proof. repeat split; vm_compute; reflexivity. Qed.

(** *** The general results at work on the scripted cluster *)

Lemma do_election_tally_witness :
  local_lsn_read (events election_won_run) = Some 500
  /\ votes_are_ballots (events election_won_run) = true
  /\ announce_successes (events election_won_run) < INT_MAX
  /\ ((value election_won_run = ELECTION_WON <->
       votes_for_me_of 500 (events election_won_run)
       = visible_nodes_of (events election_won_run))
      /\ (value election_won_run <> ELECTION_WON ->
          value election_won_run = ELECTION_LOST)
      /\ (self_vote_of 500 (events election_won_run) = 1 <->
          sibling_ahead 500 (events election_won_run) = false)
      /\ vote_requests (events election_won_run)
         = announce_successes (events election_won_run)
      /\ 0 <= votes_for_me_of 500 (events election_won_run)
      /\ votes_for_me_of 500 (events election_won_run)
         <= visible_nodes_of (events election_won_run)
      /\ visible_nodes_of (events election_won_run) <= INT_MAX).
Proof.
  split; [reflexivity |]. split; [reflexivity |]. split; [reflexivity |].
  apply (do_election_tally (scripted sc_election_won)
           (state2 FAILOVER_STATE_NONE) 500); reflexivity.
Defined.

Lemma do_election_jitter_witness :
  0 <= 1234
  /\ (100000 <= rand_wait 1234 <= 600000
      /\ exists rest,
           events election_won_run
           = EvRand 1234 :: EvUsleep (rand_wait 1234) :: rest).
Proof.
  split; [lia |].
  apply (do_election_jitter (scripted sc_election_won)
           (state2 FAILOVER_STATE_NONE)).
  cbn. lia.
Defined.

Lemma do_election_no_siblings_witness :
  siblings_found (events election_alone_run) = Some 0
  /\ (value election_alone_run = ELECTION_WON
      /\ existsb is_peer_contact (events election_alone_run) = false
      /\ exists c vs term node upstream,
           events election_alone_run
           = election_prologue 1234 c vs term node upstream 0).
Proof.
  split; [reflexivity |].
  apply (do_election_no_siblings (scripted sc_no_siblings)
           (state2 FAILOVER_STATE_NONE)).
  reflexivity.
Defined.

Lemma promote_self_command_failed_witness :
  command_exit (events promote_reappeared_run) = Some 1
  /\ 1 <> 0
  /\ local_reconnect_failed (events promote_reappeared_run) = false
  /\ original_primary_found (events promote_reappeared_run) = true
  /\ value promote_reappeared_run = FAILOVER_STATE_PRIMARY_REAPPEARED
  /\ abort_recorded (events promote_reappeared_run) = true.
Proof.
  assert (Hexit : command_exit (events promote_reappeared_run) = Some 1)
    by reflexivity.
  assert (Hne : 1 <> 0) by discriminate.
  pose proof (promote_self_command_failed (scripted sc_primary_reappeared)
                (state2 FAILOVER_STATE_NONE) 1 Hexit Hne) as H.
  assert (Hlost : local_reconnect_failed (events promote_reappeared_run) = false)
    by reflexivity.
  assert (Hfound : original_primary_found (events promote_reappeared_run) = true)
    by reflexivity.
  cbv zeta in H. fold promote_reappeared_run in H.
  rewrite Hlost, Hfound in H.
  repeat split; try assumption; apply H.
Defined.

Lemma failover_dispatch_unhandled_witness :
  failover_state (globals state_follow_fail) = FAILOVER_STATE_FOLLOW_FAIL
  /\ (failover_dispatch (scripted sc_follow_fail) state_follow_fail
      = mk_outcome SwitchBreak state_follow_fail []
      /\ forall fuel,
           value (resume_after_break (scripted sc_follow_fail) fuel
                    state_follow_fail) = None
           /\ failover_state
                (globals (final (resume_after_break (scripted sc_follow_fail)
                                   fuel state_follow_fail)))
              = failover_state (globals state_follow_fail)).
Proof.
  assert (Hfs : failover_state (globals state_follow_fail)
                = FAILOVER_STATE_FOLLOW_FAIL) by (vm_compute; reflexivity).
  split; [exact Hfs |].
  apply (failover_dispatch_unhandled (scripted sc_follow_fail) state_follow_fail).
  right. exact Hfs.
Defined.

(** * More of the daemon *)

(** ** More on the best-candidate poll *)

Lemma poll_fold_equal_lsn (cells : NodeInfoList) (best : t_node_info) :
  Forall (fun c => last_wal_receive_lsn c = last_wal_receive_lsn best) cells ->
  let b := fold_left poll_step cells best in
  last_wal_receive_lsn b = last_wal_receive_lsn best
  /\ priority best <= priority b
  /\ Forall (fun c => priority c <= priority b) cells.
Proof.
  revert best. induction cells as [|cell rest IH]; intros best Hall.
  - cbn. repeat split; auto; lia.
  - inversion Hall as [|? ? Hcell Hrest]; subst.
    cbn [fold_left].
    assert (Hstep : last_wal_receive_lsn (poll_step best cell)
                    = last_wal_receive_lsn best
                    /\ priority best <= priority (poll_step best cell)
                    /\ priority cell <= priority (poll_step best cell)).
    { unfold poll_step. rewrite Hcell.
      destruct (Z.gtb_spec (last_wal_receive_lsn best) (last_wal_receive_lsn best));
        [lia|].
      rewrite Z.eqb_refl.
      destruct (Z.gtb_spec (priority cell) (priority best)); repeat split; lia. }
    destruct Hstep as (S1 & S2 & S3).
    assert (Hrest' : Forall (fun c => last_wal_receive_lsn c
                             = last_wal_receive_lsn (poll_step best cell)) rest).
    { rewrite S1. exact Hrest. }
    destruct (IH _ Hrest') as (I1 & I2 & I3).
    cbv zeta. repeat split.
    + congruence.
    + lia.
    + constructor; [lia | exact I3].
Qed.

(** X1: When every sibling is at the local node's LSN,
    [poll_best_candidate] returns a node of the poll - the local node or a
    sibling - that has the highest priority of them all. *)
Theorem poll_equal_lsn_prefers_priority (local : t_node_info)
    (siblings : NodeInfoList) :
  Forall (fun c => last_wal_receive_lsn c = last_wal_receive_lsn local) siblings ->
  let b := poll_best_candidate local siblings in
  In b (local :: siblings)
  /\ Forall (fun c => priority c <= priority b) (local :: siblings).
Proof.
  intros Hall. cbv zeta. split.
  - apply poll_best_candidate_in.
  - destruct (poll_fold_equal_lsn siblings local Hall) as (_ & H2 & H3).
    constructor; assumption.
Qed.

(** X2: When every sibling is at the local node's LSN and none has a
    higher priority, [poll_best_candidate] returns the local node, whatever
    the node ids: the poll never falls back on the node id to break a tie
    of LSN and priority. *)
Theorem poll_tie_returns_local (local : t_node_info) (siblings : NodeInfoList) :
  Forall (fun c => last_wal_receive_lsn c = last_wal_receive_lsn local
                   /\ priority c <= priority local) siblings ->
  poll_best_candidate local siblings = local.
Proof.
  unfold poll_best_candidate.
  induction siblings as [|cell rest IH]; intros Hall; [reflexivity|].
  inversion Hall as [|? ? [Hlsn Hprio] Hrest]; subst.
  cbn [fold_left].
  replace (poll_step local cell) with local; [exact (IH Hrest)|].
  unfold poll_step. rewrite Hlsn.
  destruct (Z.gtb_spec (last_wal_receive_lsn local) (last_wal_receive_lsn local));
    [lia|].
  rewrite Z.eqb_refl.
  destruct (Z.gtb_spec (priority cell) (priority local)); [lia | reflexivity].
Qed.

Section CoverageProperties.

Context {World : Type} (env : Collaborators World).

Lemma PGconn_eqb_refl (c : PGconn) : PGconn_eqb c c = true.
Proof. destruct c as [h|]; cbn; [apply Nat.eqb_refl | reflexivity]. Qed.

(** *** Waiting for the new primary *)

Lemma wait_primary_polls_spec (n : nat) (s : State World) :
  let o := wait_primary_polls env n s in
  (polls (events o) <= n)%nat
  /\ globals (final o) = globals s
  /\ first_notification (events o) = value o
  /\ match value o with
     | Some _ => slept (events o) = Z.of_nat (polls (events o)) - 1
     | None => polls (events o) = n /\ slept (events o) = Z.of_nat n
     end.
Proof.
  revert s. induction n as [|n IH]; intros s.
  - cbn. auto.
  - cbn [wait_primary_polls].
    unfold bind, get_globals, get_new_primary, sleep, call, call_, ret. cbn.
    match goal with |- context [if fst (fst ?x) then _ else _] =>
      destruct (fst (fst x)) eqn:Hfound end; cbn.
    + repeat split; try lia.
    + match goal with
      | |- context [wait_primary_polls env n ?s'] =>
          specialize (IH s'); cbv zeta in IH;
          set (o := wait_primary_polls env n s') in *; clearbody o;
          destruct o as [v f e]; cbn in IH |- *
      end.
      destruct IH as (I1 & I2 & I3 & I4).
      repeat split; try lia; try assumption.
      destruct v; lia.
Qed.

(** X3: [wait_primary_notification] polls [get_new_primary] at most 60
    times and leaves the daemon's variables alone.  It returns the node id
    of the first successful poll, having slept one second after each poll
    before it; if no poll succeeds it returns nothing after exactly 60
    polls and 60 seconds of sleep. *)
Theorem wait_primary_notification_bounded (s : State World) :
  let o := wait_primary_notification env s in
  (polls (events o) <= 60)%nat
  /\ globals (final o) = globals s
  /\ first_notification (events o) = value o
  /\ match value o with
     | Some _ => slept (events o) = Z.of_nat (polls (events o)) - 1
     | None => polls (events o) = 60%nat /\ slept (events o) = 60
     end.
Proof.
  apply (wait_primary_polls_spec wait_primary_timeout s).
Qed.

(** *** Notifying the followers *)

Lemma notify_followers_loop_spec (cells : NodeInfoList) (id : Z) (s : State World) :
  let o := notify_followers_loop env cells id s in
  Forall (eq id) (notify_targets (events o))
  /\ (forall prev, notified_after_ok prev (events o) = true)
  /\ (List.length (notify_targets (events o)) + failed_connects (events o)
      = List.length cells)%nat
  /\ map node_id (value o) = map node_id cells
  /\ globals (final o) = globals s.
Proof.
  revert s. induction cells as [|cell rest IH]; intros s.
  - cbn. repeat split; auto.
  - cbn [notify_followers_loop].
    unfold bind, PQstatus, establish_db_connection, notify_follow_primary,
      call, call_, ret.
    cbn.
    match goal with |- context [conn_ok ?x] => destruct x eqn:Hst end;
      cbn [conn_ok negb]; cbn.
    + rewrite Hst. cbn.
      match goal with
      | |- context [notify_followers_loop env rest id ?s'] =>
          specialize (IH s'); cbv zeta in IH;
          set (o := notify_followers_loop env rest id s') in *; clearbody o;
          destruct o as [v f e]; cbn in IH |- *
      end.
      destruct IH as (I1 & I2 & I3 & I4 & I5). rewrite ?app_nil_r.
      rewrite PGconn_eqb_refl. cbn.
      repeat split; auto; try congruence; try lia.
    + match goal with |- context [conn_ok ?x] => destruct x eqn:Hst1 end;
        cbn [conn_ok negb]; cbn.
      all: match goal with
        | |- context [notify_followers_loop env ?r ?i ?s'] =>
            specialize (IH s'); cbv zeta in IH;
            set (o := notify_followers_loop env r i s') in *; clearbody o;
            destruct o as [v f e]; cbn in IH |- *
        end.
      all: destruct IH as (I1 & I2 & I3 & I4 & I5); rewrite ?app_nil_r.
      all: rewrite ?PGconn_eqb_refl; cbn.
      all: repeat split; auto; try congruence; try lia.
Qed.

Lemma notify_followers_spec (id : Z) (s : State World) :
  let o := notify_followers env id s in
  Forall (eq id) (notify_targets (events o))
  /\ notified_after_ok None (events o) = true
  /\ (List.length (notify_targets (events o)) + failed_connects (events o)
      = List.length (standby_nodes (globals s)))%nat
  /\ map node_id (standby_nodes (globals (final o)))
     = map node_id (standby_nodes (globals s))
  /\ globals (final o)
     = set_standby_nodes (standby_nodes (globals (final o))) (globals s).
Proof.
  cbv zeta. unfold notify_followers, bind, get_globals, modify. cbn.
  pose proof (notify_followers_loop_spec (standby_nodes (globals s)) id s) as H.
  cbv zeta in H.
  destruct (notify_followers_loop env (standby_nodes (globals s)) id s)
    as [v f e].
  cbn in H |- *. destruct H as (H1 & H2 & H3 & H4 & H5).
  rewrite ?app_nil_r. rewrite H5. repeat split; auto.
Qed.

(** X4: [notify_followers] only ever names the node it was given, and
    sends each notification through a connection whose status it has just
    read as CONNECTION_OK.  Every cell of the sibling list is either
    notified or counted as a failed connection, the list keeps its nodes,
    and the failover state is not touched. *)
Theorem notify_followers_reaches_ok_connections (id : Z) (s : State World) :
  let o := notify_followers env id s in
  Forall (eq id) (notify_targets (events o))
  /\ notified_after_ok None (events o) = true
  /\ (List.length (notify_targets (events o)) + failed_connects (events o)
      = List.length (standby_nodes (globals s)))%nat
  /\ map node_id (standby_nodes (globals (final o)))
     = map node_id (standby_nodes (globals s))
  /\ failover_state (globals (final o)) = failover_state (globals s).
Proof.
  cbv zeta.
  destruct (notify_followers_spec id s) as (H1 & H2 & H3 & H4 & H5).
  repeat split; auto. rewrite H5. reflexivity.
Qed.

(** *** Following the new primary *)

Ltac split_cond :=
  first
    [ match goal with
      | |- context [conn_ok ?x] =>
          let H := fresh "Hst" in destruct x eqn:H; cbn [conn_ok negb andb]
      end
    | match goal with
      | |- context [if negb (?a =? ?b) then _ else _] => destruct (Z.eqb_spec a b)
      | |- context [if ?a =? ?b then _ else _] => destruct (Z.eqb_spec a b)
      end
    | match goal with
      | |- context [match fst ?x with
                    | RECTYPE_UNKNOWN => _
                    | RECTYPE_PRIMARY => _
                    | RECTYPE_STANDBY => _
                    end] =>
          let H := fresh "Hrt" in destruct (fst x) eqn:H
      end ].

(** X5: [follow_new_primary] runs no command unless a connection it read
    as CONNECTION_OK has reported itself a primary; the only command it can
    run is the configured follow command, once; and if it runs none it
    returns FOLLOW_FAIL. *)
Theorem follow_new_primary_command_gated (id : Z) (s : State World) :
  let o := follow_new_primary env id s in
  command_after_confirmation false (events o) = true
  /\ (commands_run (events o) = []
      \/ commands_run (events o) = [follow_command (config_file_options (globals s))])
  /\ (commands_run (events o) = [] -> value o = FAILOVER_STATE_FOLLOW_FAIL).
Proof.
  cbv zeta. unfold follow_new_primary.
  unfold bind, get_globals, get_node_record, PQfinish, PQstatus, system,
    establish_db_connection, get_recovery_type, create_event_record,
    modify, call, call_, ret.
  cbn.
  repeat (split_cond; cbn).
  all: repeat split; auto; try discriminate.
Qed.

(** X6: [follow_new_primary] returns FOLLOWED_NEW_PRIMARY, FOLLOW_FAIL or
    PRIMARY_REAPPEARED; FOLLOWED_NEW_PRIMARY exactly when the follow
    command exited with 0, and exactly then a "repmgrd_failover_follow"
    event is recorded.  It always closes the local connection, and unless
    it returns FOLLOWED_NEW_PRIMARY it leaves [local_conn] null. *)
Theorem follow_new_primary_outcomes (id : Z) (s : State World) :
  let o := follow_new_primary env id s in
  (value o = FAILOVER_STATE_FOLLOWED_NEW_PRIMARY
   \/ value o = FAILOVER_STATE_FOLLOW_FAIL
   \/ value o = FAILOVER_STATE_PRIMARY_REAPPEARED)
  /\ (value o = FAILOVER_STATE_FOLLOWED_NEW_PRIMARY <->
      command_exit (events o) = Some 0)
  /\ existsb (is_event_record "repmgrd_failover_follow") (events o)
     = FailoverState_eqb (value o) FAILOVER_STATE_FOLLOWED_NEW_PRIMARY
  /\ In (EvPQfinish (local_conn (globals s))) (events o)
  /\ (value o <> FAILOVER_STATE_FOLLOWED_NEW_PRIMARY ->
      local_conn (globals (final o)) = None).
Proof.
  cbv zeta. unfold follow_new_primary.
  unfold bind, get_globals, get_node_record, PQfinish, PQstatus, system,
    establish_db_connection, get_recovery_type, create_event_record,
    modify, call, call_, ret.
  cbn.
  repeat (split_cond; cbn).
  all: repeat split; auto 6; try discriminate; try congruence.
  all: try (intros H; injection H as H; congruence).
Qed.

(** *** Promotion *)

Lemma promote_self_range (s : State World) :
  let v := value (promote_self env s) in
  v = FAILOVER_STATE_PROMOTED
  \/ v = FAILOVER_STATE_PROMOTION_FAILED
  \/ v = FAILOVER_STATE_PRIMARY_REAPPEARED
  \/ v = FAILOVER_STATE_LOCAL_NODE_FAILURE.
Proof.
  cbv zeta. unfold promote_self.
  unfold bind, get_globals, sleep, get_node_record, system, PQstatus,
    establish_db_connection, get_primary_connection, create_event_record,
    modify, call, call_, ret.
  cbn.
  destruct (promote_delay (config_file_options (globals s)) >? 0); cbn.
  all: repeat (split_cond; cbn).
  all: auto.
Qed.

(** X7: [promote_self] returns PROMOTED exactly when the promote command
    exited with 0 and the local node could be reached again afterwards, and
    exactly then a "repmgrd_failover_promote" event is recorded; a
    promotion that succeeded looks for no other primary and records no
    abort. *)
Theorem promote_self_promoted (s : State World) :
  let o := promote_self env s in
  (value o = FAILOVER_STATE_PROMOTED <->
   command_exit (events o) = Some 0 /\ local_reconnect_failed (events o) = false)
  /\ existsb (is_event_record "repmgrd_failover_promote") (events o)
     = FailoverState_eqb (value o) FAILOVER_STATE_PROMOTED
  /\ (value o = FAILOVER_STATE_PROMOTED ->
      discovered_primary (events o) = None
      /\ abort_recorded (events o) = false).
Proof.
  cbv zeta. unfold promote_self.
  unfold bind, get_globals, sleep, get_node_record, system, PQstatus,
    establish_db_connection, get_primary_connection, create_event_record,
    modify, call, call_, ret.
  cbn.
  destruct (promote_delay (config_file_options (globals s)) >? 0); cbn.
  all: repeat (split_cond; cbn).
  all: repeat split; auto; try discriminate; try congruence.
  all: try (intros [H _]; injection H as H; congruence).
  all: try (intros [_ H]; discriminate H).
Qed.

(** X8: [promote_self] runs exactly one command: the service promote
    command if one is configured, the promote command otherwise; and
    before it sleeps for the promote delay if that is positive, not at all
    otherwise. *)
Theorem promote_self_runs_one_command (s : State World) :
  let o := promote_self env s in
  let cfg := config_file_options (globals s) in
  commands_run (events o) =
    [match service_promote_command cfg with
     | EmptyString => promote_command cfg
     | _ => service_promote_command cfg
     end]
  /\ slept (events o) = Z.max 0 (promote_delay cfg).
Proof.
  cbv zeta. unfold promote_self.
  unfold bind, get_globals, sleep, get_node_record, system, PQstatus,
    establish_db_connection, get_primary_connection, create_event_record,
    modify, call, call_, ret.
  cbn.
  destruct (Z.gtb_spec (promote_delay (config_file_options (globals s))) 0); cbn.
  all: repeat (split_cond; cbn).
  all: split; [reflexivity | lia].
Qed.

(** *** The failover block *)

Lemma holds_after_bind {A B : Type} (m : M World A) (k : A -> M World B)
    (Q : B -> State World -> Prop) (s : State World) :
  holds_after m (fun a s1 => holds_after (k a) Q s1) s ->
  holds_after (bind m k) Q s.
Proof.
  unfold holds_after. rewrite bind_outcome. cbn [value final]. auto.
Qed.

Lemma holds_after_any {A : Type} (m : M World A)
    (Q : A -> State World -> Prop) (s : State World) :
  (forall a s1, Q a s1) -> holds_after m Q s.
Proof. unfold holds_after. auto. Qed.

Lemma follow_new_primary_range (id : Z) (s : State World) :
  let v := value (follow_new_primary env id s) in
  v = FAILOVER_STATE_FOLLOWED_NEW_PRIMARY
  \/ v = FAILOVER_STATE_FOLLOW_FAIL
  \/ v = FAILOVER_STATE_PRIMARY_REAPPEARED.
Proof.
  cbv zeta. unfold follow_new_primary.
  unfold bind, get_globals, get_node_record, PQfinish, PQstatus, system,
    establish_db_connection, get_recovery_type, create_event_record,
    modify, call, call_, ret.
  cbn.
  repeat (split_cond; cbn).
  all: auto.
Qed.

Lemma promote_self_then {B : Type} (k : FailoverState -> M World B)
    (Q : B -> State World -> Prop) (s : State World) :
  (forall fs s1,
      fs = FAILOVER_STATE_PROMOTED
      \/ fs = FAILOVER_STATE_PROMOTION_FAILED
      \/ fs = FAILOVER_STATE_PRIMARY_REAPPEARED
      \/ fs = FAILOVER_STATE_LOCAL_NODE_FAILURE ->
      holds_after (k fs) Q s1) ->
  holds_after (bind (promote_self env) k) Q s.
Proof.
  intros HQ. apply holds_after_bind. unfold holds_after at 1.
  apply HQ. apply promote_self_range.
Qed.

Lemma follow_new_primary_then {B : Type} (id : Z)
    (k : FailoverState -> M World B)
    (Q : B -> State World -> Prop) (s : State World) :
  (forall fs s1,
      fs = FAILOVER_STATE_FOLLOWED_NEW_PRIMARY
      \/ fs = FAILOVER_STATE_FOLLOW_FAIL
      \/ fs = FAILOVER_STATE_PRIMARY_REAPPEARED ->
      holds_after (k fs) Q s1) ->
  holds_after (bind (follow_new_primary env id) k) Q s.
Proof.
  intros HQ. apply holds_after_bind. unfold holds_after at 1.
  apply HQ. apply follow_new_primary_range.
Qed.

(** X9: After the failover block of the standby monitor - election,
    promotion or wait for the new primary - the failover state is never
    UNKNOWN, NONE or WAITING_NEW_PRIMARY: the [switch] that follows always
    finds a state the block has decided. *)
Theorem failover_decide_decided (s : State World) :
  decided (failover_state (globals (final (failover_decide env s)))) = true.
Proof.
  change (holds_after (failover_decide env)
            (fun _ s1 => decided (failover_state (globals s1)) = true) s).
  unfold failover_decide.
  apply holds_after_bind. unfold holds_after at 1.
  generalize (final (do_election env s)) as s1.
  generalize (value (do_election env s)) as er. intros er s1.
  apply holds_after_bind. unfold holds_after at 1. cbn [modify value final].
  apply holds_after_bind.
  match goal with
  | |- holds_after _ (fun _ s2 => holds_after ?second ?Q s2) _ =>
      assert (Hsecond : forall s2,
                decided (failover_state (globals s2)) = true
                \/ failover_state (globals s2) = FAILOVER_STATE_WAITING_NEW_PRIMARY ->
                holds_after second Q s2)
  end.
  { intros s2 H2. apply holds_after_bind. unfold holds_after at 1.
    cbn [get_globals value final].
    destruct (FailoverState_eqb (failover_state (globals s2))
                FAILOVER_STATE_WAITING_NEW_PRIMARY) eqn:Hw.
    - apply holds_after_bind. unfold holds_after at 1.
      generalize (final (wait_primary_notification env s2)) as s3.
      generalize (value (wait_primary_notification env s2)) as n. intros n s3.
      destruct n as [new_primary_id|].
      + apply holds_after_bind. unfold holds_after at 1.
        cbn [get_globals value final].
        destruct (new_primary_id =? node_id (upstream_node_info (globals s3))).
        * reflexivity.
        * destruct (new_primary_id =? node_id (local_node_info (globals s3))).
          -- apply promote_self_then. intros fs s4 Hfs.
             unfold holds_after, bind, modify, clear_node_info_list, get_globals,
               get_active_sibling_node_records, call. cbn.
             destruct Hfs as [-> | [-> | [-> | ->]]]; reflexivity.
          -- apply follow_new_primary_then. intros fs s4 Hfs.
             unfold holds_after, modify. cbn.
             destruct Hfs as [-> | [-> | ->]]; reflexivity.
      + reflexivity.
    - unfold holds_after. cbn. destruct H2 as [H2 | H2]; [exact H2 |].
      rewrite H2 in Hw. discriminate Hw. }
  destruct er.
  - (* ELECTION_NOT_CANDIDATE *)
    unfold holds_after at 1. cbn. apply Hsecond. right. reflexivity.
  - (* ELECTION_WON *)
    apply promote_self_then. intros fs s2 Hfs.
    unfold holds_after at 1. cbn. apply Hsecond. left. cbn.
    destruct Hfs as [-> | [-> | [-> | ->]]]; reflexivity.
  - (* ELECTION_LOST *)
    apply holds_after_bind. unfold holds_after at 1. cbn [clear_node_info_list modify value final].
    apply holds_after_bind. unfold holds_after at 1. cbn [get_globals value final].
    apply holds_after_bind. unfold holds_after at 1.
    match goal with
    | |- context [get_active_sibling_node_records env ?c ?a ?b ?s'] =>
        generalize (final (get_active_sibling_node_records env c a b s')) as s2;
        generalize (value (get_active_sibling_node_records env c a b s')) as nodes
    end.
    intros nodes s2.
    apply holds_after_bind. unfold holds_after at 1. cbn [modify value final].
    apply holds_after_bind. unfold holds_after at 1. cbn [get_globals value final].
    match goal with |- context [if ?c then _ else _] => destruct c end.
    + apply promote_self_then. intros fs s3 Hfs.
      unfold holds_after at 1. cbn. apply Hsecond. left. cbn.
      destruct Hfs as [-> | [-> | [-> | ->]]]; reflexivity.
    + unfold holds_after at 1.
      unfold bind, establish_db_connection, PQstatus, notify_follow_primary,
        PQfinish, modify, call, call_. cbn.
      match goal with |- context [conn_ok ?x] => destruct (conn_ok x) end; cbn;
        apply Hsecond; cbn; auto.
Qed.

(** *** The switch on the failover state *)

(** X10: The [switch] on the failover state returns out of the standby
    monitor exactly for PROMOTED, PRIMARY_REAPPEARED, FOLLOWED_NEW_PRIMARY,
    FOLLOWING_ORIGINAL_PRIMARY, NO_NEW_PRIMARY and WAITING_NEW_PRIMARY.
    When it does not return it has done nothing at all; when it returns
    the failover state is back to NONE, except that NO_NEW_PRIMARY and
    WAITING_NEW_PRIMARY are kept. *)
Theorem failover_dispatch_returns_iff (s : State World) :
  let o := failover_dispatch env s in
  let fs := failover_state (globals s) in
  (value o = SwitchReturn <-> returns_to_role_monitor fs = true)
  /\ (value o = SwitchBreak -> final o = s /\ events o = [])
  /\ (value o = SwitchReturn ->
      failover_state (globals (final o)) =
      match fs with
      | FAILOVER_STATE_NO_NEW_PRIMARY
      | FAILOVER_STATE_WAITING_NEW_PRIMARY => fs
      | _ => FAILOVER_STATE_NONE
      end).
Proof.
  cbv zeta. unfold failover_dispatch.
  rewrite bind_outcome. cbn [get_globals value final events].
  destruct (failover_state (globals s)) eqn:Hfs; cbn [returns_to_role_monitor].
  all: try (cbn; rewrite ?Hfs; repeat split; intros; try discriminate;
            try reflexivity; destruct s; reflexivity).
  all: rewrite bind_outcome; cbn [value final events];
       unfold bind, clear_node_info_list, modify, ret; cbn;
       repeat split; intros; try discriminate; reflexivity.
Qed.

(** X11: In the states PROMOTED and PRIMARY_REAPPEARED the [switch]
    notifies the siblings before it returns: of the local node after a
    promotion, of the original upstream node if that reappeared.  Every
    sibling is notified through a CONNECTION_OK connection or counted as a
    failed connection; then the sibling list is emptied and the failover
    state reset to NONE. *)
Theorem failover_dispatch_notifies_followers (s : State World) :
  let fs := failover_state (globals s) in
  let target :=
    if FailoverState_eqb fs FAILOVER_STATE_PROMOTED
    then node_id (local_node_info (globals s))
    else node_id (upstream_node_info (globals s)) in
  fs = FAILOVER_STATE_PROMOTED \/ fs = FAILOVER_STATE_PRIMARY_REAPPEARED ->
  let o := failover_dispatch env s in
  value o = SwitchReturn
  /\ Forall (eq target) (notify_targets (events o))
  /\ notified_after_ok None (events o) = true
  /\ (List.length (notify_targets (events o)) + failed_connects (events o)
      = List.length (standby_nodes (globals s)))%nat
  /\ globals (final o)
     = set_failover_state FAILOVER_STATE_NONE (set_standby_nodes [] (globals s)).
Proof.
  cbv zeta. intros Hfs. unfold failover_dispatch.
  rewrite bind_outcome. cbn [get_globals value final events].
  destruct Hfs as [Hfs | Hfs]; rewrite Hfs; cbn [FailoverState_eqb].
  all: cbv iota beta; unfold bind.
  all: match goal with
       | |- context [notify_followers env ?id ?s0] =>
           pose proof (notify_followers_spec id s0) as H; cbv zeta in H;
           destruct (notify_followers env id s0) as [v f e];
           cbn in H |- *; destruct H as (H1 & H2 & H3 & H4 & H5)
       end.
  all: unfold clear_node_info_list, modify, ret; cbn; rewrite ?app_nil_r.
  all: rewrite H5; repeat split; auto.
Qed.

(** *** The monitoring loops *)

Lemma supervision_kind_no_rand (evs : list Event) :
  forallb supervision_kind evs = true ->
  existsb is_rand evs = false /\ before_election evs = evs.
Proof.
  induction evs as [|e evs IH]; cbn; [auto|].
  intros H. apply andb_true_iff in H. destruct H as [He H].
  destruct (IH H) as [I1 I2].
  destruct e; try discriminate; cbn; rewrite ?I2; auto.
Qed.

Lemma before_election_app (a b : list Event) (r : Z) :
  existsb is_rand a = false ->
  before_election (a ++ EvRand r :: b) = a.
Proof.
  induction a as [|e a IH]; cbn; [reflexivity|].
  intros H. apply orb_false_iff in H. destruct H as [He H].
  destruct e; try discriminate; cbn; rewrite (IH H); reflexivity.
Qed.

Lemma probes_app (a b : list Event) : probes (a ++ b) = (probes a + probes b)%nat.
Proof. unfold probes. rewrite filter_app, length_app. reflexivity. Qed.

Lemma slept_app (a b : list Event) : slept (a ++ b) = slept a + slept b.
Proof.
  induction a as [|e a IH]; cbn [slept app]; [reflexivity|].
  destruct e; try assumption. lia.
Qed.

Lemma try_reconnect_attempts_trace (n : nat) (ci : string) (s : State World) :
  let o := try_reconnect_attempts env n ci s in
  forallb supervision_kind (events o) = true
  /\ (value o = None ->
      probes (events o) = n /\ slept (events o) = Z.of_nat n).
Proof.
  revert s. induction n as [|n IH]; intros s.
  - cbn. auto.
  - cbn [try_reconnect_attempts].
    unfold bind, is_server_available, establish_db_connection, PQfinish,
      PQstatus, sleep, call, call_, ret.
    cbn.
    destruct (fst (ext_is_server_available env ci (world s))) eqn:Hav.
    + match goal with |- context [conn_ok ?x] => destruct (conn_ok x) eqn:Hst end.
      * cbn. split; [reflexivity | discriminate].
      * match goal with
        | |- context [try_reconnect_attempts env n ci ?s'] =>
            specialize (IH s'); cbv zeta in IH;
            set (o := try_reconnect_attempts env n ci s') in *; clearbody o;
            destruct o as [v f e]; cbn in IH |- *
        end.
        unfold probes in *. cbn.
        destruct IH as (I1 & I2). split; [assumption|].
        intros Hv. destruct (I2 Hv). split; lia.
    + match goal with
      | |- context [try_reconnect_attempts env n ci ?s'] =>
          specialize (IH s'); cbv zeta in IH;
          set (o := try_reconnect_attempts env n ci s') in *; clearbody o;
          destruct o as [v f e]; cbn in IH |- *
      end.
      unfold probes in *. cbn.
      destruct IH as (I1 & I2). split; [assumption|].
      intros Hv. destruct (I2 Hv). split; lia.
Qed.

Lemma try_reconnect_attempts_kind (n : nat) (ci : string) (s : State World) :
  forallb reconnect_kind (events (try_reconnect_attempts env n ci s)) = true.
Proof.
  revert s. induction n as [|n IH]; intros s.
  - reflexivity.
  - cbn [try_reconnect_attempts].
    unfold bind, is_server_available, establish_db_connection, PQfinish,
      PQstatus, sleep, call, call_, ret.
    cbn.
    destruct (fst (ext_is_server_available env ci (world s))) eqn:Hav.
    + match goal with |- context [conn_ok ?x] => destruct (conn_ok x) eqn:Hst end.
      * reflexivity.
      * match goal with
        | |- context [try_reconnect_attempts env n ci ?s'] =>
            specialize (IH s');
            set (o := try_reconnect_attempts env n ci s') in *; clearbody o;
            destruct o as [v f e]; cbn in IH |- *
        end.
        exact IH.
    + match goal with
      | |- context [try_reconnect_attempts env n ci ?s'] =>
          specialize (IH s');
          set (o := try_reconnect_attempts env n ci s') in *; clearbody o;
          destruct o as [v f e]; cbn in IH |- *
      end.
      exact IH.
Qed.

Lemma try_reconnect_kind (ci : string) (s : State World) :
  forallb reconnect_kind (events (try_reconnect env ci s)) = true.
Proof.
  unfold try_reconnect, bind.
  pose proof (try_reconnect_attempts_kind max_attempts ci s) as H.
  destruct (try_reconnect_attempts env max_attempts ci s) as [v f e].
  cbn in H. destruct v as [c|]; cbn; rewrite app_nil_r; exact H.
Qed.

Lemma reconnect_kind_no_record (name : string) (evs : list Event) :
  forallb reconnect_kind evs = true ->
  existsb (is_event_record name) evs = false.
Proof.
  induction evs as [|ev evs IH]; [reflexivity|].
  cbn. intros H. apply andb_true_iff in H. destruct H as [K1 K2].
  rewrite (IH K2). destruct ev; try discriminate; reflexivity.
Qed.

(** Attempts that all failed read no connection as CONNECTION_OK. *)
Lemma try_reconnect_attempts_failed (n : nat) (ci : string) (s : State World) :
  let o := try_reconnect_attempts env n ci s in
  value o = None -> ok_conns (events o) = [].
Proof.
  revert s. induction n as [|n IH]; intros s.
  - reflexivity.
  - cbn [try_reconnect_attempts].
    unfold bind, is_server_available, establish_db_connection, PQfinish,
      PQstatus, sleep, call, call_, ret.
    cbn.
    destruct (fst (ext_is_server_available env ci (world s))) eqn:Hav.
    + match goal with |- context [conn_ok ?x] => destruct x eqn:Hst end;
        cbn [conn_ok].
      * cbn. discriminate.
      * match goal with
        | |- context [try_reconnect_attempts env n ci ?s'] =>
            specialize (IH s'); cbv zeta in IH;
            set (o := try_reconnect_attempts env n ci s') in *; clearbody o;
            destruct o as [v f e]; cbn in IH |- *
        end.
        exact IH.
    + match goal with
      | |- context [try_reconnect_attempts env n ci ?s'] =>
          specialize (IH s'); cbv zeta in IH;
          set (o := try_reconnect_attempts env n ci s') in *; clearbody o;
          destruct o as [v f e]; cbn in IH |- *
      end.
      exact IH.
Qed.

Lemma try_reconnect_failed (ci : string) (s : State World) :
  let o := try_reconnect env ci s in
  snd (value o) = NODE_STATUS_DOWN ->
  ok_conns (events o) = []
  /\ spaced true (events o) = true
  /\ forallb reconnect_kind (events o) = true.
Proof.
  cbv zeta. intros Hdown.
  split; [| split; [| apply try_reconnect_kind]].
  - revert Hdown. unfold try_reconnect, bind.
    pose proof (try_reconnect_attempts_failed max_attempts ci s) as H.
    cbv zeta in H.
    destruct (try_reconnect_attempts env max_attempts ci s) as [v f e].
    cbn in H. destruct v as [c|]; cbn; [discriminate|].
    intros _. rewrite app_nil_r. apply H. reflexivity.
  - unfold try_reconnect, bind.
    pose proof (try_reconnect_attempts_spec env max_attempts ci s) as H.
    cbv zeta in H.
    destruct (try_reconnect_attempts env max_attempts ci s) as [v f e].
    cbn in H. destruct H as (_ & H2 & _).
    destruct v as [c|]; cbn; rewrite app_nil_r; exact H2.
Qed.

Lemma try_reconnect_trace (ci : string) (s : State World) :
  let o := try_reconnect env ci s in
  forallb supervision_kind (events o) = true
  /\ globals (final o) = globals s
  /\ (snd (value o) = NODE_STATUS_UP \/ snd (value o) = NODE_STATUS_DOWN)
  /\ (snd (value o) = NODE_STATUS_DOWN ->
      fst (value o) = None
      /\ probes (events o) = 5%nat /\ slept (events o) = 5).
Proof.
  cbv zeta. unfold try_reconnect, bind.
  pose proof (try_reconnect_attempts_trace max_attempts ci s) as H.
  pose proof (try_reconnect_attempts_spec env max_attempts ci s) as G.
  cbv zeta in H, G.
  destruct (try_reconnect_attempts env max_attempts ci s) as [v f e].
  cbn in H, G. destruct H as (H1 & H2). destruct G as (_ & _ & G3 & _).
  destruct v as [c|]; cbn; rewrite app_nil_r.
  - repeat split; auto; discriminate.
  - destruct (H2 eq_refl). repeat split; auto.
Qed.

Lemma standby_loop_tail_spec (s : State World) :
  let o := standby_loop_tail env s in
  forallb supervision_kind (events o) = true
  /\ set_local_conn None (globals (final o)) = set_local_conn None (globals s).
Proof.
  cbv zeta. unfold standby_loop_tail.
  unfold bind, get_globals, is_server_available, PQfinish, PQstatus,
    establish_db_connection, sleep, modify, call, call_, ret.
  cbn.
  destruct (fst (ext_is_server_available env _ (world s))); cbn.
  all: try (destruct (local_conn (globals s)); cbn).
  all: try match goal with |- context [conn_ok ?x] => destruct (conn_ok x) end;
       cbn; split; reflexivity.
Qed.

Lemma do_election_starts_with_rand (s : State World) :
  exists rest,
    events (do_election env s) = EvRand (fst (ext_rand env (world s))) :: rest.
Proof.
  destruct (do_election_run env s); unfold election_prologue; cbn;
    eexists; reflexivity.
Qed.

Lemma upstream_down_turn_starts_with_rand (s : State World) :
  exists r rest, events (upstream_down_turn env s) = EvRand r :: rest.
Proof.
  unfold upstream_down_turn. rewrite bind_outcome. cbn [events].
  unfold failover_decide. rewrite bind_outcome. cbn [events].
  destruct (do_election_starts_with_rand s) as [rest Hrest].
  rewrite Hrest. cbn [app]. eexists. eexists. reflexivity.
Qed.

Lemma standby_turn_quiet_aux (st : NodeStatus) (s : State World) :
  fst (ext_is_server_available env (conninfo (upstream_node_info (globals s)))
         (world s)) = true
  \/ st <> NODE_STATUS_UP ->
  let o := standby_loop_body env st s in
  value o = LoopNext st
  /\ forallb supervision_kind (events o) = true
  /\ set_local_conn None (globals (final o)) = set_local_conn None (globals s).
Proof.
  cbv zeta. intros H. unfold standby_loop_body.
  unfold bind at 1 2. unfold get_globals, is_server_available, call. cbn.
  assert (Htail : forall s',
            let o := bind (standby_loop_tail env) (fun _ => ret (LoopNext st)) s' in
            value o = LoopNext st
            /\ forallb supervision_kind (events o) = true
            /\ set_local_conn None (globals (final o))
               = set_local_conn None (globals s')).
  { intros s'. cbv zeta. rewrite bind_outcome. cbn [value final events ret].
    destruct (standby_loop_tail_spec s') as [T1 T2].
    rewrite app_nil_r. auto. }
  match goal with |- context [negb ?x] => destruct x eqn:Hav end; cbn [negb].
  - match goal with
    | |- context [bind (standby_loop_tail env) _ ?s'] =>
        destruct (Htail s') as (T1 & T2 & T3);
        destruct (bind (standby_loop_tail env)
                    (fun _ => ret (LoopNext st)) s') as [v f e]
    end.
    cbn in *. auto.
  - destruct H as [H | H]; [rewrite H in Hav; discriminate |].
    destruct st; try (now elim H).
    all: match goal with
    | |- context [bind (standby_loop_tail env) _ ?s'] =>
        destruct (Htail s') as (T1 & T2 & T3);
        destruct (bind (standby_loop_tail env) _ s') as [v f e]
    end.
    all: cbn in *; auto.
Qed.

(** X12: A turn of the standby monitor in which the upstream node answers
    the probe - or in which it was already known not to be up - starts no
    failover: it only probes, reads connection status, reconnects to the
    local node and sleeps; the upstream status is carried over unchanged
    and no variable other than [local_conn] is written. *)
Theorem standby_turn_quiet (st : NodeStatus) (s : State World) :
  fst (ext_is_server_available env (conninfo (upstream_node_info (globals s)))
         (world s)) = true
  \/ st <> NODE_STATUS_UP ->
  let o := standby_loop_body env st s in
  value o = LoopNext st
  /\ forallb supervision_kind (events o) = true
  /\ set_local_conn None (globals (final o)) = set_local_conn None (globals s).
Proof. exact (standby_turn_quiet_aux st s). Qed.

(** X13: A turn of the standby monitor reaches the election only from
    upstream status UP, and only after this: a probe of the upstream node
    that failed, [PQfinish] of the upstream connection, and five
    reconnect attempts none of which gave a usable connection - each is a
    probe and, when the probe answers, a connection whose status is not
    CONNECTION_OK.  That makes six probes; each attempt is followed by a
    sleep of one second, five seconds in all, and the first attempt
    follows the failed probe without a pause. *)
Theorem standby_turn_election_after_reconnect (st : NodeStatus) (s : State World) :
  let o := standby_loop_body env st s in
  existsb is_rand (events o) = true ->
  st = NODE_STATUS_UP
  /\ exists attempts,
       before_election (events o)
       = EvIsServerAvailable (conninfo (upstream_node_info (globals s))) false
         :: EvPQfinish (upstream_conn (globals s)) :: attempts
       /\ probes attempts = 5%nat
       /\ slept attempts = 5
       /\ spaced true attempts = true
       /\ ok_conns attempts = []
       /\ forallb reconnect_kind attempts = true.
Proof.
  cbv zeta.
  destruct (fst (ext_is_server_available env
                   (conninfo (upstream_node_info (globals s))) (world s)))
    eqn:Hav.
  { intros Hrand. exfalso.
    pose proof (standby_turn_quiet_aux st s (or_introl Hav)) as Hq.
    destruct Hq as (_ & Hk & _).
    pose proof (supervision_kind_no_rand _ Hk) as Hno.
    destruct Hno as [Hno _]. rewrite Hno in Hrand. discriminate. }
  destruct st; [intros Hrand; exfalso | | intros Hrand; exfalso].
  1: { assert (Hne : NODE_STATUS_UNKNOWN <> NODE_STATUS_UP) by discriminate.
       pose proof (standby_turn_quiet_aux NODE_STATUS_UNKNOWN s (or_intror Hne))
         as Hq.
       destruct Hq as (_ & Hk & _).
       pose proof (supervision_kind_no_rand _ Hk) as Hno.
       destruct Hno as [Hno _]. rewrite Hno in Hrand. discriminate. }
  2: { assert (Hne : NODE_STATUS_DOWN <> NODE_STATUS_UP) by discriminate.
       pose proof (standby_turn_quiet_aux NODE_STATUS_DOWN s (or_intror Hne))
         as Hq.
       destruct Hq as (_ & Hk & _).
       pose proof (supervision_kind_no_rand _ Hk) as Hno.
       destruct Hno as [Hno _]. rewrite Hno in Hrand. discriminate. }
  pattern (events (standby_loop_body env NODE_STATUS_UP s)).
  match goal with |- ?P _ => set (Q := P) end.
  unfold standby_loop_body.
  rewrite bind_outcome. cbn [get_globals value final events app].
  rewrite bind_outcome.
  unfold is_server_available, call.
  cbn [value final events world globals fst snd].
  rewrite Hav. cbn [negb app].
  rewrite bind_outcome. cbn [PQfinish call_ value final events app].
  rewrite bind_outcome.
  match goal with
  | |- context [try_reconnect env ?ci ?s'] =>
      pose proof (try_reconnect_trace ci s') as T; cbv zeta in T;
      pose proof (try_reconnect_failed ci s') as F; cbv zeta in F;
      destruct (try_reconnect env ci s') as [[c status] f e]
  end.
  cbn [value final events fst snd] in T, F |- *.
  destruct T as (T1 & T2 & T3 & T4).
  rewrite bind_outcome. cbn [modify value final events app].
  pose proof (supervision_kind_no_rand _ T1) as N. destruct N as [N1 N1'].
  destruct T3 as [-> | ->].
  - match goal with
    | |- context [bind (standby_loop_tail env) ?k ?s'] =>
        rewrite (bind_outcome (standby_loop_tail env) k s');
        pose proof (standby_loop_tail_spec s') as K; cbv zeta in K;
        destruct K as [K1 _]
    end.
    cbn [value final events ret]. rewrite app_nil_r.
    pose proof (supervision_kind_no_rand _ K1) as N. destruct N as [N2 _].
    unfold Q. intros Hrand. exfalso.
    cbn [existsb is_rand orb] in Hrand.
    rewrite existsb_app, N1, N2 in Hrand. discriminate.
  - destruct (T4 eq_refl) as (_ & Hp & Hs).
    destruct (F eq_refl) as (F1 & F2 & F3).
    match goal with
    | |- context [upstream_down_turn env ?s'] =>
        destruct (upstream_down_turn_starts_with_rand s') as (r & rest & Hr);
        rewrite Hr
    end.
    unfold Q. intros _. split; [reflexivity|].
    cbn [before_election].
    rewrite (before_election_app e rest r N1).
    exists e. repeat split; assumption.
Qed.

(** *** The primary monitor *)


Lemma primary_loop_body_spec (st : NodeStatus) (s : State World) :
  let o := primary_loop_body env st s in
  forallb supervision_kind (events o) = true
  /\ set_local_conn None (globals (final o)) = set_local_conn None (globals s)
  /\ (st <> NODE_STATUS_UP ->
      value o = st
      /\ globals (final o) = globals s
      /\ forallb probe_or_sleep (events o) = true
      /\ probes (events o) = 1%nat
      /\ slept (events o) = 1)
  /\ (st = NODE_STATUS_UP ->
      (value o = NODE_STATUS_UP \/ value o = NODE_STATUS_DOWN)
      /\ (value o = NODE_STATUS_DOWN ->
          local_conn (globals (final o)) = None
          /\ existsb (is_event_record "repmgrd_local_disconnect") (events o) = true
          /\ existsb (is_event_record "repmgrd_local_reconnect") (events o) = false)).
Proof.
  cbv zeta. pattern (primary_loop_body env st s).
  match goal with |- ?P _ => set (Q := P) end.
  unfold primary_loop_body, bind, get_globals, is_server_available, PQfinish,
    create_event_record, sleep, modify, call, call_, ret.
  cbn -[try_reconnect].
  destruct (fst (ext_is_server_available env _ (world s))) eqn:Hav;
    cbn -[try_reconnect].
  - unfold Q. cbn. repeat split; auto; intros; subst; auto; discriminate.
  - destruct st.
    1, 3: unfold Q; cbn;
      repeat split; auto; intros; auto; try discriminate; try congruence.
    match goal with
    | |- context [try_reconnect env ?ci ?s'] =>
        pose proof (try_reconnect_trace ci s') as T; cbv zeta in T;
        pose proof (reconnect_kind_no_record "repmgrd_local_reconnect" _
                      (try_reconnect_kind ci s')) as Hrec;
        destruct (try_reconnect env ci s') as [[c status] f e]
    end.
    cbn [value final events fst snd globals] in T, Hrec.
    destruct T as (T1 & T2 & T3 & T4).
    destruct T3 as [-> | ->]; unfold Q; cbn.
    + rewrite !forallb_app, T1. cbn. rewrite T2. cbn.
      split; [reflexivity|]. split; [reflexivity|].
      split; [intros H; now elim H|].
      intros _. split; [left; reflexivity | discriminate].
    + destruct (T4 eq_refl) as (-> & _ & _).
      rewrite !forallb_app, T1. cbn. rewrite T2. cbn.
      split; [reflexivity|]. split; [reflexivity|].
      split; [intros H; now elim H|].
      intros _. split; [right; reflexivity |]. intros _.
      split; [reflexivity|]. split; [reflexivity|].
      rewrite !existsb_app, Hrec. reflexivity.
Qed.

Lemma primary_loop_spec (fuel : nat) (st : NodeStatus) (s : State World) :
  let o := primary_loop env fuel st s in
  value o = None
  /\ forallb supervision_kind (events o) = true
  /\ set_local_conn None (globals (final o)) = set_local_conn None (globals s).
Proof.
  revert st s. induction fuel as [|n IH]; intros st s.
  - cbn. auto.
  - cbn [primary_loop]. rewrite bind_outcome. cbn [value final events].
    destruct (primary_loop_body_spec st s) as (B1 & B2 & _).
    destruct (IH (value (primary_loop_body env st s))
                 (final (primary_loop_body env st s))) as (I1 & I2 & I3).
    rewrite forallb_app, B1, I2. repeat split; auto. congruence.
Qed.

(** X14: [monitor_streaming_primary] never returns, and all it ever does
    is probe, connect, read connection status, close, record events and
    sleep - no election, no command, no promotion; of the daemon's
    variables it writes only [local_conn] and [startup_event_logged]. *)
Theorem primary_monitor_only_supervises (fuel : nat) (s : State World) :
  let o := monitor_streaming_primary env fuel s in
  value o = None
  /\ forallb supervision_kind (events o) = true
  /\ set_startup_event_logged true (set_local_conn None (globals (final o)))
     = set_startup_event_logged true (set_local_conn None (globals s)).
Proof.
  cbv zeta. unfold monitor_streaming_primary.
  rewrite bind_outcome. cbn [get_globals value final events app].
  rewrite bind_outcome.
  destruct (startup_event_logged (globals s)) eqn:Hlogged; cbn [negb].
  - cbn [ret value final events app].
    destruct (primary_loop_spec fuel NODE_STATUS_UP s) as (I1 & I2 & I3).
    repeat split; auto. unfold set_startup_event_logged, set_local_conn in *.
    cbn in *. congruence.
  - unfold bind at 1 2 3. unfold create_event_record, modify, call_.
    cbn [value final events world globals app].
    match goal with
    | |- context [primary_loop env fuel NODE_STATUS_UP ?s'] =>
        destruct (primary_loop_spec fuel NODE_STATUS_UP s') as (I1 & I2 & I3)
    end.
    cbn [forallb supervision_kind andb]. repeat split; auto.
    unfold set_startup_event_logged, set_local_conn in *.
    cbn in *. congruence.
Qed.

Lemma primary_loop_down (fuel : nat) (s : State World) :
  let o := primary_loop env fuel NODE_STATUS_DOWN s in
  globals (final o) = globals s
  /\ forallb probe_or_sleep (events o) = true
  /\ probes (events o) = fuel
  /\ slept (events o) = Z.of_nat fuel.
Proof.
  revert s. induction fuel as [|n IH]; intros s.
  - cbn. auto.
  - cbn [primary_loop]. rewrite bind_outcome. cbn [value final events].
    destruct (primary_loop_body_spec NODE_STATUS_DOWN s) as (_ & _ & B & _).
    destruct (B ltac:(discriminate)) as (B1 & B2 & B3 & B4 & B5).
    rewrite B1.
    destruct (IH (final (primary_loop_body env NODE_STATUS_DOWN s)))
      as (I1 & I2 & I3 & I4).
    rewrite forallb_app, probes_app, slept_app, B3, B4, B5, I2, I3, I4.
    repeat split; auto; try congruence; lia.
Qed.

(** X15: A turn of the primary monitor that starts with the local node
    up ends with it up or down; when it ends down, [local_conn] is null, a
    "repmgrd_local_disconnect" event was recorded and no reconnect event.
    Once the status is DOWN the monitor only probes and sleeps, one probe
    and one second per turn, for ever and without touching any variable:
    it does not try to reconnect again. *)
Theorem primary_monitor_gives_up (fuel : nat) (s : State World) :
  let turn := primary_loop_body env NODE_STATUS_UP s in
  let o := primary_loop env fuel NODE_STATUS_DOWN s in
  (value turn = NODE_STATUS_UP \/ value turn = NODE_STATUS_DOWN)
  /\ (value turn = NODE_STATUS_DOWN ->
      local_conn (globals (final turn)) = None
      /\ existsb (is_event_record "repmgrd_local_disconnect") (events turn) = true
      /\ existsb (is_event_record "repmgrd_local_reconnect") (events turn) = false)
  /\ globals (final o) = globals s
  /\ forallb probe_or_sleep (events o) = true
  /\ probes (events o) = fuel
  /\ slept (events o) = Z.of_nat fuel.
Proof.
  cbv zeta.
  destruct (primary_loop_body_spec NODE_STATUS_UP s) as (_ & _ & _ & B).
  destruct (B eq_refl) as (B1 & B2).
  destruct (primary_loop_down fuel s) as (D1 & D2 & D3 & D4).
  repeat split; auto; apply B2; assumption.
Qed.

(** *** The role monitor *)

(** X16: For a node of type BDR or WITNESS [start_monitoring] returns at
    once: it resets the voting status and does nothing else. *)
Theorem start_monitoring_unhandled_roles (fuel : nat) (s : State World) :
  type (local_node_info (globals s)) = BDR
  \/ type (local_node_info (globals s)) = WITNESS ->
  let r := reset_node_voting_status env s in
  let o := start_monitoring env (S fuel) s in
  value o = Some tt /\ final o = final r /\ events o = events r.
Proof.
  cbv zeta. intros Htype.
  cbn [start_monitoring]. rewrite bind_outcome.
  unfold start_monitoring_iteration. rewrite bind_outcome.
  cbn [value final events].
  destruct (reset_node_voting_status_spec env s) as (R1 & _).
  unfold role_dispatch. rewrite bind_outcome. cbn [get_globals value final events].
  rewrite R1. cbn [local_node_info set_failover_state].
  destruct Htype as [-> | ->]; cbn; rewrite ?app_nil_r; auto.
Qed.

(** X17: For a node of type UNKNOWN [start_monitoring] never returns and
    never sleeps: turn after turn it only reads the status of the local
    connection and resets the voting status, and the record of the local
    node stays as it is. *)
Theorem start_monitoring_unknown_spins (fuel : nat) (s : State World) :
  type (local_node_info (globals s)) = UNKNOWN ->
  let o := start_monitoring env fuel s in
  value o = None
  /\ forallb reset_kind (events o) = true
  /\ local_node_info (globals (final o)) = local_node_info (globals s).
Proof.
  revert s. induction fuel as [|n IH]; intros s Htype.
  - cbn. auto.
  - cbv zeta. cbn [start_monitoring]. rewrite bind_outcome.
    unfold start_monitoring_iteration. rewrite bind_outcome.
    cbn [value final events].
    destruct (reset_node_voting_status_spec env s) as (R1 & _ & R3 & _).
    unfold role_dispatch. rewrite bind_outcome. cbn [get_globals value final events].
    rewrite R1. cbn [local_node_info set_failover_state].
    rewrite Htype. cbn [ret value final events].
    assert (Ht : type (local_node_info
                         (globals (final (reset_node_voting_status env s))))
                 = UNKNOWN) by (rewrite R1; exact Htype).
    destruct (IH _ Ht) as (I1 & I2 & I3).
    rewrite app_nil_r, forallb_app, I2, R3.
    repeat split; auto.
    + destruct (conn_ok _); reflexivity.
    + rewrite I3, R1. reflexivity.
Qed.

(** *** More on the election *)

Lemma no_vote_requests_quiet (evs : list Event) :
  vote_requests evs = 0 ->
  peer_votes evs = 0 /\ forall lsn, sibling_ahead lsn evs = false.
Proof.
  assert (Hnn : forall l, 0 <= vote_requests l).
  { induction l as [|e l IHl]; cbn [vote_requests]; [lia|].
    destruct e; try assumption. lia. }
  induction evs as [|e evs IH]; cbn [vote_requests peer_votes sibling_ahead];
    [auto|].
  intros H. destruct e; try (exact (IH H)).
  pose proof (Hnn evs). lia.
Qed.

(** X18: A node that got as far as reading its own LSN without any
    sibling accepting its candidature - because it has no sibling or could
    reach none - wins its election, without asking for a single vote. *)
Theorem do_election_unseen_node_wins (s : State World) (lsn : Z) :
  let o := do_election env s in
  local_lsn_read (events o) = Some lsn ->
  announce_successes (events o) = 0 ->
  value o = ELECTION_WON
  /\ vote_requests (events o) = 0.
Proof.
  cbv zeta.
  pose proof (do_election_run env s) as R.
  set (o := do_election env s) in *. clearbody o.
  destruct o as [v f evs]. cbn [value events] in *.
  intros Hlsn Hnone.
  destruct R as [c | c vs term node upstream Hvs
                | c vs term node upstream found A Hvs Hf HA Hrej
                | c vs term node upstream found A lsn' V Hvs Hf HA HV Hreq].
  - discriminate Hlsn.
  - discriminate Hlsn.
  - exfalso. unfold election_prologue in Hlsn. cbn in Hlsn.
    destruct (announce_kind_quiet A HA) as (_ & _ & _ & Hn & _).
    rewrite Hn in Hlsn. discriminate.
  - destruct (announce_kind_quiet A HA) as (Apv & Avr & Aah & Alsn & _).
    destruct (vote_kind_quiet V HV) as (Vas & _ & _).
    unfold election_prologue in Hnone |- *.
    cbn [app announce_successes] in Hnone.
    rewrite announce_successes_app in Hnone.
    cbn [announce_successes] in Hnone. rewrite Vas in Hnone.
    assert (HA0 : announce_successes A = 0) by lia.
    rewrite HA0 in Hreq |- *.
    destruct (no_vote_requests_quiet V Hreq) as [Hpv Hah].
    rewrite Hpv, Hah.
    split; [reflexivity|].
    cbn [app vote_requests]. rewrite vote_requests_app.
    cbn [vote_requests]. lia.
Qed.

(** X19: [do_election] marks the local voting status as initiated unless
    the status it read was VS_VOTE_REQUEST_RECEIVED; in that case it
    returns NOT_CANDIDATE without looking up or contacting any sibling. *)
Theorem do_election_vote_owed (s : State World) (vs : NodeVotingStatus) :
  let o := do_election env s in
  voting_status_read (events o) = Some vs ->
  existsb is_set_voting_status_initiated (events o)
  = negb (NodeVotingStatus_eqb vs VS_VOTE_REQUEST_RECEIVED)
  /\ (vs = VS_VOTE_REQUEST_RECEIVED ->
      value o = ELECTION_NOT_CANDIDATE
      /\ existsb is_peer_contact (events o) = false
      /\ siblings_found (events o) = None).
Proof.
  cbv zeta.
  pose proof (do_election_run env s) as R.
  set (o := do_election env s) in *. clearbody o.
  destruct o as [v f evs]. cbn [value events] in *.
  intros Hvs'.
  destruct R as [c | c vs0 term node upstream Hvs
                | c vs0 term node upstream found A Hvs Hf HA Hrej
                | c vs0 term node upstream found A lsn' V Hvs Hf HA HV Hreq].
  - cbn in Hvs'. injection Hvs' as <-. cbn. auto.
  - unfold election_prologue in *. cbn in Hvs'. injection Hvs' as <-.
    cbn. split; [destruct vs0; try reflexivity; now elim Hvs | intros; contradiction].
  - unfold election_prologue in *. cbn in Hvs'. injection Hvs' as <-.
    cbn. split; [destruct vs0; try reflexivity; now elim Hvs | intros; contradiction].
  - unfold election_prologue in *. cbn in Hvs'. injection Hvs' as <-.
    cbn. split; [destruct vs0; try reflexivity; now elim Hvs | intros; contradiction].
Qed.

Lemma finishes_app (a b : list Event) : finishes (a ++ b) = finishes a + finishes b.
Proof.
  induction a as [|e a IH]; cbn [finishes app]; [reflexivity|].
  destruct e; try assumption. lia.
Qed.

Lemma announce_kind_no_finish (evs : list Event) :
  forallb announce_kind evs = true -> finishes evs = 0.
Proof.
  induction evs as [|e evs IH]; cbn; [auto|].
  intros H. apply andb_true_iff in H. destruct H as [He H].
  destruct e; try discriminate; exact (IH H).
Qed.

Lemma vote_loop_closes (term : Z) (cells : NodeInfoList) (votes : Z) (ahead : bool)
    (s : State World) :
  let o := vote_loop env term cells votes ahead s in
  finishes (events o) = vote_requests (events o)
  /\ Forall closed_or_unseen (fst (fst (value o))).
Proof.
  revert votes ahead s.
  induction cells as [|cell rest IH]; intros votes ahead s.
  - cbn. auto.
  - cbn [vote_loop].
    destruct (is_visible cell) eqn:Hvis; cbn [negb].
    + unfold bind, request_vote, PQfinish, get_globals, call, call_, ret. cbn.
      match goal with
      | |- context [vote_loop env term rest ?v ?a ?s'] =>
          specialize (IH v a s'); cbv zeta in IH;
          set (o := vote_loop env term rest v a s') in *; clearbody o;
          destruct o as [[[cells' vts] ahd] f e]; cbn in IH |- *
      end.
      destruct IH as (I1 & I2). rewrite ?app_nil_r.
      split; [lia|]. constructor; [right; reflexivity | assumption].
    + unfold bind, ret. cbn.
      match goal with
      | |- context [vote_loop env term rest ?v ?a ?s'] =>
          specialize (IH v a s'); cbv zeta in IH;
          set (o := vote_loop env term rest v a s') in *; clearbody o;
          destruct o as [[[cells' vts] ahd] f e]; cbn in IH |- *
      end.
      destruct IH as (I1 & I2). rewrite ?app_nil_r.
      split; [assumption|]. constructor; [left; assumption | assumption].
Qed.

(** X20: [do_election] closes as many connections as it requested votes,
    and once it has claimed the candidature every sibling it leaves in the
    list is either marked not visible or has its connection closed and
    forgotten. *)
Theorem do_election_closes_voters (s : State World) :
  let o := do_election env s in
  finishes (events o) = vote_requests (events o)
  /\ (existsb is_set_voting_status_initiated (events o) = true ->
      Forall closed_or_unseen (standby_nodes (globals (final o)))).
Proof.
  cbv zeta. unfold do_election.
  unfold bind at 1 2 3 4 5.
  unfold rand, pg_usleep, modify, get_globals, get_voting_status, call, call_.
  cbn.
  match goal with
  | |- context [NodeVotingStatus_eqb ?x ?y] =>
      destruct (NodeVotingStatus_eqb x y) eqn:Hvs
  end.
  - cbn. repeat split; auto; discriminate.
  - unfold bind, set_voting_status_initiated, clear_node_info_list,
      get_active_sibling_node_records, get_last_wal_receive_location,
      modify, get_globals, call, call_, ret.
    cbn.
    match goal with
    | |- context [node_count ?x =? 0] => destruct (node_count x =? 0) eqn:Hn
    end; cbn.
    + match goal with
      | H : (node_count ?x =? 0) = true |- _ =>
          destruct x; [| cbn in H; discriminate H]
      end.
      repeat split; auto; discriminate.
    + match goal with
      | |- context [announce_loop env ?t ?c ?v ?s'] =>
          pose proof (announce_loop_spec env t c v s') as HA; cbv zeta in HA;
          set (oa := announce_loop env t c v s') in *; clearbody oa
      end.
      destruct oa as [[[cells' vis] cand] fa A].
      cbn in HA |- *.
      destruct HA as (A1 & A2 & A3 & A4 & A5).
      pose proof (announce_kind_no_finish A A3) as Afin.
      destruct (announce_kind_quiet A A3) as (_ & Avr & _).
      destruct cand; cbn.
      * rewrite app_nil_r. rewrite Afin, Avr. repeat split; auto.
      * match goal with
        | |- context [vote_loop env ?t ?c ?v ?a ?s'] =>
            pose proof (vote_loop_closes t c v a s') as HV; cbv zeta in HV;
            pose proof (vote_loop_spec env t c v a s') as HV';
            cbv zeta in HV';
            set (ov := vote_loop env t c v a s') in *; clearbody ov
        end.
        destruct ov as [[[cells'' vts] ahd] fv V].
        cbn in HV, HV' |- *.
        destruct HV as (V1 & V2). destruct HV' as (_ & _ & _ & V4 & _).
        rewrite ?app_nil_r.
        match goal with
        | |- context [if ?c =? ?d then _ else _] => destruct (c =? d)
        end; cbn; rewrite ?app_nil_r.
        all: rewrite finishes_app, vote_requests_app; cbn [finishes vote_requests].
        all: rewrite Afin, Avr, V1.
        all: repeat split; auto.
Qed.

End CoverageProperties.

(** ** The directory of the configuration file *)

Lemma strncpy_zeroed (n k : nat) (src : list Ascii.ascii) :
  (k <= List.length src)%nat -> (k <= n)%nat ->
  strncpy (repeat NUL n) src k = firstn k src ++ repeat NUL (n - k).
Proof.
  intros Hk Hn. unfold strncpy.
  rewrite firstn_app. replace (k - List.length src)%nat with O by lia.
  cbn [firstn]. rewrite app_nil_r. f_equal.
  replace n with (k + (n - k))%nat at 1 by lia.
  rewrite repeat_app, skipn_app, repeat_length.
  replace (k - k)%nat with O by lia. cbn [skipn].
  rewrite skipn_all2 by (rewrite repeat_length; lia). reflexivity.
Qed.

Lemma strncpy_same_prefix (m k : nat) (src tail : list Ascii.ascii) :
  (k <= m)%nat -> (m <= List.length src)%nat ->
  strncpy (firstn m src ++ tail) src k = firstn m src ++ tail.
Proof.
  intros Hk Hm. unfold strncpy.
  rewrite firstn_app. replace (k - List.length src)%nat with O by lia.
  cbn [firstn]. rewrite app_nil_r.
  rewrite skipn_app.
  rewrite length_firstn. replace (Nat.min m (List.length src)) with m by lia.
  replace (k - m)%nat with O by lia. cbn [skipn].
  rewrite app_assoc. f_equal.
  rewrite <- (firstn_skipn k (firstn m src)) at 2. f_equal.
  rewrite firstn_firstn. f_equal. lia.
Qed.

Lemma config_dir_scan_stable (src tail : list Ascii.ascii) (m i : nat) :
  (i <= m)%nat -> (m <= List.length src)%nat ->
  config_dir_scan src i (firstn m src ++ tail) = firstn m src ++ tail.
Proof.
  intros Hi Hm. induction i as [|j IH]; [reflexivity|].
  cbn [config_dir_scan].
  destruct (Ascii.eqb (char_at src (S j)) slash).
  - rewrite strncpy_same_prefix by lia. apply IH. lia.
  - apply IH. lia.
Qed.

Lemma config_dir_scan_zeroed (src : list Ascii.ascii) (n i : nat) :
  (i <= List.length src)%nat -> (i <= n)%nat ->
  config_dir_scan src i (repeat NUL n)
  = firstn (last_slash src i) src ++ repeat NUL (n - last_slash src i).
Proof.
  intros Hi Hn. induction i as [|j IH].
  - cbn. rewrite Nat.sub_0_r. reflexivity.
  - cbn [config_dir_scan last_slash].
    destruct (Ascii.eqb (char_at src (S j)) slash).
    + rewrite strncpy_zeroed by lia.
      apply config_dir_scan_stable; lia.
    + apply IH; lia.
Qed.

Lemma last_slash_spec (s : list Ascii.ascii) (i : nat) :
  (last_slash s i <= i)%nat
  /\ (last_slash s i <> O -> char_at s (last_slash s i) = slash)
  /\ (forall j, (last_slash s i < j <= i)%nat -> char_at s j <> slash).
Proof.
  induction i as [|i IH]; cbn [last_slash].
  - split; [lia | split; [intros H; now elim H | intros j Hj; lia]].
  - destruct (Ascii.eqb_spec (char_at s (S i)) slash) as [E | E].
    + split; [lia | split; [intros _; exact E | intros j Hj; lia]].
    + destruct IH as (I1 & I2 & I3).
      split; [lia | split; [exact I2 |]].
      intros j Hj. destruct (Nat.eq_dec j (S i)) as [-> | Hne]; [exact E|].
      apply I3. lia.
Qed.

Lemma c_string_prefix (p tail : list Ascii.ascii) :
  ~ In NUL p ->
  c_string (p ++ NUL :: tail) = p.
Proof.
  induction p as [|c p IH]; intros Hno.
  - cbn. reflexivity.
  - cbn [app c_string].
    destruct (Ascii.eqb_spec c NUL) as [E | E].
    + exfalso. apply Hno. left. exact E.
    + f_equal. apply IH. intros Hin. apply Hno. right. exact Hin.
Qed.

Lemma c_string_zeroed (n : nat) : c_string (repeat NUL n) = [].
Proof. destruct n; reflexivity. Qed.

Lemma skipn_cons_nth (s : list Ascii.ascii) (k : nat) :
  (k < List.length s)%nat ->
  skipn k s = char_at s k :: skipn (S k) s.
Proof.
  revert k. induction s as [|c s IH]; intros k Hk; [cbn in Hk; lia|].
  destruct k as [|k]; [reflexivity|].
  cbn [skipn]. unfold char_at. cbn [nth]. apply IH. cbn in Hk. lia.
Qed.

Lemma in_skipn_nth (s : list Ascii.ascii) (k : nat) (c : Ascii.ascii) :
  In c (skipn k s) ->
  exists j, (k <= j < List.length s)%nat /\ char_at s j = c.
Proof.
  revert k. induction s as [|c0 s IH]; intros k Hin.
  - rewrite skipn_nil in Hin. contradiction.
  - destruct k as [|k].
    + cbn [skipn] in Hin. destruct Hin as [<- | Hin].
      * exists O. cbn. split; [lia | reflexivity].
      * destruct (IH O Hin) as (j & Hj & Hc).
        exists (S j). cbn. split; [lia | exact Hc].
    + cbn [skipn] in Hin. destruct (IH k Hin) as (j & Hj & Hc).
      exists (S j). cbn. split; [lia | exact Hc].
Qed.

(** X21: The directory [daemonize_process] changes to.  For a path of the
    configuration file that fits the buffer, the directory is what comes
    before the last ['/'] of the path, if that is not empty; it is ["/"] if
    the path has no ['/'] after its first character.  (So a file named
    without a directory sends the daemon to the root directory.) *)
Theorem config_dir_splits_at_last_slash (maxpgpath : nat)
    (config_file : list Ascii.ascii) :
  ~ In NUL config_file ->
  (List.length config_file < maxpgpath)%nat ->
  let dir := c_string (config_dir_buffer maxpgpath config_file) in
  (dir = [slash]
   /\ forall j, (1 <= j)%nat -> char_at config_file j <> slash)
  \/ (exists base,
        config_file = dir ++ slash :: base
        /\ dir <> []
        /\ ~ In slash base).
Proof.
  intros Hnul Hlen. cbv zeta. unfold config_dir_buffer.
  rewrite config_dir_scan_zeroed by lia.
  set (n := List.length config_file) in *.
  destruct (last_slash_spec config_file n) as (L1 & L2 & L3).
  destruct (last_slash config_file n) as [|k] eqn:Hk.
  - left. cbn [firstn app]. rewrite Nat.sub_0_r.
    destruct maxpgpath as [|m]; [lia|].
    cbn [repeat]. rewrite Ascii.eqb_refl. cbn [c_string].
    replace (Ascii.eqb slash NUL) with false by reflexivity.
    rewrite c_string_zeroed. split; [reflexivity|].
    intros j Hj. destruct (Nat.le_gt_cases j n) as [Hle | Hgt].
    + apply L3. lia.
    + unfold char_at. rewrite nth_overflow by (fold n; lia). discriminate.
  - right.
    assert (Hslash : char_at config_file (S k) = slash) by (apply L2; discriminate).
    assert (Hlt : (S k < n)%nat).
    { destruct (Nat.lt_ge_cases (S k) n) as [H | H]; [exact H|].
      exfalso. unfold char_at in Hslash.
      rewrite nth_overflow in Hslash by (fold n; lia). discriminate. }
    assert (Hpre : ~ In NUL (firstn (S k) config_file)).
    { intros Hin. apply Hnul.
      rewrite <- (firstn_skipn (S k) config_file). apply in_or_app. left. exact Hin. }
    assert (Hbuf : firstn (S k) config_file ++ repeat NUL (maxpgpath - S k)
                   = firstn (S k) config_file
                     ++ NUL :: repeat NUL (maxpgpath - S k - 1)).
    { f_equal. replace (maxpgpath - S k)%nat with (S (maxpgpath - S k - 1)) at 1 by lia.
      reflexivity. }
    assert (Hdir : c_string
              match firstn (S k) config_file ++ repeat NUL (maxpgpath - S k) with
              | [] => firstn (S k) config_file ++ repeat NUL (maxpgpath - S k)
              | c :: rest =>
                  if Ascii.eqb c NUL then slash :: rest
                  else firstn (S k) config_file ++ repeat NUL (maxpgpath - S k)
              end
            = firstn (S k) config_file).
    { destruct config_file as [|c0 cf']; [cbn in n; lia|].
      cbn [firstn app].
      destruct (Ascii.eqb_spec c0 NUL) as [E | E].
      - exfalso. apply Hnul. left. exact E.
      - change (c0 :: firstn k cf' ++ repeat NUL (maxpgpath - S k))
          with (firstn (S k) (c0 :: cf') ++ repeat NUL (maxpgpath - S k)).
        rewrite Hbuf. apply c_string_prefix. exact Hpre. }
    rewrite Hdir.
    exists (skipn (S (S k)) config_file). split; [| split].
    + rewrite <- Hslash. rewrite <- skipn_cons_nth by (fold n; lia).
      symmetry. apply firstn_skipn.
    + destruct config_file; [cbn in n; lia | discriminate].
    + intros Hin. destruct (in_skipn_nth _ _ _ Hin) as (j & Hj & Hc).
      apply (L3 j); [fold n in Hj; lia | exact Hc].
Qed.

(** ** Startup and shutdown *)

Lemma daemon_events_app (a b : list SysCall) :
  daemon_events (a ++ b) = daemon_events a ++ daemon_events b.
Proof.
  induction a as [|[] a IH]; cbn; rewrite ?IH; reflexivity.
Qed.

Lemma daemon_events_lift (evs : list Event) :
  daemon_events (map ScDaemon evs) = evs.
Proof.
  induction evs as [|e evs IH]; cbn; rewrite ?IH; reflexivity.
Qed.

Lemma unlinked_app (a b : list SysCall) :
  unlinked (a ++ b) = unlinked a ++ unlinked b.
Proof.
  induction a as [|[] a IH]; cbn; rewrite ?IH; reflexivity.
Qed.

Lemma cancelled_app (a b : list SysCall) :
  cancelled (a ++ b) = cancelled a ++ cancelled b.
Proof.
  induction a as [|[] a IH]; cbn; rewrite ?IH; reflexivity.
Qed.

Lemma busy_conns_app (a b : list SysCall) :
  busy_conns (a ++ b) = busy_conns a ++ busy_conns b.
Proof.
  induction a as [|[] a IH]; cbn; rewrite ?IH; try reflexivity.
  destruct (busy =? 1); reflexivity.
Qed.

Lemma written_app (a b : list SysCall) :
  written (a ++ b) = written a ++ written b.
Proof.
  induction a as [|[] a IH]; cbn; rewrite ?IH; reflexivity.
Qed.

Lemma signals_sent_app (a b : list SysCall) :
  signals_sent (a ++ b) = signals_sent a ++ signals_sent b.
Proof.
  induction a as [|[] a IH]; cbn; rewrite ?IH; reflexivity.
Qed.

Lemma no_fork_after_write_no_fork (written : bool) (scs : list SysCall) :
  forallb not_fork scs = true -> no_fork_after_write written scs = true.
Proof.
  revert written. induction scs as [|sc scs IH]; intros written H; [reflexivity|].
  cbn in H |- *. apply andb_prop in H. destruct H as [H1 H2].
  unfold not_fork in H1. apply negb_true_iff in H1. rewrite H1, andb_false_r.
  cbn. apply IH. exact H2.
Qed.

Lemma no_fork_after_write_phases (a b : list SysCall) :
  forallb not_write a = true -> forallb not_fork b = true ->
  no_fork_after_write false (a ++ b) = true.
Proof.
  induction a as [|sc a IH]; intros Ha Hb.
  - apply no_fork_after_write_no_fork. exact Hb.
  - cbn in Ha |- *. apply andb_prop in Ha. destruct Ha as [H1 H2].
    unfold not_write in H1. apply negb_true_iff in H1. rewrite H1.
    apply IH; assumption.
Qed.

Lemma forallb_weaken {X : Type} (p q : X -> bool) (l : list X) :
  (forall x, p x = true -> q x = true) -> forallb p l = true -> forallb q l = true.
Proof.
  intros H. induction l as [|x l IH]; cbn; [reflexivity|].
  intros Hl. apply andb_prop in Hl. destruct Hl as [H1 H2].
  rewrite (H _ H1), (IH H2). reflexivity.
Qed.

Section ProcessProperties.

Context {World : Type} (env : Collaborators World) (os : OsCalls World)
  (opts : ProcessOptions).

Lemma close_connections_spec (s : State World) :
  let r := close_connections env os opts s in
  ending r = Returned tt
  /\ globals (after r) = globals s
  /\ unlinked (syscalls r) = []
  /\ closed_conns (daemon_events (syscalls r)) = ok_conns (daemon_events (syscalls r))
  /\ (List.length (closed_conns (daemon_events (syscalls r))) <= 2)%nat
  /\ cancelled (syscalls r)
     = map (fun c => (c, primary_response_timeout opts)) (busy_conns (syscalls r))
  /\ Forall (eq (primary_conn (globals s))) (busy_conns (syscalls r)).
Proof.
  destruct s as [w g]. unfold close_connections, pbind, lift, get_globals, PQstatus,
    PQisBusy, cancel_query, PQfinish, call_, os_call, os_call_, pret.
  cbn.
  destruct (primary_conn g) as [hp|], (local_conn g) as [hl|]; cbn.
  all: try destruct (ext_conn_status env hp w); cbn.
  all: try (destruct (os_PQisBusy os (Some hp) w) as [busy w1]; cbn;
            destruct (busy =? 1) eqn:Hbusy; cbn).
  all: repeat match goal with
       | |- context [ext_conn_status env ?h ?w] =>
           destruct (ext_conn_status env h w); cbn
       end.
  all: rewrite ?Hbusy; repeat split; auto.
Qed.

Lemma terminate_spec (A : Type) (retval : Z) (s : State World) :
  let r := terminate (A := A) env os opts retval s in
  let evs := daemon_events (syscalls r) in
  ending r = Exited retval
  /\ globals (after r) = globals s
  /\ unlinked (syscalls r)
     = match pid_file opts with Some f => [f] | None => [] end
  /\ closed_conns evs = ok_conns evs
  /\ (List.length (closed_conns evs) <= 2)%nat
  /\ cancelled (syscalls r)
     = map (fun c => (c, primary_response_timeout opts)) (busy_conns (syscalls r))
  /\ Forall (eq (primary_conn (globals s))) (busy_conns (syscalls r)).
Proof.
  cbv zeta. unfold terminate, pbind.
  pose proof (close_connections_spec s) as H. cbv zeta in H.
  destruct (close_connections env os opts s) as [e a sc].
  cbn [ending after syscalls] in H.
  destruct H as (He & Hg & Hu & Hc & Hl & Hq & Hb). subst e.
  destruct (pid_file opts) as [f|]; cbn.
  all: rewrite ?daemon_events_app, ?unlinked_app, ?cancelled_app, ?busy_conns_app.
  all: cbn; rewrite ?app_nil_r, ?Hu.
  all: repeat split; auto.
Qed.

(** X22: [terminate] always ends the process with the status it is given,
    after closing exactly the connections whose status it read as
    CONNECTION_OK (cancelling the query of a busy primary connection first,
    with the configured timeout) and removing the PID file if one is
    configured; it leaves the daemon's variables as they are. *)
Theorem terminate_closes_and_exits (A : Type) (retval : Z) (s : State World) :
  let r := terminate (A := A) env os opts retval s in
  let evs := daemon_events (syscalls r) in
  ending r = Exited retval
  /\ globals (after r) = globals s
  /\ unlinked (syscalls r)
     = match pid_file opts with Some f => [f] | None => [] end
  /\ closed_conns evs = ok_conns evs
  /\ (List.length (closed_conns evs) <= 2)%nat
  /\ cancelled (syscalls r)
     = map (fun c => (c, primary_response_timeout opts)) (busy_conns (syscalls r))
  /\ Forall (eq (primary_conn (globals s))) (busy_conns (syscalls r)).
Proof. exact (terminate_spec A retval s). Qed.

(** X23: For a configuration file whose path is a C string that fits the
    buffer of [MAXPGPATH] characters, [daemonize_process] returns only in the
    grandchild of the process that called it: after a first [fork] that
    returned 0, a [setsid] that succeeded and a second [fork] that
    returned 0, and having tried to change to the directory of the
    configuration file, whose failure it ignores.  In every other case the
    process exits, with 0 in a parent and ERR_SYS_FAILURE after a failed
    call, without changing directory. *)
Theorem daemonize_process_detaches (s : State World) :
  ~ In NUL (list_ascii_of_string (config_file opts)) ->
  (String.length (config_file opts) < MAXPGPATH os)%nat ->
  let r := daemonize_process os opts s in
  globals (after r) = globals s
  /\ match ending r with
     | Returned _ =>
         exists sid rc,
           sid <> -1
           /\ syscalls r
              = [ScFork 0; ScSetsid sid; ScFork 0;
                 ScChdir (config_dir (MAXPGPATH os) (config_file opts)) rc]
     | Exited status =>
         existsb is_chdir (syscalls r) = false
         /\ ((status = ERR_SYS_FAILURE os
              /\ exists pre, syscalls r = pre ++ [ScFork (-1)]
                             \/ syscalls r = pre ++ [ScSetsid (-1)])
             \/ (status = 0
                 /\ exists pre pid, pid <> 0 /\ pid <> -1
                                    /\ syscalls r = pre ++ [ScFork pid]))
     end.
Proof.
  intros _ _. destruct s as [w g].
  unfold daemonize_process, pbind, fork, setsid, chdir, os_call, exit, pret.
  cbn.
  destruct (os_fork os w) as [pid1 w1]; cbn.
  destruct (Z.eqb_spec pid1 (-1)) as [E1|N1]; cbn.
  { subst. split; [reflexivity|]. split; [reflexivity|]. left.
    split; [reflexivity|]. exists []. left. reflexivity. }
  destruct (Z.eqb_spec pid1 0) as [E2|N2]; cbn.
  2:{ split; [reflexivity|]. split; [reflexivity|]. right.
      split; [reflexivity|]. exists [], pid1. auto. }
  subst pid1.
  destruct (os_setsid os w1) as [sid w2]; cbn.
  destruct (Z.eqb_spec sid (-1)) as [E3|N3]; cbn.
  { subst. split; [reflexivity|]. split; [reflexivity|]. left.
    split; [reflexivity|]. exists [ScFork 0]. right. reflexivity. }
  destruct (os_fork os w2) as [pid2 w3]; cbn.
  destruct (Z.eqb_spec pid2 (-1)) as [E4|N4]; cbn.
  { subst. split; [reflexivity|]. split; [reflexivity|]. left.
    split; [reflexivity|]. exists [ScFork 0; ScSetsid sid]. left. reflexivity. }
  destruct (Z.eqb_spec pid2 0) as [E5|N5]; cbn.
  - subst. split; [reflexivity|].
    exists sid, (fst (os_chdir os (config_dir (MAXPGPATH os) (config_file opts)) w3)).
    split; [exact N3 | reflexivity].
  - split; [reflexivity|]. split; [reflexivity|]. right.
    split; [reflexivity|]. exists [ScFork 0; ScSetsid sid], pid2. auto.
Qed.

(** X24: [check_and_create_pid_file] never takes over the PID file of a
    live process: if [kill] finds the process the file names, the daemon
    exits with ERR_BAD_PIDFILE and opens nothing for writing.  It only ever
    sends signal 0; when it exits - with ERR_BAD_PIDFILE or ERR_BAD_CONFIG -
    it has written nothing; and when it returns, its last calls opened the
    file for writing, asked for its own process id, wrote it and closed the
    file. *)
Theorem check_and_create_pid_file_spares_live_daemon (f : string)
    (s : State World) :
  let r := check_and_create_pid_file os f s in
  globals (after r) = globals s
  /\ Forall (eq 0) (signals_sent (syscalls r))
  /\ (existsb is_live_pid (syscalls r) = true ->
      ending r = Exited (ERR_BAD_PIDFILE os)
      /\ existsb is_write (syscalls r) = false)
  /\ (forall status, ending r = Exited status ->
      (status = ERR_BAD_PIDFILE os \/ status = ERR_BAD_CONFIG os)
      /\ written (syscalls r) = [])
  /\ (ending r = Returned tt ->
      exists pre fd pid,
        syscalls r = pre ++ [ScFopen f "w" (Some fd); ScGetpid pid;
                             ScFprintf fd pid; ScFclose fd]
        /\ existsb is_write pre = false).
Proof.
  destruct s as [w g].
  unfold check_and_create_pid_file, pbind, stat, fopen, fread, ferror, fclose,
    kill, getpid, fprintf, os_call, os_call_, exit, pret.
  cbn.
  destruct (os_stat os f w) as [st w1]; cbn.
  destruct (Z.eqb_spec st (-1)) as [E1|N1]; cbn.
  - destruct (os_fopen os f "w" w1) as [[fd|] w2]; cbn.
    + split; [reflexivity|]. split; [constructor|]. split; [discriminate|].
      split; [discriminate|]. intros _.
      exists [ScStat f st], fd, (fst (os_getpid os w2)). split; reflexivity.
    + split; [reflexivity|]. split; [constructor|]. split; [discriminate|].
      split; [|discriminate]. intros status [= <-]. split; [right|]; reflexivity.
  - destruct (os_fopen os f "r" w1) as [[fd|] w2]; cbn.
    2:{ split; [reflexivity|]. split; [constructor|]. split; [discriminate|].
        split; [|discriminate]. intros status [= <-]. split; [left|]; reflexivity. }
    destruct (os_fread os (MAXLEN os - 1) 1 fd w2) as [[nread data] w3]; cbn.
    set (pid := os_atoi os (c_string (firstn (MAXLEN os - 1) data))).
    destruct (Z.eqb_spec nread 0) as [E2|N2]; cbn.
    all: repeat (cbn; match goal with
         | |- context [os_ferror os ?a ?w] =>
             is_var w; destruct (os_ferror os a w) as [? ?]
         | |- context [os_kill os ?a ?b ?w] =>
             is_var w; destruct (os_kill os a b w) as [? ?]
         | |- context [os_fopen os ?a ?b ?w] =>
             is_var w; destruct (os_fopen os a b w) as [[?|] ?]
         | |- context [os_fclose os ?a ?w] =>
             is_var w; let w' := fresh "w" in
             set (w' := os_fclose os a w); clearbody w'
         | |- context [os_getpid os ?w] =>
             is_var w; destruct (os_getpid os w) as [? ?]
         | |- context [Z.eqb ?a ?b] =>
             destruct (Z.eqb_spec a b)
         end).
    all: try congruence.
    all: cbn.
    all: split; [reflexivity|]; split; [repeat constructor|].
    all: split; [first [discriminate | intros _; split; reflexivity]|].
    all: split;
      [first [discriminate
             | intros ? [= <-]; split;
               [first [left; reflexivity | right; reflexivity] | reflexivity]]
      |first [discriminate | intros _]].
    all: match goal with
         | |- exists pre _ _, ?l = _ /\ _ =>
             exists (removelast (removelast (removelast (removelast l))))
         end.
    all: cbn; eexists; eexists; split; reflexivity.
Qed.

#[local] Arguments terminate {World} env os opts {A} retval _ : simpl never.

Lemma main_sanity_checks_spec (s : State World) :
  let r := main_sanity_checks env os opts s in
  let cfg := config_file_options (globals s) in
  exists st info,
    record_read (daemon_events (syscalls r)) = Some (st, info)
    /\ (ending r = Returned tt <->
        st = RECORD_FOUND
        /\ (failover_mode opts = FAILOVER_MANUAL
            \/ (active info = true /\ commands_defined cfg)))
    /\ (ending r = Returned tt ->
        local_node_info (globals (after r)) = info
        /\ closed_conns (daemon_events (syscalls r)) = [])
    /\ (forall status, ending r = Exited status ->
        status = ERR_BAD_CONFIG os
        /\ In (local_conn (globals (after r)))
              (closed_conns (daemon_events (syscalls r)))).
Proof.
  destruct s as [w g].
  unfold main_sanity_checks, pbind, lift, get_globals, modify,
    establish_db_connection, get_node_record, PQfinish, call, call_, exit, pret.
  cbn.
  destruct (ext_establish_db_connection env (cfg_conninfo (config_file_options g))
              true w) as [c w1]; cbn.
  destruct (ext_get_node_record env c (cfg_node_id (config_file_options g))
              (local_node_info g) w1) as [[st info] w2]; cbn.
  assert (Hterm : forall s0 : State World,
            exists a sc,
              terminate env os opts (A := unit) (ERR_BAD_CONFIG os) s0
              = mk_run (Exited (ERR_BAD_CONFIG os)) a sc
              /\ globals a = globals s0).
  { intros s0. pose proof (terminate_spec unit (ERR_BAD_CONFIG os) s0) as Ht.
    cbv zeta in Ht.
    destruct (terminate env os opts (ERR_BAD_CONFIG os) s0) as [e a sc].
    cbn in Ht. destruct Ht as (-> & Hg & _). exists a, sc. auto. }
  exists st, info.
  destruct st; cbn.
  1, 3: match goal with
        | |- context [terminate env os opts ?rv ?s0] =>
            destruct (Hterm s0) as (a & sc & -> & Hg)
        end; cbn in Hg |- *.
  1, 2: split; [reflexivity|]; split;
        [split; [discriminate | intros [[=] _]]|];
        split; [discriminate|];
        intros status [= <-]; split; [reflexivity|]; rewrite Hg; left; reflexivity.
  destruct (active info) eqn:Hact; cbn;
    destruct (failover_mode opts) eqn:Hmode; cbn.
  - split; [reflexivity|]. split; [tauto|]. split; [auto|]. discriminate.
  - unfold commands_defined.
    destruct (promote_command (config_file_options g)) eqn:Hp,
             (service_promote_command (config_file_options g)) eqn:Hsp,
             (follow_command (config_file_options g)) eqn:Hf; cbn.
    all: split; [reflexivity|].
    all: split;
      [split;
       [first [discriminate
              | intros _; split; [reflexivity|]; right; split; [reflexivity|];
                split; [first [left; discriminate | right; discriminate]
                       | discriminate]]
       | first [intros _; reflexivity
               | intros (_ & [[=] | (_ & [Hc | Hc] & Hd)]); congruence]]|].
    all: split; [first [discriminate | auto]|].
    all: first [discriminate
               | intros status [= <-]; split; [reflexivity | left; reflexivity]].
  - split; [reflexivity|]. split; [tauto|]. split; [auto|]. discriminate.
  - match goal with
    | |- context [terminate env os opts ?rv ?s0] =>
        destruct (Hterm s0) as (a & sc & -> & Hg)
    end; cbn in Hg |- *.
    split; [reflexivity|].
    split; [split; [discriminate | intros (_ & [[=] | ([=] & _)])]|].
    split; [discriminate|].
    intros status [= <-]; split; [reflexivity|]; rewrite Hg; left; reflexivity.
Qed.

Lemma close_connections_reads_local (s : State World) (h : nat)
    (closed : list nat) :
  local_conn (globals s) = Some h ->
  existsb (Nat.eqb h) closed = true ->
  let evs := daemon_events (syscalls (close_connections env os opts s)) in
  exists st,
    In (EvPQstatus (Some h) st) (used_after_finish closed evs)
    /\ (st = CONNECTION_OK ->
        In (EvPQfinish (Some h)) (used_after_finish closed evs)).
Proof.
  destruct s as [w g]. cbn [globals]. intros Hl Hc.
  unfold close_connections, pbind, lift, get_globals, PQstatus,
    PQisBusy, cancel_query, PQfinish, call_, os_call, os_call_, pret.
  cbn. rewrite Hl.
  destruct (primary_conn g) as [hp|]; cbn.
  all: try destruct (ext_conn_status env hp w); cbn.
  all: try (destruct (os_PQisBusy os (Some hp) w) as [busy w1]; cbn;
            destruct (busy =? 1) eqn:Hbusy; cbn).
  all: repeat match goal with
       | |- context [ext_conn_status env ?h ?w] =>
           destruct (ext_conn_status env h w); cbn
       end.
  all: rewrite ?Hc, ?Bool.orb_true_r; cbn.
  all: try destruct (existsb (Nat.eqb hp) closed); cbn.
  all: first [ exists CONNECTION_OK; split; [tauto | intros _; tauto]
             | exists CONNECTION_BAD; split; [tauto | discriminate] ].
Qed.

Lemma terminate_reads_local (A : Type) (retval : Z) (s : State World) (h : nat)
    (closed : list nat) :
  local_conn (globals s) = Some h ->
  existsb (Nat.eqb h) closed = true ->
  let evs := daemon_events (syscalls (terminate env os opts (A := A) retval s)) in
  exists st,
    In (EvPQstatus (Some h) st) (used_after_finish closed evs)
    /\ (st = CONNECTION_OK ->
        In (EvPQfinish (Some h)) (used_after_finish closed evs)).
Proof.
  intros Hl Hc. cbv zeta.
  pose proof (close_connections_reads_local s h closed Hl Hc) as H. cbv zeta in H.
  pose proof (close_connections_spec s) as H'. cbv zeta in H'.
  unfold terminate, pbind.
  destruct (close_connections env os opts s) as [e a sc].
  cbn [ending after syscalls] in H, H'. destruct H' as (-> & _).
  destruct (pid_file opts); cbn; rewrite daemon_events_app; cbn;
    rewrite app_nil_r; exact H.
Qed.

(** X25: When the sanity checks of [main] give up through [terminate] -
    the node record is missing, or the node is inactive under automatic
    failover - the local connection has already been passed to [PQfinish]
    when [terminate] reads its status again, and if that read answers
    CONNECTION_OK the connection is passed to [PQfinish] a second time. *)
Theorem main_sanity_checks_reuse_closed_connection (s : State World)
    (h : nat) (st : RecordStatus) (info : t_node_info) :
  let r := main_sanity_checks env os opts s in
  let evs := daemon_events (syscalls r) in
  record_read evs = Some (st, info) ->
  st <> RECORD_FOUND
  \/ (active info = false /\ failover_mode opts = FAILOVER_AUTOMATIC) ->
  local_conn (globals (after r)) = Some h ->
  ending r = Exited (ERR_BAD_CONFIG os)
  /\ exists cst,
       In (EvPQstatus (Some h) cst) (used_after_finish [] evs)
       /\ (cst = CONNECTION_OK ->
           In (EvPQfinish (Some h)) (used_after_finish [] evs)).
Proof.
  destruct s as [w g].
  unfold main_sanity_checks, pbind, lift, get_globals, modify,
    establish_db_connection, get_node_record, PQfinish, call, call_, exit, pret.
  cbn.
  destruct (ext_establish_db_connection env (cfg_conninfo (config_file_options g))
              true w) as [c w1]; cbn.
  destruct (ext_get_node_record env c (cfg_node_id (config_file_options g))
              (local_node_info g) w1) as [[st0 info0] w2]; cbn.
  assert (Hterm : forall s0 : State World,
            local_conn (globals s0) = c ->
            exists a sc,
              terminate env os opts (A := unit) (ERR_BAD_CONFIG os) s0
              = mk_run (Exited (ERR_BAD_CONFIG os)) a sc
              /\ globals a = globals s0
              /\ (c = Some h ->
                  exists cst,
                    In (EvPQstatus (Some h) cst)
                       (used_after_finish [h] (daemon_events sc))
                    /\ (cst = CONNECTION_OK ->
                        In (EvPQfinish (Some h))
                           (used_after_finish [h] (daemon_events sc))))).
  { intros s0 Hs0.
    pose proof (terminate_spec unit (ERR_BAD_CONFIG os) s0) as Ht.
    cbv zeta in Ht.
    pose proof (fun H => terminate_reads_local unit (ERR_BAD_CONFIG os) s0 h [h] H)
      as Hr.
    cbv zeta in Hr.
    destruct (terminate env os opts (ERR_BAD_CONFIG os) s0) as [e a sc].
    cbn in Ht, Hr. destruct Ht as (-> & Hg & _). exists a, sc.
    split; [reflexivity|]. split; [exact Hg|].
    intros ->. apply Hr; [exact Hs0|]. rewrite Nat.eqb_refl. reflexivity. }
  destruct st0; cbn.
  1, 3: match goal with
        | |- context [terminate env os opts ?rv ?s0] =>
            destruct (Hterm s0 eq_refl) as (a & sc & -> & Hg & Huse)
        end; cbn in Hg |- *;
        intros _ _ Hh; rewrite Hg in Hh; cbn in Hh; split; [reflexivity|];
        subst c; exact (Huse eq_refl).
  destruct (active info0) eqn:Hact0; cbn;
    destruct (failover_mode opts) eqn:Hmode0; cbn.
  4:{ match goal with
      | |- context [terminate env os opts ?rv ?s0] =>
          destruct (Hterm s0 eq_refl) as (a & sc & -> & Hg & Huse)
      end; cbn in Hg |- *.
      intros _ _ Hh; rewrite Hg in Hh; cbn in Hh; split; [reflexivity|].
      subst c; exact (Huse eq_refl). }
  all: try match goal with
           | |- context [if ?b then _ else _] => destruct b; cbn
           end.
  all: intros [= <- <-] [Hst | (Hact & Hmode)]; congruence.
Qed.

(** X26: The sanity checks of [main] let the daemon go on exactly when the
    node record was found and either failover is manual, or the node is
    active and the promote and follow commands are defined.  When they
    pass, the record read is the local node's and no connection has been
    closed; when they fail, the process exits with ERR_BAD_CONFIG after
    closing the local connection. *)
Theorem main_sanity_checks_pass_iff (s : State World) :
  let r := main_sanity_checks env os opts s in
  let cfg := config_file_options (globals s) in
  exists st info,
    record_read (daemon_events (syscalls r)) = Some (st, info)
    /\ (ending r = Returned tt <->
        st = RECORD_FOUND
        /\ (failover_mode opts = FAILOVER_MANUAL
            \/ (active info = true /\ commands_defined cfg)))
    /\ (ending r = Returned tt ->
        local_node_info (globals (after r)) = info
        /\ closed_conns (daemon_events (syscalls r)) = [])
    /\ (forall status, ending r = Exited status ->
        status = ERR_BAD_CONFIG os
        /\ In (local_conn (globals (after r)))
              (closed_conns (daemon_events (syscalls r)))).
Proof. exact (main_sanity_checks_spec s). Qed.

Lemma always_pbind {A B : Type} (p : SysCall -> bool) (m : P World A)
    (k : A -> P World B) :
  always p m -> (forall a, always p (k a)) -> always p (pbind m k).
Proof.
  intros Hm Hk s. unfold pbind. specialize (Hm s).
  destruct (m s) as [[a|status] s1 sc1]; cbn in Hm |- *; [|exact Hm].
  specialize (Hk a s1). destruct (k a s1) as [e s2 sc2]. cbn in Hk |- *.
  rewrite forallb_app, Hm, Hk. reflexivity.
Qed.

Lemma always_pret {A : Type} (p : SysCall -> bool) (a : A) :
  always p (pret (World := World) a).
Proof. intros s. reflexivity. Qed.

Lemma always_exit {A : Type} (p : SysCall -> bool) (status : Z) :
  always p (exit (World := World) (A := A) status).
Proof. intros s. reflexivity. Qed.

Lemma always_os_call {A : Type} (p : SysCall -> bool)
    (f : World -> A * World) (sc : A -> SysCall) :
  (forall a, p (sc a) = true) -> always p (os_call f sc).
Proof. intros H s. cbn. rewrite H. reflexivity. Qed.

Lemma always_os_call_ (p : SysCall -> bool) (f : World -> World) (sc : SysCall) :
  p sc = true -> always p (os_call_ f sc).
Proof. intros H s. cbn. rewrite H. reflexivity. Qed.

Lemma always_lift {A : Type} (p : SysCall -> bool) (m : M World A) :
  (forall e, p (ScDaemon e) = true) -> always p (lift m).
Proof.
  intros H s. unfold lift. destruct (m s) as [a s1 evs]. cbn.
  induction evs as [|e evs IH]; cbn; [reflexivity|]. rewrite H, IH. reflexivity.
Qed.

Ltac always_step :=
  match goal with
  | |- always _ (pbind _ _) => apply always_pbind; [|intros ?]
  | |- always _ (pret _) => apply always_pret
  | |- always _ (exit _) => apply always_exit
  | |- always _ (lift _) => apply always_lift; intros ?; reflexivity
  | |- always _ (os_call _ _) => apply always_os_call; intros ?; reflexivity
  | |- always _ (os_call_ _ _) => apply always_os_call_; reflexivity
  | |- always _ (if ?b then _ else _) => destruct b
  | |- always _ (match ?x with _ => _ end) => destruct x
  end.

Lemma main_sanity_checks_no_fork_no_write :
  always (fun sc => not_fork sc && not_write sc) (main_sanity_checks env os opts).
Proof.
  unfold main_sanity_checks, terminate, close_connections, PQisBusy, cancel_query,
    unlink.
  repeat always_step.
Qed.

Lemma main_sanity_checks_shutdown_kind :
  always shutdown_kind (main_sanity_checks env os opts).
Proof.
  unfold main_sanity_checks, terminate, close_connections, PQisBusy, cancel_query,
    unlink.
  repeat always_step.
Qed.

Lemma daemonize_process_no_write : always not_write (daemonize_process os opts).
Proof.
  unfold daemonize_process, fork, setsid, chdir.
  repeat always_step.
Qed.

Lemma check_and_create_pid_file_no_fork (f : string) :
  always not_fork (check_and_create_pid_file os f).
Proof.
  unfold check_and_create_pid_file, stat, fopen, fread, ferror, fclose, kill,
    getpid, fprintf.
  repeat always_step.
Qed.

(** X27: In [main], from the connection to the local database on, no
    [fork] comes after a write: the PID file is written by the process
    that goes on to monitor, not by the one that was launched.  And if the
    sanity checks end the process, the run is that of the checks alone:
    calls to the database and what [terminate] adds to them - the cancel
    of a busy query and the [unlink] of the configured PID file, which
    this process has neither checked nor written.  There is no fork, no
    change of session or directory, no look at or write to the PID file,
    no [kill] and no signal handler. *)
Theorem main_writes_pid_file_after_detaching (fuel : nat) (s : State World) :
  let c := main_sanity_checks env os opts s in
  let r := main_from_connection env os opts fuel s in
  no_fork_after_write false (syscalls r) = true
  /\ (forall status, ending c = Exited status ->
      ending r = Exited status
      /\ after r = after c
      /\ syscalls r = syscalls c
      /\ forallb shutdown_kind (syscalls r) = true).
Proof.
  cbv zeta. unfold main_from_connection.
  pose proof (main_sanity_checks_no_fork_no_write s) as HS.
  pose proof (main_sanity_checks_shutdown_kind s) as HK.
  set (rest := fun _ : unit =>
         pbind match pid_file opts with
               | Some f => check_and_create_pid_file os f
               | None => pret tt
               end
           (fun _ => pbind (setup_event_handlers os)
              (fun _ => pbind (lift (start_monitoring env fuel))
                 (fun r => match r with
                           | Some _ => pret (Some (SUCCESS os))
                           | None => pret None
                           end)))).
  assert (Hrest : forall u, always not_fork (rest u)).
  { intros u. unfold rest, setup_event_handlers, pqsignal.
    apply always_pbind.
    - destruct (pid_file opts); [apply check_and_create_pid_file_no_fork|].
      apply always_pret.
    - intros ?. repeat always_step. }
  set (detach := if daemonize opts then daemonize_process os opts else pret tt).
  assert (Hdetach : always not_write detach).
  { unfold detach. destruct (daemonize opts);
      [apply daemonize_process_no_write | apply always_pret]. }
  change (no_fork_after_write false
            (syscalls (pbind (main_sanity_checks env os opts)
                         (fun _ => pbind detach rest) s)) = true
          /\ (forall status,
               ending (main_sanity_checks env os opts s) = Exited status ->
               ending (pbind (main_sanity_checks env os opts)
                         (fun _ => pbind detach rest) s) = Exited status
               /\ after (pbind (main_sanity_checks env os opts)
                           (fun _ => pbind detach rest) s)
                  = after (main_sanity_checks env os opts s)
               /\ syscalls (pbind (main_sanity_checks env os opts)
                              (fun _ => pbind detach rest) s)
                  = syscalls (main_sanity_checks env os opts s)
               /\ forallb shutdown_kind
                    (syscalls (pbind (main_sanity_checks env os opts)
                                 (fun _ => pbind detach rest) s)) = true)).
  clearbody rest detach.
  unfold pbind at 1 3 5 7 9.
  destruct (main_sanity_checks env os opts s) as [[u|status] s1 sc1];
    cbn [ending after syscalls] in HS, HK |- *.
  2:{ split.
      - rewrite <- (app_nil_r sc1). apply no_fork_after_write_phases; [|reflexivity].
        revert HS. apply forallb_weaken. intros x Hx.
        apply andb_prop in Hx. tauto.
      - intros st [= <-]. auto. }
  unfold pbind. specialize (Hdetach s1).
  destruct (detach s1) as [[v|status] s2 sc2]; cbn [ending after syscalls] in *.
  - specialize (Hrest v s2). destruct (rest v s2) as [e s3 sc3].
    cbn [ending after syscalls] in *. split; [|discriminate].
    rewrite app_assoc. apply no_fork_after_write_phases; [|exact Hrest].
    rewrite forallb_app, Hdetach, andb_true_r.
    revert HS. apply forallb_weaken. intros x Hx. apply andb_prop in Hx. tauto.
  - split; [|discriminate].
    rewrite <- (app_nil_r (sc1 ++ sc2)).
    apply no_fork_after_write_phases; [|reflexivity].
    rewrite forallb_app, Hdetach, andb_true_r.
    revert HS. apply forallb_weaken. intros x Hx. apply andb_prop in Hx. tauto.
Qed.

End ProcessProperties.

(** *** More of the general results at work on the scripted cluster *)

Lemma poll_equal_lsn_prefers_priority_witness :
  Forall (fun c => last_wal_receive_lsn c = last_wal_receive_lsn ahead2) [level1]
  /\ (In (poll_best_candidate ahead2 [level1]) [ahead2; level1]
      /\ Forall (fun c => priority c <= priority (poll_best_candidate ahead2 [level1]))
           [ahead2; level1]).
Proof.
  assert (H : Forall (fun c => last_wal_receive_lsn c = last_wal_receive_lsn ahead2)
                [level1]) by (repeat constructor).
  split; [exact H |].
  exact (poll_equal_lsn_prefers_priority ahead2 [level1] H).
Defined.

Lemma poll_tie_returns_local_witness :
  Forall (fun c => last_wal_receive_lsn c = last_wal_receive_lsn ahead2
                   /\ priority c <= priority ahead2) [level1]
  /\ poll_best_candidate ahead2 [level1] = ahead2.
Proof.
  assert (H : Forall (fun c => last_wal_receive_lsn c = last_wal_receive_lsn ahead2
                               /\ priority c <= priority ahead2) [level1]).
  { repeat constructor. cbn. lia. }
  split; [exact H |].
  exact (poll_tie_returns_local ahead2 [level1] H).
Defined.

Lemma failover_dispatch_notifies_followers_witness :
  failover_state (globals state_promoted) = FAILOVER_STATE_PROMOTED
  /\ (value promoted_dispatch_run = SwitchReturn
      /\ Forall (eq 2) (notify_targets (events promoted_dispatch_run))
      /\ notified_after_ok None (events promoted_dispatch_run) = true
      /\ (List.length (notify_targets (events promoted_dispatch_run))
          + failed_connects (events promoted_dispatch_run) = 2)%nat
      /\ globals (final promoted_dispatch_run)
         = set_failover_state FAILOVER_STATE_NONE
             (set_standby_nodes [] (globals state_promoted))).
Proof.
  assert (Hfs : failover_state (globals state_promoted) = FAILOVER_STATE_PROMOTED)
    by reflexivity.
  split; [exact Hfs |].
  exact (failover_dispatch_notifies_followers (scripted sc_election_won)
           state_promoted (or_introl Hfs)).
Defined.

Lemma standby_turn_quiet_witness :
  fst (ext_is_server_available (scripted sc_primary_reappeared)
         (conninfo (upstream_node_info (globals (state2 FAILOVER_STATE_NONE))))
         (world (state2 FAILOVER_STATE_NONE))) = true
  /\ (value quiet_turn_run = LoopNext NODE_STATUS_UP
      /\ forallb supervision_kind (events quiet_turn_run) = true
      /\ set_local_conn None (globals (final quiet_turn_run))
         = set_local_conn None (globals (state2 FAILOVER_STATE_NONE))).
Proof.
  assert (H : fst (ext_is_server_available (scripted sc_primary_reappeared)
                (conninfo (upstream_node_info (globals (state2 FAILOVER_STATE_NONE))))
                (world (state2 FAILOVER_STATE_NONE))) = true) by reflexivity.
  split; [exact H |].
  exact (standby_turn_quiet (scripted sc_primary_reappeared) NODE_STATUS_UP
           (state2 FAILOVER_STATE_NONE) (or_introl H)).
Defined.

Lemma standby_turn_election_after_reconnect_witness :
  existsb is_rand
    (events (standby_loop_body (scripted sc_upstream_refuses) NODE_STATUS_UP
               (state2 FAILOVER_STATE_NONE))) = true
  /\ probe_answers
       (before_election
          (events (standby_loop_body (scripted sc_upstream_refuses)
                     NODE_STATUS_UP (state2 FAILOVER_STATE_NONE))))
     = [false; false; true; true; true; true]
  /\ (NODE_STATUS_UP = NODE_STATUS_UP
      /\ exists attempts,
           before_election
             (events (standby_loop_body (scripted sc_upstream_refuses)
                        NODE_STATUS_UP (state2 FAILOVER_STATE_NONE)))
           = EvIsServerAvailable
               (conninfo (upstream_node_info (globals (state2 FAILOVER_STATE_NONE))))
               false
             :: EvPQfinish (upstream_conn (globals (state2 FAILOVER_STATE_NONE)))
             :: attempts
           /\ probes attempts = 5%nat
           /\ slept attempts = 5
           /\ spaced true attempts = true
           /\ ok_conns attempts = []
           /\ forallb reconnect_kind attempts = true).
Proof.
  assert (H : existsb is_rand
                (events (standby_loop_body (scripted sc_upstream_refuses)
                           NODE_STATUS_UP (state2 FAILOVER_STATE_NONE))) = true)
    by (vm_compute; reflexivity).
  split; [exact H |].
  split; [vm_compute; reflexivity |].
  exact (standby_turn_election_after_reconnect (scripted sc_upstream_refuses)
           NODE_STATUS_UP (state2 FAILOVER_STATE_NONE) H).
Defined.

Lemma start_monitoring_unhandled_roles_witness :
  type (local_node_info (globals state_witness)) = WITNESS
  /\ (value (start_monitoring (scripted sc_election_won) 1 state_witness) = Some tt
      /\ final (start_monitoring (scripted sc_election_won) 1 state_witness)
         = final (reset_node_voting_status (scripted sc_election_won) state_witness)
      /\ events (start_monitoring (scripted sc_election_won) 1 state_witness)
         = events (reset_node_voting_status (scripted sc_election_won) state_witness)).
Proof.
  assert (H : type (local_node_info (globals state_witness)) = WITNESS)
    by reflexivity.
  split; [exact H |].
  exact (start_monitoring_unhandled_roles (scripted sc_election_won) 0
           state_witness (or_intror H)).
Defined.

Lemma start_monitoring_unknown_spins_witness :
  type (local_node_info (globals state_unknown)) = UNKNOWN
  /\ (value (start_monitoring (scripted sc_election_won) 3 state_unknown) = None
      /\ forallb reset_kind
           (events (start_monitoring (scripted sc_election_won) 3 state_unknown))
         = true
      /\ local_node_info
           (globals (final (start_monitoring (scripted sc_election_won) 3
                              state_unknown)))
         = local_node_info (globals state_unknown)).
Proof.
  assert (H : type (local_node_info (globals state_unknown)) = UNKNOWN)
    by reflexivity.
  split; [exact H |].
  exact (start_monitoring_unknown_spins (scripted sc_election_won) 3
           state_unknown H).
Defined.

Lemma do_election_unseen_node_wins_witness :
  local_lsn_read
    (events (do_election (scripted sc_sibling_unreachable)
               (state2 FAILOVER_STATE_NONE))) = Some 500
  /\ announce_successes
       (events (do_election (scripted sc_sibling_unreachable)
                  (state2 FAILOVER_STATE_NONE))) = 0
  /\ siblings_found
       (events (do_election (scripted sc_sibling_unreachable)
                  (state2 FAILOVER_STATE_NONE))) = Some 1
  /\ value (do_election (scripted sc_sibling_unreachable)
              (state2 FAILOVER_STATE_NONE)) = ELECTION_WON
  /\ vote_requests
       (events (do_election (scripted sc_sibling_unreachable)
                  (state2 FAILOVER_STATE_NONE))) = 0.
Proof.
  assert (H1 : local_lsn_read
                 (events (do_election (scripted sc_sibling_unreachable)
                            (state2 FAILOVER_STATE_NONE))) = Some 500)
    by (vm_compute; reflexivity).
  assert (H2 : announce_successes
                 (events (do_election (scripted sc_sibling_unreachable)
                            (state2 FAILOVER_STATE_NONE))) = 0)
    by (vm_compute; reflexivity).
  split; [exact H1 |]. split; [exact H2 |].
  split; [vm_compute; reflexivity |].
  exact (do_election_unseen_node_wins (scripted sc_sibling_unreachable)
           (state2 FAILOVER_STATE_NONE) 500 H1 H2).
Defined.

Lemma do_election_vote_owed_witness :
  voting_status_read (events election_owed_run) = Some VS_VOTE_REQUEST_RECEIVED
  /\ (existsb is_set_voting_status_initiated (events election_owed_run)
      = negb (NodeVotingStatus_eqb VS_VOTE_REQUEST_RECEIVED VS_VOTE_REQUEST_RECEIVED)
      /\ (VS_VOTE_REQUEST_RECEIVED = VS_VOTE_REQUEST_RECEIVED ->
          value election_owed_run = ELECTION_NOT_CANDIDATE
          /\ existsb is_peer_contact (events election_owed_run) = false
          /\ siblings_found (events election_owed_run) = None)).
Proof.
  assert (H : voting_status_read (events election_owed_run)
              = Some VS_VOTE_REQUEST_RECEIVED) by (vm_compute; reflexivity).
  split; [exact H |].
  exact (do_election_vote_owed (scripted sc_no_new_primary)
           (state2 FAILOVER_STATE_NONE) VS_VOTE_REQUEST_RECEIVED H).
Defined.

Lemma config_dir_splits_at_last_slash_witness :
  let config_file := list_ascii_of_string "/etc/repmgr/repmgr.conf" in
  ~ In NUL config_file
  /\ (List.length config_file < 1024)%nat
  /\ c_string (config_dir_buffer 1024 config_file)
     = list_ascii_of_string "/etc/repmgr"
  /\ ((c_string (config_dir_buffer 1024 config_file) = [slash]
       /\ forall j, (1 <= j)%nat -> char_at config_file j <> slash)
      \/ (exists base,
            config_file = c_string (config_dir_buffer 1024 config_file)
                            ++ slash :: base
            /\ c_string (config_dir_buffer 1024 config_file) <> []
            /\ ~ In slash base)).
Proof.
  cbv zeta.
  assert (H1 : ~ In NUL (list_ascii_of_string "/etc/repmgr/repmgr.conf")).
  { intros H. cbn in H. repeat (destruct H as [H | H]; [discriminate H |]).
    exact H. }
  assert (H2 : (List.length (list_ascii_of_string "/etc/repmgr/repmgr.conf")
                < 1024)%nat) by (cbn; lia).
  split; [exact H1 |]. split; [exact H2 |].
  split; [vm_compute; reflexivity |].
  exact (config_dir_splits_at_last_slash 1024
           (list_ascii_of_string "/etc/repmgr/repmgr.conf") H1 H2).
Defined.

Lemma main_sanity_checks_reuse_closed_connection_witness :
  record_read (daemon_events (syscalls record_missing_run))
  = Some (RECORD_NOT_FOUND, node2)
  /\ RECORD_NOT_FOUND <> RECORD_FOUND
  /\ local_conn (globals (after record_missing_run)) = Some 12%nat
  /\ closed_conns (daemon_events (syscalls record_missing_run))
     = [Some 12%nat; Some 11%nat; Some 12%nat]
  /\ ending record_missing_run = Exited 1
  /\ exists cst,
       In (EvPQstatus (Some 12%nat) cst)
          (used_after_finish [] (daemon_events (syscalls record_missing_run)))
       /\ (cst = CONNECTION_OK ->
           In (EvPQfinish (Some 12%nat))
              (used_after_finish [] (daemon_events (syscalls record_missing_run)))).
Proof.
  assert (H1 : record_read (daemon_events (syscalls record_missing_run))
               = Some (RECORD_NOT_FOUND, node2)) by (vm_compute; reflexivity).
  assert (H2 : RECORD_NOT_FOUND <> RECORD_FOUND) by discriminate.
  assert (H3 : local_conn (globals (after record_missing_run)) = Some 12%nat)
    by (vm_compute; reflexivity).
  split; [exact H1 |]. split; [exact H2 |]. split; [exact H3 |].
  split; [vm_compute; reflexivity |].
  exact (main_sanity_checks_reuse_closed_connection (scripted sc_record_missing)
           scripted_os options2 (state2 FAILOVER_STATE_NONE) 12 RECORD_NOT_FOUND
           node2 H1 (or_introl H2) H3).
Defined.

Lemma daemonize_process_detaches_witness :
  ~ In NUL (list_ascii_of_string (config_file options2))
  /\ (String.length (config_file options2) < MAXPGPATH scripted_os)%nat
  /\ ending (daemonize_process scripted_os options2 (state2 FAILOVER_STATE_NONE))
     = Returned tt
  /\ syscalls (daemonize_process scripted_os options2 (state2 FAILOVER_STATE_NONE))
     = [ScFork 0; ScSetsid 1; ScFork 0; ScChdir "/etc/repmgr" 0]
  /\ (globals (after (daemonize_process scripted_os options2
                        (state2 FAILOVER_STATE_NONE)))
      = globals (state2 FAILOVER_STATE_NONE)
      /\ match ending (daemonize_process scripted_os options2
                         (state2 FAILOVER_STATE_NONE)) with
         | Returned _ =>
             exists sid rc,
               sid <> -1
               /\ syscalls (daemonize_process scripted_os options2
                              (state2 FAILOVER_STATE_NONE))
                  = [ScFork 0; ScSetsid sid; ScFork 0;
                     ScChdir (config_dir (MAXPGPATH scripted_os)
                                (config_file options2)) rc]
         | Exited status =>
             existsb is_chdir
               (syscalls (daemonize_process scripted_os options2
                            (state2 FAILOVER_STATE_NONE))) = false
             /\ ((status = ERR_SYS_FAILURE scripted_os
                  /\ exists pre,
                       syscalls (daemonize_process scripted_os options2
                                   (state2 FAILOVER_STATE_NONE))
                       = pre ++ [ScFork (-1)]
                       \/ syscalls (daemonize_process scripted_os options2
                                      (state2 FAILOVER_STATE_NONE))
                          = pre ++ [ScSetsid (-1)])
                 \/ (status = 0
                     /\ exists pre pid,
                          pid <> 0 /\ pid <> -1
                          /\ syscalls (daemonize_process scripted_os options2
                                         (state2 FAILOVER_STATE_NONE))
                             = pre ++ [ScFork pid]))
         end).
Proof.
  assert (H0 : ~ In NUL (list_ascii_of_string (config_file options2))).
  { intros H. cbn in H. repeat (destruct H as [H | H]; [discriminate H |]).
    exact H. }
  assert (H : (String.length (config_file options2) < MAXPGPATH scripted_os)%nat)
    by (vm_compute; lia).
  split; [exact H0 |]. split; [exact H |].
  split; [vm_compute; reflexivity |].
  split; [vm_compute; reflexivity |].
  exact (daemonize_process_detaches scripted_os options2
           (state2 FAILOVER_STATE_NONE) H0 H).
Defined.
